(** * Gmail Agent Registration: token custody, watch lifecycle and notifier

    A shallow embedding of the backend of the repository
    (backend/database.js, backend/auth.js, backend/webhook.js,
    backend/gmail-watch.js, backend/server.js, functions/watch-renewal.js).

    JavaScript values are modelled by the types the code uses them at;
    [async] functions become functions on an explicit [World] (the Firestore
    collection and the chronological history of every interaction with the
    outside); whatever the outside answers (the clock, the identity
    provider, the mail API, the webhook receiver, Firestore's availability)
    is read from an [Env], whose answers may depend on the history so far. *)

From Stdlib Require Import ZArith NArith String Ascii List Bool Lia Sorted Btauto.
From stdpp Require Import gmap strings.
From Equations Require Import Equations.
Import ListNotations.
Local Open Scope string_scope.
Local Open Scope list_scope.

(** ** JavaScript preliminaries *)

Module Js.

(** A thrown [Error]: the handlers of this code base read only
    [error.message]. *)
Record Error : Type := mkError { message : string }.

(** How the evaluation of a block ends: with a value, or by throwing. *)
Inductive completion (A : Type) : Type :=
| Return (a : A)
| Throw (e : Error).
Arguments Return {A} a.
Arguments Throw {A} e.

(** [!!v] for a value that is a string or [undefined]: [undefined] and the
    empty string are falsy. *)
Definition truthy (v : option string) : bool :=
  match v with
  | Some s => negb (String.eqb s "")
  | None => false
  end.

End Js.
Export Js.

(** ** crypto-js, as far as [CryptoJS.AES.encrypt] and [CryptoJS.AES.decrypt]
    with a passphrase go

    The library is not part of the repository. It is modelled by what it
    computes: AES-256 in CBC mode with PKCS#7 padding, key and IV derived
    from the passphrase and a random 8-byte salt by OpenSSL's MD5 scheme,
    the result written as Base64 of ["Salted__"], the salt and the
    ciphertext. A byte is an [ascii]; a JavaScript string is the [string] of
    its UTF-8 bytes. *)

Module CryptoJS.

(** *** Bytes *)

Definition zero : ascii := Ascii false false false false false false false false.

Definition bxor (a b : ascii) : ascii :=
  let 'Ascii a0 a1 a2 a3 a4 a5 a6 a7 := a in
  let 'Ascii b0 b1 b2 b3 b4 b5 b6 b7 := b in
  Ascii (xorb a0 b0) (xorb a1 b1) (xorb a2 b2) (xorb a3 b3)
        (xorb a4 b4) (xorb a5 b5) (xorb a6 b6) (xorb a7 b7).

(** A 32-bit word as its four bytes, and a 128-bit block as four words
    (for AES: the four columns of the state). *)
Inductive word : Type := W (a b c d : ascii).
Inductive block : Type := B (c0 c1 c2 c3 : word).

Definition wxor (x y : word) : word :=
  let 'W a b c d := x in
  let 'W a' b' c' d' := y in
  W (bxor a a') (bxor b b') (bxor c c') (bxor d d').

Definition block_xor (x y : block) : block :=
  let 'B a b c d := x in
  let 'B a' b' c' d' := y in
  B (wxor a a') (wxor b b') (wxor c c') (wxor d d').

Definition bytes_of_word (x : word) : list ascii :=
  let 'W a b c d := x in [a; b; c; d].

Definition bytes_of_block (x : block) : list ascii :=
  let 'B a b c d := x in
  bytes_of_word a ++ bytes_of_word b ++ bytes_of_word c ++ bytes_of_word d.

Definition bytes_of_blocks (l : list block) : list ascii :=
  flat_map bytes_of_block l.

(** The whole blocks of a byte sequence (a rest shorter than a block is
    dropped; padded data has none). *)
Fixpoint blocks_of_bytes (l : list ascii) : list block :=
  match l with
  | a0 :: a1 :: a2 :: a3 :: a4 :: a5 :: a6 :: a7 ::
    a8 :: a9 :: a10 :: a11 :: a12 :: a13 :: a14 :: a15 :: rest =>
      B (W a0 a1 a2 a3) (W a4 a5 a6 a7) (W a8 a9 a10 a11) (W a12 a13 a14 a15)
      :: blocks_of_bytes rest
  | _ => []
  end.

(** Bytes in hexadecimal, for reading digests and blocks. *)
Definition hex_digit (n : N) : ascii :=
  nth (N.to_nat n) (list_ascii_of_string "0123456789abcdef") "0"%char.

Definition hex (bytes : list ascii) : string :=
  string_of_list_ascii
    (flat_map (fun c => [hex_digit (N_of_ascii c / 16); hex_digit (N_of_ascii c mod 16)])
       bytes).

(** *** MD5 (RFC 1321), on 32-bit words kept as numbers below 2^32 *)

Module MD5.
Local Open Scope N_scope.

Definition mask : N := 4294967295.
Definition add32 (x y : N) : N := N.land (x + y) mask.
Definition not32 (x : N) : N := N.lxor x mask.
Definition rotl32 (x : N) (s : N) : N :=
  N.lor (N.land (N.shiftl x s) mask) (N.shiftr x (32 - s)).

(** 2^32 * abs (sin (i + 1)), and the rotation of each step. *)
Definition T : list N :=
  [3614090360; 3905402710; 606105819; 3250441966; 4118548399; 1200080426;
   2821735955; 4249261313; 1770035416; 2336552879; 4294925233; 2304563134;
   1804603682; 4254626195; 2792965006; 1236535329; 4129170786; 3225465664;
   643717713; 3921069994; 3593408605; 38016083; 3634488961; 3889429448;
   568446438; 3275163606; 4107603335; 1163531501; 2850285829; 4243563512;
   1735328473; 2368359562; 4294588738; 2272392833; 1839030562; 4259657740;
   2763975236; 1272893353; 4139469664; 3200236656; 681279174; 3936430074;
   3572445317; 76029189; 3654602809; 3873151461; 530742520; 3299628645;
   4096336452; 1126891415; 2878612391; 4237533241; 1700485571; 2399980690;
   4293915773; 2240044497; 1873313359; 4264355552; 2734768916; 1309151649;
   4149444226; 3174756917; 718787259; 3951481745].

Definition S : list N :=
  [7; 12; 17; 22; 7; 12; 17; 22; 7; 12; 17; 22; 7; 12; 17; 22;
   5; 9; 14; 20; 5; 9; 14; 20; 5; 9; 14; 20; 5; 9; 14; 20;
   4; 11; 16; 23; 4; 11; 16; 23; 4; 11; 16; 23; 4; 11; 16; 23;
   6; 10; 15; 21; 6; 10; 15; 21; 6; 10; 15; 21; 6; 10; 15; 21].

Record state : Type := mkState { sa : N; sb : N; sc : N; sd : N }.

Definition init : state :=
  {| sa := 1732584193; sb := 4023233417; sc := 2562383102; sd := 271733878 |}.

Definition step (M : list N) (st : state) (i : nat) : state :=
  let '(mkState a b c d) := st in
  let round := (i / 16)%nat in
  let f :=
    match round with
    | 0%nat => N.lor (N.land b c) (N.land (not32 b) d)
    | 1%nat => N.lor (N.land d b) (N.land (not32 d) c)
    | 2%nat => N.lxor b (N.lxor c d)
    | _ => N.lxor c (N.lor b (not32 d))
    end in
  let g :=
    match round with
    | 0%nat => i
    | 1%nat => ((5 * i + 1) mod 16)%nat
    | 2%nat => ((3 * i + 5) mod 16)%nat
    | _ => ((7 * i) mod 16)%nat
    end in
  let f' := add32 (add32 (add32 f a) (nth i T 0)) (nth g M 0) in
  mkState d (add32 b (rotl32 f' (nth i S 0))) b c.

Definition compress (st : state) (M : list N) : state :=
  let st' := fold_left (step M) (seq 0 64) st in
  mkState (add32 (sa st) (sa st')) (add32 (sb st) (sb st'))
          (add32 (sc st) (sc st')) (add32 (sd st) (sd st')).

(** Little-endian words of a byte sequence. *)
Fixpoint words_le (l : list ascii) : list N :=
  match l with
  | a :: b :: c :: d :: rest =>
      (N_of_ascii a + 256 * (N_of_ascii b + 256 * (N_of_ascii c + 256 * N_of_ascii d)))
      :: words_le rest
  | _ => []
  end.

Fixpoint chunks (ws : list N) : list (list N) :=
  match ws with
  | w0 :: w1 :: w2 :: w3 :: w4 :: w5 :: w6 :: w7 ::
    w8 :: w9 :: w10 :: w11 :: w12 :: w13 :: w14 :: w15 :: rest =>
      [w0; w1; w2; w3; w4; w5; w6; w7; w8; w9; w10; w11; w12; w13; w14; w15]
      :: chunks rest
  | _ => []
  end.

Definition byte_le (x : N) (k : N) : ascii := ascii_of_N (N.land (N.shiftr x (8 * k)) 255).

Definition word_le (x : N) : word :=
  W (byte_le x 0) (byte_le x 1) (byte_le x 2) (byte_le x 3).

Definition padding (len : nat) : list ascii :=
  let bits := (8 * N.of_nat len) in
  ascii_of_N 128 :: List.repeat zero ((55 + 64 - len mod 64) mod 64)%nat
  ++ map (byte_le bits) [0; 1; 2; 3; 4; 5; 6; 7].

Definition md5 (message : list ascii) : block :=
  let st := fold_left compress (chunks (words_le (message ++ padding (length message)))) init in
  B (word_le (sa st)) (word_le (sb st)) (word_le (sc st)) (word_le (sd st)).
End MD5.

(** *** AES-256 (FIPS 197) *)

Module AES.

(** Multiplication by x in GF(2^8) modulo x^8 + x^4 + x^3 + x + 1. *)
Definition xtime (a : ascii) : ascii :=
  let 'Ascii b0 b1 b2 b3 b4 b5 b6 b7 := a in
  Ascii b7 (xorb b0 b7) b1 (xorb b2 b7) (xorb b3 b7) b4 b5 b6.

Definition scale (c : bool) (a : ascii) : ascii := if c then a else zero.

Definition gmul (a b : ascii) : ascii :=
  let 'Ascii b0 b1 b2 b3 b4 b5 b6 b7 := b in
  let a1 := xtime a in let a2 := xtime a1 in let a3 := xtime a2 in
  let a4 := xtime a3 in let a5 := xtime a4 in let a6 := xtime a5 in
  let a7 := xtime a6 in
  bxor (scale b0 a) (bxor (scale b1 a1) (bxor (scale b2 a2) (bxor (scale b3 a3)
    (bxor (scale b4 a4) (bxor (scale b5 a5) (bxor (scale b6 a6) (scale b7 a7))))))).

(** The inverse in the field (and 0 for 0): the power 254. *)
Definition ginv (a : ascii) : ascii :=
  let a2 := gmul a a in let a4 := gmul a2 a2 in let a8 := gmul a4 a4 in
  let a16 := gmul a8 a8 in let a32 := gmul a16 a16 in let a64 := gmul a32 a32 in
  let a128 := gmul a64 a64 in
  gmul a2 (gmul a4 (gmul a8 (gmul a16 (gmul a32 (gmul a64 a128))))).

Definition affine (a : ascii) : ascii :=
  let 'Ascii b0 b1 b2 b3 b4 b5 b6 b7 := a in
  let x5 (p q r s t : bool) := xorb p (xorb q (xorb r (xorb s t))) in
  Ascii (negb (x5 b0 b4 b5 b6 b7)) (negb (x5 b1 b5 b6 b7 b0))
        (x5 b2 b6 b7 b0 b1) (x5 b3 b7 b0 b1 b2) (x5 b4 b0 b1 b2 b3)
        (negb (x5 b5 b1 b2 b3 b4)) (negb (x5 b6 b2 b3 b4 b5))
        (x5 b7 b3 b4 b5 b6).

Definition inv_affine (a : ascii) : ascii :=
  let 'Ascii b0 b1 b2 b3 b4 b5 b6 b7 := a in
  let x3 (p q r : bool) := xorb p (xorb q r) in
  Ascii (negb (x3 b2 b5 b7)) (x3 b3 b6 b0) (negb (x3 b4 b7 b1)) (x3 b5 b0 b2)
        (x3 b6 b1 b3) (x3 b7 b2 b4) (x3 b0 b3 b5) (x3 b1 b4 b6).

Definition sbox (a : ascii) : ascii := affine (ginv a).
Definition inv_sbox (a : ascii) : ascii := ginv (inv_affine a).

Definition map_word (f : ascii -> ascii) (x : word) : word :=
  let 'W a b c d := x in W (f a) (f b) (f c) (f d).
Definition map_block (f : word -> word) (x : block) : block :=
  let 'B a b c d := x in B (f a) (f b) (f c) (f d).

Definition SubBytes : block -> block := map_block (map_word sbox).
Definition InvSubBytes : block -> block := map_block (map_word inv_sbox).

Definition ShiftRows (s : block) : block :=
  let 'B (W a0 a1 a2 a3) (W b0 b1 b2 b3) (W c0 c1 c2 c3) (W d0 d1 d2 d3) := s in
  B (W a0 b1 c2 d3) (W b0 c1 d2 a3) (W c0 d1 a2 b3) (W d0 a1 b2 c3).

Definition InvShiftRows (s : block) : block :=
  let 'B (W a0 a1 a2 a3) (W b0 b1 b2 b3) (W c0 c1 c2 c3) (W d0 d1 d2 d3) := s in
  B (W a0 d1 c2 b3) (W b0 a1 d2 c3) (W c0 b1 a2 d3) (W d0 c1 b2 a3).

Definition mul2 (a : ascii) : ascii := xtime a.
Definition mul3 (a : ascii) : ascii := bxor (xtime a) a.
Definition mul9 (a : ascii) : ascii := bxor (xtime (xtime (xtime a))) a.
Definition mul11 (a : ascii) : ascii :=
  bxor (xtime (xtime (xtime a))) (bxor (xtime a) a).
Definition mul13 (a : ascii) : ascii :=
  bxor (xtime (xtime (xtime a))) (bxor (xtime (xtime a)) a).
Definition mul14 (a : ascii) : ascii :=
  bxor (xtime (xtime (xtime a))) (bxor (xtime (xtime a)) (xtime a)).

Definition bxor4 (a b c d : ascii) : ascii := bxor a (bxor b (bxor c d)).

Definition mix_column (x : word) : word :=
  let 'W a0 a1 a2 a3 := x in
  W (bxor4 (mul2 a0) (mul3 a1) a2 a3)
    (bxor4 a0 (mul2 a1) (mul3 a2) a3)
    (bxor4 a0 a1 (mul2 a2) (mul3 a3))
    (bxor4 (mul3 a0) a1 a2 (mul2 a3)).

Definition inv_mix_column (x : word) : word :=
  let 'W a0 a1 a2 a3 := x in
  W (bxor4 (mul14 a0) (mul11 a1) (mul13 a2) (mul9 a3))
    (bxor4 (mul9 a0) (mul14 a1) (mul11 a2) (mul13 a3))
    (bxor4 (mul13 a0) (mul9 a1) (mul14 a2) (mul11 a3))
    (bxor4 (mul11 a0) (mul13 a1) (mul9 a2) (mul14 a3)).

Definition MixColumns : block -> block := map_block mix_column.
Definition InvMixColumns : block -> block := map_block inv_mix_column.

Definition AddRoundKey (k s : block) : block := block_xor s k.

(** Key expansion for a 256-bit key, one round key (four words) at a
    time: each one is computed from the two before it. *)
Definition RotWord (x : word) : word := let 'W a b c d := x in W b c d a.
Definition SubWord : word -> word := map_word sbox.

Definition next_key (t : word) (p : block) : block :=
  let 'B p0 p1 p2 p3 := p in
  let n0 := wxor p0 t in
  let n1 := wxor p1 n0 in
  let n2 := wxor p2 n1 in
  let n3 := wxor p3 n2 in
  B n0 n1 n2 n3.

Definition last_word (q : block) : word := let 'B _ _ _ q3 := q in q3.

Definition even_key (rcon : ascii) (p q : block) : block :=
  next_key (wxor (SubWord (RotWord (last_word q))) (W rcon zero zero zero)) p.

Definition odd_key (p q : block) : block :=
  next_key (SubWord (last_word q)) p.

Fixpoint expand (n : nat) (rcon : ascii) (p q : block) : list block :=
  match n with
  | O => []
  | S n' =>
      let e := even_key rcon p q in
      let o := odd_key q e in
      e :: o :: expand n' (xtime rcon) e o
  end.

(** The fifteen round keys, as the first one and the fourteen after it. *)
Definition round_keys (k0 k1 : block) : block * block * list block :=
  (k0, k1, firstn 13 (expand 7 (Ascii true false false false false false false false) k0 k1)).

Definition round (k s : block) : block :=
  AddRoundKey k (MixColumns (ShiftRows (SubBytes s))).
Definition final_round (k s : block) : block :=
  AddRoundKey k (ShiftRows (SubBytes s)).
Definition inv_round (k s : block) : block :=
  InvSubBytes (InvShiftRows (InvMixColumns (AddRoundKey k s))).
Definition inv_final_round (k s : block) : block :=
  InvSubBytes (InvShiftRows (AddRoundKey k s)).

(** The rounds with the keys [k :: rest], the last of them the final
    round. *)
Fixpoint rounds (k : block) (rest : list block) (s : block) : block :=
  match rest with
  | [] => final_round k s
  | k' :: rest' => rounds k' rest' (round k s)
  end.

Fixpoint inv_rounds (k : block) (rest : list block) (s : block) : block :=
  match rest with
  | [] => inv_final_round k s
  | k' :: rest' => inv_round k (inv_rounds k' rest' s)
  end.

Definition Cipher (keys : block * block * list block) (s : block) : block :=
  let '(k0, k1, rest) := keys in rounds k1 rest (AddRoundKey k0 s).

Definition InvCipher (keys : block * block * list block) (s : block) : block :=
  let '(k0, k1, rest) := keys in AddRoundKey k0 (inv_rounds k1 rest s).

End AES.

(** *** Base64 (enc-base64.js) *)

Module Base64.

Definition alphabet : list ascii :=
  list_ascii_of_string "ABCDEFGHIJKLMNOPQRSTUVWXYZabcdefghijklmnopqrstuvwxyz0123456789+/".

Definition paddingChar : ascii := "="%char.

Definition charAt (i : ascii) : ascii := nth (nat_of_ascii i) alphabet paddingChar.

(** The reverse map, by the ranges of the alphabet. *)
Definition reverseMap (c : ascii) : option ascii :=
  let n := N_of_ascii c in
  if (65 <=? n)%N && (n <=? 90)%N then Some (ascii_of_N (n - 65))
  else if (97 <=? n)%N && (n <=? 122)%N then Some (ascii_of_N (n - 71))
  else if (48 <=? n)%N && (n <=? 57)%N then Some (ascii_of_N (n + 4))
  else if (n =? 43)%N then Some (ascii_of_N 62)
  else if (n =? 47)%N then Some (ascii_of_N 63)
  else None.

(** Three bytes as four 6-bit numbers, most significant bits first. *)
Definition sextets (x y z : ascii) : ascii * ascii * ascii * ascii :=
  let 'Ascii x0 x1 x2 x3 x4 x5 x6 x7 := x in
  let 'Ascii y0 y1 y2 y3 y4 y5 y6 y7 := y in
  let 'Ascii z0 z1 z2 z3 z4 z5 z6 z7 := z in
  (Ascii x2 x3 x4 x5 x6 x7 false false,
   Ascii y4 y5 y6 y7 x0 x1 false false,
   Ascii z6 z7 y0 y1 y2 y3 false false,
   Ascii z0 z1 z2 z3 z4 z5 false false).

Definition octets (a b c d : ascii) : ascii * ascii * ascii :=
  let 'Ascii a0 a1 a2 a3 a4 a5 _ _ := a in
  let 'Ascii b0 b1 b2 b3 b4 b5 _ _ := b in
  let 'Ascii c0 c1 c2 c3 c4 c5 _ _ := c in
  let 'Ascii d0 d1 d2 d3 d4 d5 _ _ := d in
  (Ascii b4 b5 a0 a1 a2 a3 a4 a5,
   Ascii c2 c3 c4 c5 b0 b1 b2 b3,
   Ascii d0 d1 d2 d3 d4 d5 c0 c1).

Fixpoint stringify (bytes : list ascii) : list ascii :=
  match bytes with
  | [] => []
  | [x] =>
      let '(a, b, _, _) := sextets x zero zero in
      [charAt a; charAt b; paddingChar; paddingChar]
  | [x; y] =>
      let '(a, b, c, _) := sextets x y zero in
      [charAt a; charAt b; charAt c; paddingChar]
  | x :: y :: z :: rest =>
      let '(a, b, c, d) := sextets x y z in
      charAt a :: charAt b :: charAt c :: charAt d :: stringify rest
  end.

(** Reading back a string in the form [stringify] writes: groups of four
    characters of the alphabet, the last one possibly padded. *)
Fixpoint parse (chars : list ascii) : option (list ascii) :=
  match chars with
  | [] => Some []
  | a :: b :: c :: d :: rest =>
      match reverseMap a, reverseMap b, reverseMap c, reverseMap d, rest with
      | Some a, Some b, Some c, Some d, _ =>
          let '(x, y, z) := octets a b c d in
          option_map (fun bytes => x :: y :: z :: bytes) (parse rest)
      | Some a, Some b, Some c, None, [] =>
          if Ascii.eqb d paddingChar
          then let '(x, y, _) := octets a b c zero in Some [x; y]
          else None
      | Some a, Some b, None, None, [] =>
          if Ascii.eqb c paddingChar && Ascii.eqb d paddingChar
          then let '(x, _, _) := octets a b zero zero in Some [x]
          else None
      | _, _, _, _, _ => None
      end
  | _ => None
  end.

End Base64.

(** *** PKCS#7 padding (pad-pkcs7.js) *)

Module Pkcs7.

Definition pad (data : list ascii) : list ascii :=
  let nPaddingBytes := (16 - length data mod 16)%nat in
  data ++ List.repeat (ascii_of_nat nPaddingBytes) nPaddingBytes.

(** The count is read from the last byte and believed: more than the
    data holds leaves nothing. *)
Definition unpad (data : list ascii) : list ascii :=
  let nPaddingBytes := nat_of_ascii (List.last data zero) in
  firstn (length data - nPaddingBytes) data.

End Pkcs7.

(** *** CBC (cipher-core.js) *)

Module CBC.

Fixpoint encrypt (keys : block * block * list block) (prev : block)
    (plain : list block) : list block :=
  match plain with
  | [] => []
  | p :: plain' =>
      let c := AES.Cipher keys (block_xor p prev) in
      c :: encrypt keys c plain'
  end.

Fixpoint decrypt (keys : block * block * list block) (prev : block)
    (cipher : list block) : list block :=
  match cipher with
  | [] => []
  | c :: cipher' =>
      block_xor (AES.InvCipher keys c) prev :: decrypt keys c cipher'
  end.

End CBC.

(** *** UTF-8 (enc-utf8 of core.js) *)

Module Utf8.

(** Well-formed UTF-8 (Unicode, table 3-7): what [decodeURIComponent]
    accepts. *)
Definition between (lo hi : N) (c : ascii) : bool :=
  let n := N_of_ascii c in ((lo <=? n) && (n <=? hi))%N.
Definition cont : ascii -> bool := between 128 191.

Fixpoint valid (bytes : list ascii) : bool :=
  match bytes with
  | [] => true
  | c :: rest =>
      if between 0 127 c then valid rest
      else
        match rest with
        | c1 :: rest1 =>
            if between 194 223 c then cont c1 && valid rest1
            else
              match rest1 with
              | c2 :: rest2 =>
                  if between 224 239 c then
                    (if between 224 224 c then between 160 191 c1
                     else if between 237 237 c then between 128 159 c1
                     else cont c1)
                    && cont c2 && valid rest2
                  else
                    match rest2 with
                    | c3 :: rest3 =>
                        if between 240 244 c then
                          (if between 240 240 c then between 144 191 c1
                           else if between 244 244 c then between 128 143 c1
                           else cont c1)
                          && cont c2 && cont c3 && valid rest3
                        else false
                    | [] => false
                    end
              | [] => false
              end
        | [] => false
        end
  end.

(** A JavaScript string stands here as the bytes of its UTF-8 encoding,
    a surrogate that has no partner as the three bytes this encoding would
    give it (U+D800 as ED A0 80): a string is well-formed Unicode exactly
    when its bytes are. [Utf8.parse] gives these bytes, and
    [Utf8.stringify] succeeds on the well-formed sequences only. *)
Definition parse (s : string) : list ascii := list_ascii_of_string s.

(** [Utf8.parse(str)] is [unescape(encodeURIComponent(str))], and
    [encodeURIComponent] throws a [URIError] on a string with a lone
    surrogate. *)
Definition encodable (s : string) : completion unit :=
  if valid (parse s) then Return tt else Throw (mkError "URI malformed").

Definition stringify (bytes : list ascii) : completion string :=
  if valid bytes then Return (string_of_list_ascii bytes)
  else Throw (mkError "Malformed UTF-8 data").

End Utf8.

(** *** The OpenSSL key derivation and envelope (cipher-core.js, evpkdf.js) *)

Inductive Salt : Type := mkSalt (w0 w1 : word).

Definition bytes_of_salt (s : Salt) : list ascii :=
  let 'mkSalt w0 w1 := s in bytes_of_word w0 ++ bytes_of_word w1.

(** [EvpKDF] with MD5 and one iteration, for a 256-bit key and a 128-bit
    IV: three digests, each over the one before, the password and the
    salt. *)
Definition OpenSSLKdf (password : list ascii) (salt : Salt)
    : (block * block) * block :=
  let d1 := MD5.md5 (password ++ bytes_of_salt salt) in
  let d2 := MD5.md5 (bytes_of_block d1 ++ password ++ bytes_of_salt salt) in
  let d3 := MD5.md5 (bytes_of_block d2 ++ password ++ bytes_of_salt salt) in
  ((d1, d2), d3).

Module OpenSSL.

Definition magic : list ascii := list_ascii_of_string "Salted__".

Definition stringify (salt : Salt) (ciphertext : list block) : string :=
  string_of_list_ascii
    (Base64.stringify (magic ++ bytes_of_salt salt ++ bytes_of_blocks ciphertext)).

(** The envelopes [stringify] writes: the magic, eight bytes of salt,
    whole blocks. *)
Definition parse (openSSLStr : string) : option (Salt * list block) :=
  match Base64.parse (list_ascii_of_string openSSLStr) with
  | Some (m0 :: m1 :: m2 :: m3 :: m4 :: m5 :: m6 :: m7 ::
          s0 :: s1 :: s2 :: s3 :: s4 :: s5 :: s6 :: s7 :: body) =>
      if String.eqb (string_of_list_ascii [m0; m1; m2; m3; m4; m5; m6; m7]) "Salted__"
         && Nat.eqb (length body mod 16) 0
      then Some (mkSalt (W s0 s1 s2 s3) (W s4 s5 s6 s7), blocks_of_bytes body)
      else None
  | _ => None
  end.

End OpenSSL.

(** *** CryptoJS.AES with a passphrase (aes.js, cipher-core.js) *)

(** The envelope [CryptoJS.AES.encrypt(message, password).toString()]
    writes, given the salt that [WordArray.random(8)] drew. *)
Definition AES_encrypt (message password : string) (salt : Salt) : string :=
  let '((k0, k1), iv) := OpenSSLKdf (Utf8.parse password) salt in
  let plaintext := blocks_of_bytes (Pkcs7.pad (Utf8.parse message)) in
  OpenSSL.stringify salt (CBC.encrypt (AES.round_keys k0 k1) iv plaintext).

(** [CryptoJS.AES.encrypt(message, password).toString()]: the key is
    derived, with the salt drawn, before the cipher takes the message
    through [Utf8.parse], which may throw. *)
Definition AES_encrypt_toString (message password : string) (salt : Salt)
    : completion string :=
  match Utf8.encodable message with
  | Return _ => Return (AES_encrypt message password salt)
  | Throw error => Throw error
  end.

(** The bytes [CryptoJS.AES.decrypt(ciphertext, password)] holds, for an
    envelope. *)
Definition AES_decrypt_envelope (salt : Salt) (ciphertext : list block)
    (password : string) : list ascii :=
  let '((k0, k1), iv) := OpenSSLKdf (Utf8.parse password) salt in
  Pkcs7.unpad (bytes_of_blocks (CBC.decrypt (AES.round_keys k0 k1) iv ciphertext)).

(** [CryptoJS.AES.decrypt(ciphertext, password).toString(CryptoJS.enc.Utf8)].
    What the library makes of a string that is no such envelope (other
    characters, no magic, a broken last block) is not modelled: it is
    left to [elsewhere]. *)
Definition AES_decrypt (elsewhere : string -> string -> completion string)
    (ciphertext password : string) : completion string :=
  match OpenSSL.parse ciphertext with
  | Some (salt, body) => Utf8.stringify (AES_decrypt_envelope salt body password)
  | None => elsewhere ciphertext password
  end.

End CryptoJS.

(** ** The data model (the Firestore document of one client) *)

(** [tokens] of a client: as Google returns them, and as stored (then the
    two strings are ciphertexts). [refresh_token] is [None] for [null] or
    [undefined]. *)
Record Tokens : Type := mkTokens {
  access_token : string;
  refresh_token : option string;
  expiry_date : Z
}.

Record WatchData : Type := mkWatchData {
  historyId : string;
  expiration : Z;
  topicName : string
}.

Record Client : Type := mkClient {
  clientId : string;
  email : string;
  name : string;
  company : string;
  gmailAddress : string;
  tokens : Tokens;
  registeredAt : Z;
  lastRenewed : option Z;
  watchData : option WatchData;
  updatedAt : option Z
}.

(** ** The outside world *)

Record AxiosResponse : Type := mkResponse { status : Z; data : string }.

(** An object literal, kept as the list of its keys and values in source
    order (the results of the renewal functions, the bodies of JSON
    responses). *)
Inductive jsval : Type :=
| JNull
| JBool (b : bool)
| JNum (z : Z)
| JStr (s : string)
| JDate (ms : Z)
| JWatch (w : WatchData).

Definition jsobj : Type := list (string * jsval).

Definition keys (o : jsobj) : list string := map fst o.

Fixpoint get (key : string) (o : jsobj) : option jsval :=
  match o with
  | [] => None
  | (k, v) :: o' => if String.eqb k key then Some v else get key o'
  end.

(** [!!o.key]: a missing key reads [undefined]. *)
Definition truthy_value (v : option jsval) : bool :=
  match v with
  | None | Some JNull => false
  | Some (JBool b) => b
  | Some (JNum z) => negb (Z.eqb z 0)
  | Some (JStr s) => negb (String.eqb s "")
  | Some (JDate _) | Some (JWatch _) => true
  end.

Inductive PayloadData : Type :=
| RegistrationPayload (clientId name email company gmailAddress : string)
                      (registeredAt : Z) (tokens : Tokens)
| RenewalPayload (renewalData : jsobj)
| RenewalBatchPayload (totalProcessed successful failed : nat) (results : list jsobj).

Record Payload : Type := mkPayload {
  event : string;
  timestamp : Z;
  payload_data : PayloadData
}.

(** The calls a handler starts and does not wait for. *)
Inductive Task : Type :=
| SetupGmailWatch (clientId : string)
| SendRegistrationWebhook (clientData : Client).

(** Every interaction with the outside, in the order it happens. *)
Inductive Effect : Type :=
| DateNow
| RandomSalt
| Uuid
| SetTimeout (ms : Z)
| AxiosPost (url : string) (payload : Payload)
| FirestoreGet (id : string)
| FirestoreSet (id : string) (doc : Client)
| FirestoreUpdate (id : string)
| OAuthGetToken (code : option string)
| UserinfoGet (credentials : Tokens)
| TopicExists (topic : string)
| CreateTopic (topic : string)
| GmailWatch (credentials : Tokens) (topic : string)
| GmailStop (credentials : Tokens)
| Detached (task : Task).

Definition History : Type := list Effect.

Record WatchResponse : Type := mkWatchResponse {
  resp_historyId : string;
  resp_expiration : Z
}.

(** backend/auth.js requires ./gmail-watch for [setupGmailWatch], and
    backend/gmail-watch.js requires ./auth for [getOAuth2Client]. Of two
    modules that require each other, the one Node starts on first finds the
    other one complete; the other one is handed the exports of the first as
    they are at that moment, still empty (auth.js assigns [module.exports]
    on its last lines, gmail-watch.js too), so the name it destructures
    from them is [undefined] for good and calling it throws a TypeError.
    backend/server.js, which the container starts, requires ./auth first. *)
Inductive LoadOrder : Type :=
| AuthFirst            (* getOAuth2Client is undefined in gmail-watch.js *)
| GmailWatchFirst.     (* setupGmailWatch is undefined in auth.js *)

(** The answers of the outside. Those of services may depend on everything
    that happened before, so that the same call can fail once and succeed
    later; those of the platform's pure functions depend on their argument
    only. *)
Record Env : Type := mkEnv {
  (** which of auth.js and gmail-watch.js the process required first *)
  load_order : LoadOrder;
  Date_now : History -> Z;
  random_salt : History -> CryptoJS.Salt;
  uuidv4 : History -> string;
  axios_post : History -> string -> Payload -> completion AxiosResponse;
  (** [Some error] when Firestore rejects the request it is sent now *)
  firestore_down : History -> option Error;
  getToken : History -> option string -> completion Tokens;
  userinfo_get : History -> Tokens -> completion string;
  topic_exists : History -> string -> completion bool;
  createTopic : History -> string -> completion unit;
  users_watch : History -> Tokens -> string -> completion WatchResponse;
  users_stop : History -> Tokens -> completion unit;
  (** crypto-js on a string that is not an envelope it wrote *)
  cryptojs_elsewhere : string -> string -> completion string;
  (** [Buffer.from(data, 'base64').toString()] *)
  Buffer_from_base64_toString : string -> string;
  (** [JSON.parse], of which the handlers only need to know whether it
      throws *)
  JSON_parse : string -> completion unit
}.

Record World : Type := mkWorld {
  firestore : gmap string Client;
  history : History
}.

(** ** Effectful code: state passing with exceptions *)

Definition M (A : Type) : Type := World -> completion A * World.

Definition ret {A} (a : A) : M A := fun w => (Return a, w).
Definition throw {A} (e : Error) : M A := fun w => (Throw e, w).

Definition bind {A B} (m : M A) (k : A -> M B) : M B :=
  fun w =>
    match m w with
    | (Return a, w') => k a w'
    | (Throw e, w') => (Throw e, w')
    end.

(** [try { m } catch (error) { handler error }] *)
Definition try_catch {A} (m : M A) (handler : Error -> M A) : M A :=
  fun w =>
    match m w with
    | (Return a, w') => (Return a, w')
    | (Throw e, w') => handler e w'
    end.

(** A value or an exception computed without touching the world. *)
Definition lift {A} (c : completion A) : M A := fun w => (c, w).

Notation "'let!' x ':=' m 'in' k" := (bind m (fun x => k))
  (at level 10, x name, m at level 100, k at level 200).
Notation "m ';;' k" := (bind m (fun _ => k))
  (at level 100, k at level 200, right associativity).

Definition record_effect (e : Effect) (w : World) : World :=
  {| firestore := firestore w; history := history w ++ [e] |}.

(** A call to the outside: the answer is read from the history before the
    call, and the call joins the history. *)
Definition call {A} (answer : History -> completion A) (e : Effect) : M A :=
  fun w => (answer (history w), record_effect e w).

Definition new_Date (env : Env) : M Z :=
  call (fun h => Return (Date_now env h)) DateNow.

(** A call that is started and not awaited. *)
Definition detach (task : Task) : M unit :=
  call (fun _ => Return tt) (Detached task).

(** *** Firestore: the 'clients' collection *)

Module Firestore.

Definition failing (env : Env) (e : Effect) : M unit :=
  call (fun h => match firestore_down env h with
                 | Some error => Throw error
                 | None => Return tt
                 end) e.

(** [doc(id).get()]: the document, or [None] when [!doc.exists] *)
Definition get (env : Env) (id : string) : M (option Client) :=
  failing env (FirestoreGet id) ;;
  fun w => (Return (firestore w !! id), w).

(** [doc(id).set(data, { merge: true })] with every field of the document
    in [data]: each field is overwritten, the document is created when
    there is none. *)
Definition set (env : Env) (id : string) (doc : Client) : M unit :=
  failing env (FirestoreSet id doc) ;;
  fun w => (Return tt, {| firestore := <[id := doc]> (firestore w);
                          history := history w |}).

Definition NOT_FOUND : Error := mkError "5 NOT_FOUND: No document to update".

(** [doc(id).update(fields)]: fails when there is no document. *)
Definition update (env : Env) (id : string) (fields : Client -> Client) : M unit :=
  failing env (FirestoreUpdate id) ;;
  fun w =>
    match firestore w !! id with
    | Some doc => (Return tt, {| firestore := <[id := fields doc]> (firestore w);
                                 history := history w |})
    | None => (Throw NOT_FOUND, w)
    end.

End Firestore.

(** ** Configuration: the variables of [process.env] the code reads *)

Record ProcessEnv : Type := mkProcessEnv {
  ENCRYPTION_KEY : option string;
  FIRESTORE_PROJECT_ID : option string;
  PUBSUB_TOPIC_PREFIX_var : option string;
  N8N_WEBHOOK_URL : option string;
  N8N_RENEWAL_WEBHOOK_URL : option string
}.

(** [`${value}`] for a variable of the environment *)
Definition interpolate (v : option string) : string := default "undefined" v.

(** [process.env.PUBSUB_TOPIC_PREFIX || 'gmail-watch-'] *)
Definition PUBSUB_TOPIC_PREFIX (cfg : ProcessEnv) : string :=
  if truthy (PUBSUB_TOPIC_PREFIX_var cfg)
  then default "" (PUBSUB_TOPIC_PREFIX_var cfg)
  else "gmail-watch-".

(** ** backend/database.js *)

Module Database.

Definition draw_salt (env : Env) : M CryptoJS.Salt :=
  call (fun h => Return (random_salt env h)) RandomSalt.

(** [encrypt(text)]; [key] is the constant [ENCRYPTION_KEY] of the module,
    a variable of the environment, which Node reads as well-formed text:
    of the two strings crypto-js encodes, only [text] can make it throw.
    The warning of the branch without a key goes to the console and is
    not modelled. *)
Definition encrypt (env : Env) (key : option string) (text : string) : M string :=
  if negb (truthy key) then ret text
  else
    let! salt := draw_salt env in
    lift (CryptoJS.AES_encrypt_toString text (default "" key) salt).

Definition decrypt (env : Env) (key : option string) (ciphertext : string)
    : completion string :=
  if negb (truthy key) then Return ciphertext
  else CryptoJS.AES_decrypt (cryptojs_elsewhere env) ciphertext (default "" key).

Definition encryptTokens (env : Env) (key : option string) (tokens : Tokens)
    : M Tokens :=
  let! access := encrypt env key (access_token tokens) in
  let! refresh :=
    (if truthy (refresh_token tokens)
     then let! r := encrypt env key (default "" (refresh_token tokens)) in ret (Some r)
     else ret None) in
  ret {| access_token := access;
         refresh_token := refresh;
         expiry_date := expiry_date tokens |}.

(** [decryptTokens(encryptedTokens)], for a document that has [tokens]
    (every document this code writes has). *)
Definition decryptTokens (env : Env) (key : option string) (encryptedTokens : Tokens)
    : M Tokens :=
  let! access := lift (decrypt env key (access_token encryptedTokens)) in
  let! refresh :=
    (if truthy (refresh_token encryptedTokens)
     then let! r := lift (decrypt env key (default "" (refresh_token encryptedTokens))) in
          ret (Some r)
     else ret None) in
  ret {| access_token := access;
         refresh_token := refresh;
         expiry_date := expiry_date encryptedTokens |}.

(** [{ ...data, tokens }] *)
Definition with_tokens (t : Tokens) (c : Client) : Client :=
  {| clientId := clientId c; email := email c; name := name c;
     company := company c; gmailAddress := gmailAddress c;
     tokens := t;
     registeredAt := registeredAt c; lastRenewed := lastRenewed c;
     watchData := watchData c; updatedAt := updatedAt c |}.

(** [{ ...clientData, tokens, updatedAt }] *)
Definition dataToSave (t : Tokens) (now : Z) (c : Client) : Client :=
  {| clientId := clientId c; email := email c; name := name c;
     company := company c; gmailAddress := gmailAddress c;
     tokens := t;
     registeredAt := registeredAt c; lastRenewed := lastRenewed c;
     watchData := watchData c; updatedAt := Some now |}.

Definition saveClient (env : Env) (key : option string) (clientData : Client)
    : M Client :=
  try_catch
    (let! encrypted := encryptTokens env key (tokens clientData) in
     let! now := new_Date env in
     Firestore.set env (clientId clientData) (dataToSave encrypted now clientData) ;;
     ret clientData)
    (fun error => throw (mkError "Failed to save client data")).

Definition getClientById (env : Env) (key : option string) (id : string)
    : M (option Client) :=
  try_catch
    (let! doc := Firestore.get env id in
     match doc with
     | None => ret None
     | Some data =>
         let! decrypted := decryptTokens env key (tokens data) in
         ret (Some (with_tokens decrypted data))
     end)
    (fun error => throw (mkError "Failed to retrieve client data")).

(** The fields [update({ watchData, lastRenewed, updatedAt })] writes. *)
Definition watch_fields (wd : option WatchData) (renewed updated : Z) (c : Client)
    : Client :=
  {| clientId := clientId c; email := email c; name := name c;
     company := company c; gmailAddress := gmailAddress c;
     tokens := tokens c; registeredAt := registeredAt c;
     lastRenewed := Some renewed;
     watchData := wd;
     updatedAt := Some updated |}.

Definition updateWatchData (env : Env) (id : string) (wd : option WatchData)
    : M bool :=
  try_catch
    (let! renewed := new_Date env in
     let! updated := new_Date env in
     Firestore.update env id (watch_fields wd renewed updated) ;;
     ret true)
    (fun error => throw (mkError "Failed to update watch data")).

(** The fields [update({ tokens, updatedAt })] writes. *)
Definition token_fields (t : Tokens) (updated : Z) (c : Client) : Client :=
  {| clientId := clientId c; email := email c; name := name c;
     company := company c; gmailAddress := gmailAddress c;
     tokens := t; registeredAt := registeredAt c;
     lastRenewed := lastRenewed c;
     watchData := watchData c;
     updatedAt := Some updated |}.

Definition updateClientTokens (env : Env) (key : option string) (id : string)
    (tokens : Tokens) : M bool :=
  try_catch
    (let! encrypted := encryptTokens env key tokens in
     let! updated := new_Date env in
     Firestore.update env id (token_fields encrypted updated) ;;
     ret true)
    (fun error => throw (mkError "Failed to update tokens")).

End Database.

(** ** backend/webhook.js: the notifier *)

Module Webhook.

Definition MAX_RETRY_ATTEMPTS : nat := 3.
Definition RETRY_DELAY_MS : Z := 2000.

(** The three object shapes the senders return. *)
Inductive DeliveryOutcome : Type :=
| Delivered (status : Z) (data : string)
| Skipped (reason : string)
| Failed (error : string) (attempts : nat).

Definition delay (ms : Z) : M unit :=
  call (fun _ => Return tt) (SetTimeout ms).

Definition post (env : Env) (url : string) (payload : Payload) : M AxiosResponse :=
  call (fun h => axios_post env h url payload) (AxiosPost url payload).

Definition registration_payload (c : Client) (now : Z) : Payload :=
  {| event := "client_registered";
     timestamp := now;
     payload_data :=
       RegistrationPayload (clientId c) (name c) (email c) (company c)
         (gmailAddress c) (registeredAt c)
         {| access_token := access_token (tokens c);
            refresh_token := refresh_token (tokens c);
            expiry_date := expiry_date (tokens c) |} |}.

Definition renewal_payload (renewalData : jsobj) (now : Z) : Payload :=
  {| event := "watch_renewed"; timestamp := now;
     payload_data := RenewalPayload renewalData |}.

(** [RETRY_DELAY_MS * Math.pow(2, attempt - 1)]; [attempt] is 1 unless a
    caller passes another number, and [Math.pow(2, -1)] is one half. *)
Definition delayTime (attempt : nat) : Z :=
  match attempt with
  | O => (RETRY_DELAY_MS / 2)%Z
  | S k => (RETRY_DELAY_MS * 2 ^ Z.of_nat k)%Z
  end.

Equations? sendRegistrationWebhook (env : Env) (N8N_WEBHOOK_URL : option string)
    (clientData : Client) (attempt : nat) : M DeliveryOutcome
    by wf (MAX_RETRY_ATTEMPTS - attempt)%nat lt :=
  sendRegistrationWebhook env N8N_WEBHOOK_URL clientData attempt :=
    if negb (truthy N8N_WEBHOOK_URL)
    then ret (Skipped "Webhook URL not configured")
    else
      try_catch
        (let! now := new_Date env in
         let payload := registration_payload clientData now in
         let! response := post env (default "" N8N_WEBHOOK_URL) payload in
         ret (Delivered (status response) (data response)))
        (fun error =>
           match lt_dec attempt MAX_RETRY_ATTEMPTS with
           | left _ =>
               let delayTime := delayTime attempt in
               delay delayTime ;;
               sendRegistrationWebhook env N8N_WEBHOOK_URL clientData (attempt + 1)%nat
           | right _ => ret (Failed (message error) attempt)
           end).
Proof. lia. Qed.

Equations? sendRenewalWebhook (env : Env) (N8N_RENEWAL_WEBHOOK_URL : option string)
    (renewalData : jsobj) (attempt : nat) : M DeliveryOutcome
    by wf (MAX_RETRY_ATTEMPTS - attempt)%nat lt :=
  sendRenewalWebhook env N8N_RENEWAL_WEBHOOK_URL renewalData attempt :=
    if negb (truthy N8N_RENEWAL_WEBHOOK_URL)
    then ret (Skipped "Renewal webhook URL not configured")
    else
      try_catch
        (let! now := new_Date env in
         let payload := renewal_payload renewalData now in
         let! response := post env (default "" N8N_RENEWAL_WEBHOOK_URL) payload in
         ret (Delivered (status response) (data response)))
        (fun error =>
           match lt_dec attempt MAX_RETRY_ATTEMPTS with
           | left _ =>
               let delayTime := delayTime attempt in
               delay delayTime ;;
               sendRenewalWebhook env N8N_RENEWAL_WEBHOOK_URL renewalData (attempt + 1)%nat
           | right _ => ret (Failed (message error) attempt)
           end).
Proof. lia. Qed.

End Webhook.

(** ** backend/gmail-watch.js *)

Module GmailWatch.

Definition createPubSubTopic (env : Env) (topicName : string) : M string :=
  try_catch
    (let! exists_ := call (fun h => topic_exists env h topicName) (TopicExists topicName) in
     (if negb exists_
      then call (fun h => createTopic env h topicName) (CreateTopic topicName)
      else ret tt) ;;
     ret topicName)
    (fun error => throw error).

(** [gmail.users.watch], with the credentials the shared OAuth client was
    given just before (for a call that runs alone: the client is one object
    for the whole process). *)
Definition watch (env : Env) (credentials : Tokens) (fullTopicName : string)
    : M WatchResponse :=
  call (fun h => users_watch env h credentials fullTopicName)
       (GmailWatch credentials fullTopicName).

Definition stop (env : Env) (credentials : Tokens) : M unit :=
  call (fun h => users_stop env h credentials) (GmailStop credentials).

(** [getOAuth2Client()], the import from ./auth *)
Definition getOAuth2Client (env : Env) : M unit :=
  match load_order env with
  | AuthFirst => throw (mkError "getOAuth2Client is not a function")
  | GmailWatchFirst => ret tt
  end.

Definition fullTopicName (cfg : ProcessEnv) (topicName : string) : string :=
  ("projects/" ++ interpolate (FIRESTORE_PROJECT_ID cfg) ++ "/topics/" ++ topicName)%string.

Definition watchData_of (response : WatchResponse) (topicName : string) : WatchData :=
  {| historyId := resp_historyId response;
     expiration := resp_expiration response;
     topicName := topicName |}.

Definition setupGmailWatch (env : Env) (cfg : ProcessEnv) (id : string) : M jsobj :=
  try_catch
    (let! client := Database.getClientById env (ENCRYPTION_KEY cfg) id in
     match client with
     | None => throw (mkError "Client not found")
     | Some client =>
         getOAuth2Client env ;;
         let topicName := (PUBSUB_TOPIC_PREFIX cfg ++ id)%string in
         createPubSubTopic env topicName ;;
         let! watchResponse := watch env (tokens client) (fullTopicName cfg topicName) in
         let watchData := watchData_of watchResponse topicName in
         Database.updateWatchData env id (Some watchData) ;;
         ret [("success", JBool true);
              ("watchData", JWatch watchData);
              ("message", JStr "Gmail watch set up successfully")]
     end)
    (fun error => throw error).

(** [client.watchData?.topicName || `${PUBSUB_TOPIC_PREFIX}${clientId}`];
    then [renewGmailWatch(clientId)]: the block under [try], and the
    function. *)
Definition existing_topic (cfg : ProcessEnv) (client : Client) (id : string) : string :=
  match watchData client with
  | Some wd => if truthy (Some (topicName wd)) then topicName wd
               else (PUBSUB_TOPIC_PREFIX cfg ++ id)%string
  | None => (PUBSUB_TOPIC_PREFIX cfg ++ id)%string
  end.

Definition renewGmailWatch_try (env : Env) (cfg : ProcessEnv) (id : string) : M jsobj :=
  let! client := Database.getClientById env (ENCRYPTION_KEY cfg) id in
  match client with
  | None => throw (mkError "Client not found")
  | Some client =>
      getOAuth2Client env ;;
      let topicName := existing_topic cfg client id in
      createPubSubTopic env topicName ;;
      let! watchResponse := watch env (tokens client) (fullTopicName cfg topicName) in
      let watchData := watchData_of watchResponse topicName in
      Database.updateWatchData env id (Some watchData) ;;
      let! renewedAt := new_Date env in
      ret [("success", JBool true);
           ("clientId", JStr id);
           ("gmailAddress", JStr (gmailAddress client));
           ("watchData", JWatch watchData);
           ("renewedAt", JDate renewedAt)]
  end.

Definition renewGmailWatch (env : Env) (cfg : ProcessEnv) (id : string) : M jsobj :=
  try_catch
    (renewGmailWatch_try env cfg id)
    (fun error =>
       let! renewedAt := new_Date env in
       ret [("success", JBool false);
            ("clientId", JStr id);
            ("error", JStr (message error));
            ("renewedAt", JDate renewedAt)]).

Definition stopGmailWatch (env : Env) (cfg : ProcessEnv) (id : string) : M jsobj :=
  try_catch
    (let! client := Database.getClientById env (ENCRYPTION_KEY cfg) id in
     match client with
     | None => throw (mkError "Client not found")
     | Some client =>
         getOAuth2Client env ;;
         stop env (tokens client) ;;
         Database.updateWatchData env id None ;;
         ret [("success", JBool true);
              ("message", JStr "Gmail watch stopped successfully")]
     end)
    (fun error => throw error).

End GmailWatch.

(** ** functions/watch-renewal.js: the Cloud Function *)

Module WatchRenewal.

Definition decrypt (env : Env) (key : option string) (ciphertext : string)
    : completion string :=
  if negb (truthy key) then Return ciphertext
  else CryptoJS.AES_decrypt (cryptojs_elsewhere env) ciphertext (default "" key).

Definition decryptTokens (env : Env) (key : option string) (encryptedTokens : Tokens)
    : M Tokens :=
  let! access := lift (decrypt env key (access_token encryptedTokens)) in
  let! refresh :=
    (if truthy (refresh_token encryptedTokens)
     then let! r := lift (decrypt env key (default "" (refresh_token encryptedTokens))) in
          ret (Some r)
     else ret None) in
  ret {| access_token := access;
         refresh_token := refresh;
         expiry_date := expiry_date encryptedTokens |}.

Definition createPubSubTopic (env : Env) (topicName : string) : M string :=
  try_catch
    (let! exists_ := call (fun h => topic_exists env h topicName) (TopicExists topicName) in
     (if negb exists_
      then call (fun h => createTopic env h topicName) (CreateTopic topicName)
      else ret tt) ;;
     ret topicName)
    (fun error => throw error).

(** [renewWatch(client)]; [client] is a document as stored, its tokens
    encrypted. First the block under [try], then the function. *)
Definition renewWatch_try (env : Env) (cfg : ProcessEnv) (client : Client) : M jsobj :=
  let! tokens := decryptTokens env (ENCRYPTION_KEY cfg) (tokens client) in
  let topicName := GmailWatch.existing_topic cfg client (clientId client) in
  let fullTopicName := GmailWatch.fullTopicName cfg topicName in
  createPubSubTopic env topicName ;;
  let! watchResponse := GmailWatch.watch env tokens fullTopicName in
  let! renewed := new_Date env in
  let! updated := new_Date env in
  Firestore.update env (clientId client)
    (Database.watch_fields
       (Some (GmailWatch.watchData_of watchResponse topicName)) renewed updated) ;;
  let! renewedAt := new_Date env in
  ret [("success", JBool true);
       ("clientId", JStr (clientId client));
       ("gmailAddress", JStr (gmailAddress client));
       ("newExpiration", JDate (resp_expiration watchResponse));
       ("renewedAt", JDate renewedAt)].

Definition renewWatch (env : Env) (cfg : ProcessEnv) (client : Client) : M jsobj :=
  try_catch
    (renewWatch_try env cfg client)
    (fun error =>
       let! renewedAt := new_Date env in
       ret [("success", JBool false);
            ("clientId", JStr (clientId client));
            ("gmailAddress", JStr (gmailAddress client));
            ("error", JStr (message error));
            ("renewedAt", JDate renewedAt)]).

(** [r => r.success] *)
Definition success (r : jsobj) : bool := truthy_value (get "success" r).

Definition batch_payload (results : list jsobj) (now : Z) : Payload :=
  {| event := "watch_renewal_batch";
     timestamp := now;
     payload_data :=
       RenewalBatchPayload (length results)
         (length (List.filter success results))
         (length (List.filter (fun r => negb (success r)) results))
         results |}.

(** [sendRenewalWebhook(results)] of the Cloud Function: one POST, whose
    failure is logged and dropped. *)
Definition sendRenewalWebhook (env : Env) (url : option string) (results : list jsobj)
    : M unit :=
  if negb (truthy url) then ret tt
  else
    try_catch
      (let! now := new_Date env in
       let payload := batch_payload results now in
       call (fun h => axios_post env h (default "" url) payload)
            (AxiosPost (default "" url) payload) ;;
       ret tt)
      (fun error => ret tt).

End WatchRenewal.

(** ** HTTP responses *)

Inductive Response : Type :=
| Send (status : Z) (body : string)          (* res.status(status).send(body) *)
| Json (status : Z) (body : jsobj)           (* res.status(status).json(body) *)
| RedirectToConsent (state : string)         (* res.redirect(authUrl) *)
| RedirectToSuccess (gmail : string) (timestamp : Z).
                                             (* res.redirect(`/success?gmail=...&timestamp=...`) *)

Definition status_of (r : Response) : Z :=
  match r with
  | Send status _ => status
  | Json status _ => status
  | RedirectToConsent _ => 302
  | RedirectToSuccess _ _ => 302
  end.

(** ** backend/auth.js: the OAuth flow *)

Module Auth.

(** [req.session.registrationData] *)
Record RegistrationData : Type := mkRegistrationData {
  reg_email : string;
  reg_name : string;
  reg_company : string;
  reg_state : string
}.

(** [req.query] of /auth/google (the registration form: name and email are
    there, the company may be missing) and of /auth/callback *)
Record StartQuery : Type := mkStartQuery {
  q_email : string;
  q_name : string;
  q_company : option string
}.

Record CallbackQuery : Type := mkCallbackQuery {
  q_code : option string;
  q_state : option string;
  q_error : option string
}.

(** GET /auth/google: the state is minted, bound to the session with the
    form's data, and sent to the consent screen. *)
Definition google (env : Env) (query : StartQuery) (session : option RegistrationData)
    : M (Response * option RegistrationData) :=
  try_catch
    (let! state := call (fun h => Return (uuidv4 env h)) Uuid in
     ret (RedirectToConsent state,
          Some {| reg_email := q_email query;
                  reg_name := q_name query;
                  reg_company := (if truthy (q_company query)
                                  then default "" (q_company query) else "");
                  reg_state := state |}))
    (fun error => ret (Send 500 "Failed to initiate authentication", session)).

Definition clientData_of (id : string) (registrationData : RegistrationData)
    (gmailAddress : string) (tokens : Tokens) (now : Z) : Client :=
  {| clientId := id;
     email := reg_email registrationData;
     name := reg_name registrationData;
     company := reg_company registrationData;
     gmailAddress := gmailAddress;
     tokens := {| access_token := access_token tokens;
                  refresh_token := refresh_token tokens;
                  expiry_date := expiry_date tokens |};
     registeredAt := now;
     lastRenewed := None;
     watchData := None;
     updatedAt := None |}.

Definition csrf_failure : Response :=
  Send 400 "Invalid state parameter. Possible CSRF attack.".

(** [registrationData.state !== state] *)
Definition state_differs (registrationData : RegistrationData) (state : option string)
    : bool :=
  match state with
  | Some s => negb (String.eqb (reg_state registrationData) s)
  | None => true
  end.

(** [setupGmailWatch(clientId).catch(...)], the import from ./gmail-watch:
    the call is started and not awaited. *)
Definition setupGmailWatch (env : Env) (id : string) : M unit :=
  match load_order env with
  | AuthFirst => detach (SetupGmailWatch id)
  | GmailWatchFirst => throw (mkError "setupGmailWatch is not a function")
  end.

(** GET /auth/callback. The result is the response and the session's
    [registrationData] afterwards. *)
Definition callback (env : Env) (cfg : ProcessEnv) (query : CallbackQuery)
    (session : option RegistrationData) : M (Response * option RegistrationData) :=
  try_catch
    (if truthy (q_error query)
     then ret (Send 400 ("Authentication failed: " ++ default "" (q_error query))%string, session)
     else
       match session with
       | None => ret (csrf_failure, session)
       | Some registrationData =>
           if state_differs registrationData (q_state query)
           then ret (csrf_failure, session)
           else
             let! tokens := call (fun h => getToken env h (q_code query))
                                 (OAuthGetToken (q_code query)) in
             let! gmailAddress := call (fun h => userinfo_get env h tokens)
                                       (UserinfoGet tokens) in
             let! id := call (fun h => Return (uuidv4 env h)) Uuid in
             let! now := new_Date env in
             let clientData := clientData_of id registrationData gmailAddress tokens now in
             Database.saveClient env (ENCRYPTION_KEY cfg) clientData ;;
             setupGmailWatch env id ;;
             detach (SendRegistrationWebhook clientData) ;;
             let! timestamp := new_Date env in
             ret (RedirectToSuccess gmailAddress timestamp, None)
       end)
    (fun error => ret (Send 500 "Authentication failed. Please try again.", session)).

End Auth.

(** ** backend/server.js: the push endpoint *)

Module Server.

(** [req.body.message], when there is one, with its [data] (a string when
    present, as Pub/Sub sends it) *)
Record PubSubMessage : Type := mkPubSubMessage { message_data : option string }.

(** POST /pubsub/push *)
Definition pubsub_push (env : Env) (message : option PubSubMessage) : M Response :=
  try_catch
    (match message with
     | None => ret (Json 400 [("error", JStr "Invalid Pub/Sub message")])
     | Some message =>
         if negb (truthy (message_data message))
         then ret (Json 400 [("error", JStr "Invalid Pub/Sub message")])
         else
           let data := Buffer_from_base64_toString env (default "" (message_data message)) in
           lift (JSON_parse env data) ;;
           ret (Send 200 "OK")
     end)
    (fun error => ret (Json 500 [("error", JStr "Failed to process notification")])).

End Server.

(** ** Reading a history *)

(** How many deliveries were attempted. *)
Fixpoint deliveries (h : History) : nat :=
  match h with
  | [] => O
  | AxiosPost _ _ :: h' => S (deliveries h')
  | _ :: h' => deliveries h'
  end.

(** The timers set, in order. *)
Fixpoint delays (h : History) : list Z :=
  match h with
  | [] => []
  | SetTimeout ms :: h' => ms :: delays h'
  | _ :: h' => delays h'
  end.

(** What happened between two worlds. *)
Definition since (w w' : World) : History :=
  drop (length (history w)) (history w').

(** The world after more interactions that leave the collection alone. *)
Definition extend (w : World) (new : History) : World :=
  {| firestore := firestore w; history := history w ++ new |}.

(** Code that leaves the collection alone, however it ends. *)
Definition frames {A} (m : M A) : Prop :=
  forall w r w', m w = (r, w') -> firestore w' = firestore w.

(** ** The delivery policy of the notifier, as the specification words it *)

(** [base delay * 2^(attempt - 1)] *)
Definition backoff (attempt : Z) : Z :=
  (Webhook.RETRY_DELAY_MS * 2 ^ (attempt - 1))%Z.

Definition delivery_policy (env : Env) (url : option string) (skipped : string)
    (notify : World -> completion Webhook.DeliveryOutcome * World) : Prop :=
  forall w,
    (* a value comes back whatever the receiver does, after at most the
       maximum number of deliveries *)
    (exists o w', notify w = (Return o, w')
                  /\ (deliveries (since w w') <= Webhook.MAX_RETRY_ATTEMPTS)%nat) /\
    (* an endpoint that is not configured: skipped, and nothing happened *)
    (truthy url = false -> notify w = (Return (Webhook.Skipped skipped), w)) /\
    (* a receiver that fails every time: all the attempts, the backoff
       between them, then the failure value *)
    (truthy url = true ->
     (forall h p, exists e, axios_post env h (default "" url) p = Throw e) ->
     exists e w',
       notify w = (Return (Webhook.Failed e Webhook.MAX_RETRY_ATTEMPTS), w')
       /\ deliveries (since w w') = Webhook.MAX_RETRY_ATTEMPTS
       /\ delays (since w w') = map backoff [1; 2]%Z
       /\ StronglySorted Z.lt (delays (since w w'))).

(** ** What is written for a set of tokens, as the code has it *)

(** [stored] holds [plain] with each token string replaced by a ciphertext
    under [key], a missing or empty refresh token by [null], and the expiry
    date as it is. *)
Definition stored_form (key : string) (plain stored : Tokens) : Prop :=
  (exists salt,
      access_token stored = CryptoJS.AES_encrypt (access_token plain) key salt)
  /\ access_token stored <> access_token plain
  /\ (if truthy (refresh_token plain)
      then exists salt r,
          refresh_token plain = Some r
          /\ refresh_token stored = Some (CryptoJS.AES_encrypt r key salt)
          /\ refresh_token stored <> Some r
      else refresh_token stored = None)
  /\ expiry_date stored = expiry_date plain.

(** ** What [getClientById] reads back of a client that was saved *)

(** The texts the cipher can give back: with a key, strings of well-formed
    UTF-8. *)
Definition readable (key : option string) (t : Tokens) : Prop :=
  truthy key = false
  \/ (CryptoJS.Utf8.valid (CryptoJS.Utf8.parse (access_token t)) = true
      /\ forall r, refresh_token t = Some r ->
                   CryptoJS.Utf8.valid (CryptoJS.Utf8.parse r) = true).

(** The record as saved at [updated], its tokens in the clear; a refresh
    token that was missing or empty reads [null]. *)
Definition as_read_back (updated : Z) (c : Client) : Client :=
  Database.dataToSave
    {| access_token := access_token (tokens c);
       refresh_token := (if truthy (refresh_token (tokens c))
                         then refresh_token (tokens c) else None);
       expiry_date := expiry_date (tokens c) |}
    updated c.

(** ** The same registration under another client-supplied email *)

Definition with_reg_email (other : string) (r : Auth.RegistrationData)
    : Auth.RegistrationData :=
  {| Auth.reg_email := other;
     Auth.reg_name := Auth.reg_name r;
     Auth.reg_company := Auth.reg_company r;
     Auth.reg_state := Auth.reg_state r |}.

Definition with_email (other : string) (c : Client) : Client :=
  {| clientId := clientId c; email := other; name := name c;
     company := company c; gmailAddress := gmailAddress c;
     tokens := tokens c; registeredAt := registeredAt c;
     lastRenewed := lastRenewed c; watchData := watchData c;
     updatedAt := updatedAt c |}.

(** ** Sample data for the examples *)

Module Sample.

Definition world0 : World := {| firestore := ∅; history := [] |}.

Definition salt : CryptoJS.Salt :=
  CryptoJS.mkSalt (CryptoJS.W "0" "1" "2" "3") (CryptoJS.W "4" "5" "6" "7")%char.

Definition key : option string := Some "0123456789abcdef0123456789abcdef".

(** The string of one code unit, the surrogate D800 without its partner. *)
Definition lone_surrogate : string :=
  String (ascii_of_nat 237) (String (ascii_of_nat 160) (String (ascii_of_nat 128) "")).

Definition cfg : ProcessEnv :=
  {| ENCRYPTION_KEY := key;
     FIRESTORE_PROJECT_ID := Some "gmail-agents";
     PUBSUB_TOPIC_PREFIX_var := None;
     N8N_WEBHOOK_URL := Some "https://n8n.example.com/webhook/gmail-registrations";
     N8N_RENEWAL_WEBHOOK_URL := None |}.

Definition google_tokens : Tokens :=
  {| access_token := "ya29.a0AfH6SM";
     refresh_token := Some "1//0gabcdef";
     expiry_date := 1705321800000 |}.

Definition quote : string := String (ascii_of_nat 34) "".

(** The notification Gmail publishes, and its Base64. *)
Definition notification : string :=
  ("{" ++ quote ++ "emailAddress" ++ quote ++ ":" ++ quote ++ "alice.inbox@gmail.com"
   ++ quote ++ "," ++ quote ++ "historyId" ++ quote ++ ":1234567}")%string.

Definition notification_data : string :=
  string_of_list_ascii (CryptoJS.Base64.stringify (list_ascii_of_string notification)).

(** An outside where nothing answers. *)
Definition env_down : Env :=
  {| load_order := AuthFirst;
     Date_now := fun h => (1705318200000 + Z.of_nat (length h))%Z;
     random_salt := fun _ => salt;
     uuidv4 := fun _ => "3f0e7c1a-0000-4000-8000-000000000001";
     axios_post := fun _ _ _ => Throw (mkError "connect ECONNREFUSED");
     firestore_down := fun _ => Some (mkError "14 UNAVAILABLE");
     getToken := fun _ _ => Throw (mkError "invalid_grant");
     userinfo_get := fun _ _ => Throw (mkError "Request failed");
     topic_exists := fun _ _ => Throw (mkError "14 UNAVAILABLE");
     createTopic := fun _ _ => Throw (mkError "14 UNAVAILABLE");
     users_watch := fun _ _ _ => Throw (mkError "Invalid Credentials");
     users_stop := fun _ _ => Throw (mkError "Invalid Credentials");
     cryptojs_elsewhere := fun _ _ => Throw (mkError "Malformed UTF-8 data");
     Buffer_from_base64_toString := fun _ => "";
     JSON_parse := fun _ => Throw (mkError "Unexpected end of JSON input") |}.

(** An outside where every service answers; the platform functions know
    the canonical Base64 strings and the one notification. *)
Definition env_up : Env :=
  {| load_order := AuthFirst;
     Date_now := fun h => (1705318200000 + Z.of_nat (length h))%Z;
     random_salt := fun _ => salt;
     uuidv4 := fun h =>
       match h with
       | [] => "9b2d5a4e-0000-4000-8000-00000000beef"
       | _ => "3f0e7c1a-0000-4000-8000-000000000001"
       end;
     axios_post := fun _ _ _ => Return {| status := 200; data := "ok" |};
     firestore_down := fun _ => None;
     getToken := fun _ code =>
       match code with
       | Some _ => Return google_tokens
       | None => Throw (mkError "invalid_request")
       end;
     userinfo_get := fun _ _ => Return "alice.inbox@gmail.com";
     topic_exists := fun _ _ => Return false;
     createTopic := fun _ _ => Return tt;
     users_watch := fun _ _ _ =>
       Return {| resp_historyId := "1234567"; resp_expiration := 1705923000000 |};
     users_stop := fun _ _ => Return tt;
     cryptojs_elsewhere := fun _ _ => Throw (mkError "Malformed UTF-8 data");
     Buffer_from_base64_toString := fun data =>
       match CryptoJS.Base64.parse (list_ascii_of_string data) with
       | Some bytes => string_of_list_ascii bytes
       | None => ""
       end;
     JSON_parse := fun text =>
       if String.eqb text notification then Return tt
       else Throw (mkError "Unexpected token in JSON") |}.

(** The same outside for a process that required gmail-watch.js first. *)
Definition env_watch_first : Env :=
  {| load_order := GmailWatchFirst;
     Date_now := Date_now env_up;
     random_salt := random_salt env_up;
     uuidv4 := uuidv4 env_up;
     axios_post := axios_post env_up;
     firestore_down := firestore_down env_up;
     getToken := getToken env_up;
     userinfo_get := userinfo_get env_up;
     topic_exists := topic_exists env_up;
     createTopic := createTopic env_up;
     users_watch := users_watch env_up;
     users_stop := users_stop env_up;
     cryptojs_elsewhere := cryptojs_elsewhere env_up;
     Buffer_from_base64_toString := Buffer_from_base64_toString env_up;
     JSON_parse := JSON_parse env_up |}.

(** Alice as the callback builds her record, and as Firestore holds it
    once saved under [key] and renewed once. *)
Definition alice : Client :=
  {| clientId := "3f0e7c1a-0000-4000-8000-000000000001";
     email := "alice@example.com";
     name := "Alice";
     company := "Acme Corp";
     gmailAddress := "alice.inbox@gmail.com";
     tokens := google_tokens;
     registeredAt := 1704700000000;
     lastRenewed := None;
     watchData := None;
     updatedAt := None |}.

Definition alice_stored : Client :=
  {| clientId := "3f0e7c1a-0000-4000-8000-000000000001";
     email := "alice@example.com";
     name := "Alice";
     company := "Acme Corp";
     gmailAddress := "alice.inbox@gmail.com";
     tokens := {| access_token := "U2FsdGVkX18wMTIzNDU2Nz3VToe1Ek2bYBJdFyv3iww=";
                  refresh_token := None;
                  expiry_date := 1705321800000 |};
     registeredAt := 1704700000000;
     lastRenewed := Some 1704700000500%Z;
     watchData := Some {| historyId := "1030201";
                          expiration := 1705304800000;
                          topicName := "gmail-watch-3f0e7c1a-0000-4000-8000-000000000001" |};
     updatedAt := Some 1704700000501%Z |}.

Definition world_alice : World :=
  {| firestore := {[ clientId alice_stored := alice_stored ]};
     history := [] |}.

End Sample.

(** ** More readings of a history *)

(** The calls that were started and not awaited, in order. *)
Fixpoint detached (h : History) : list Task :=
  match h with
  | [] => []
  | Detached task :: h' => task :: detached h'
  | _ :: h' => detached h'
  end.

(** The payloads that were posted, in order. *)
Fixpoint posted (h : History) : list Payload :=
  match h with
  | [] => []
  | AxiosPost _ payload :: h' => payload :: posted h'
  | _ :: h' => posted h'
  end.

(** The requests sent to the mail provider: [watch] and [stop]. *)
Fixpoint provider_calls (h : History) : nat :=
  match h with
  | [] => O
  | GmailWatch _ _ :: h' => S (provider_calls h')
  | GmailStop _ :: h' => S (provider_calls h')
  | _ :: h' => provider_calls h'
  end.

(** ** More sample data *)

Module MoreSamples.

(** A receiver that drops the first delivery and accepts the next ones. *)
Definition env_flaky : Env :=
  {| load_order := load_order Sample.env_up;
     Date_now := Date_now Sample.env_up;
     random_salt := random_salt Sample.env_up;
     uuidv4 := uuidv4 Sample.env_up;
     axios_post := fun h _ _ =>
       if (deliveries h <? 1)%nat then Throw (mkError "socket hang up")
       else Return {| status := 202; data := "queued" |};
     firestore_down := firestore_down Sample.env_up;
     getToken := getToken Sample.env_up;
     userinfo_get := userinfo_get Sample.env_up;
     topic_exists := topic_exists Sample.env_up;
     createTopic := createTopic Sample.env_up;
     users_watch := users_watch Sample.env_up;
     users_stop := users_stop Sample.env_up;
     cryptojs_elsewhere := cryptojs_elsewhere Sample.env_up;
     Buffer_from_base64_toString := Buffer_from_base64_toString Sample.env_up;
     JSON_parse := JSON_parse Sample.env_up |}.

(** Bob, registered a few minutes ago, without a subscription yet; his
    tokens are stored under [Sample.key]. *)
Definition bob_stored : Client :=
  {| clientId := "7c9e6679-0000-4000-8000-000000000002";
     email := "bob@example.com";
     name := "Bob";
     company := "";
     gmailAddress := "bob.inbox@gmail.com";
     tokens := {| access_token := "U2FsdGVkX18wMTIzNDU2NxdQwsjxJhnw+V0BukYiPaw=";
                  refresh_token := Some "U2FsdGVkX18wMTIzNDU2NxceTBSIl+19Eqv/MYAwru0=";
                  expiry_date := 1705321500000 |};
     registeredAt := 1705318000000;
     lastRenewed := None;
     watchData := None;
     updatedAt := Some 1705318000002%Z |}.

Definition bob_tokens : Tokens :=
  {| access_token := "ya29.b0BobToken";
     refresh_token := Some "1//0bobRefresh";
     expiry_date := 1705321500000 |}.

(** The collection with Alice and Bob. *)
Definition world_two : World :=
  {| firestore := <[clientId bob_stored := bob_stored]>
                    {[ clientId Sample.alice_stored := Sample.alice_stored ]};
     history := [] |}.

End MoreSamples.

(** ** What is read back of tokens that were written *)

(** A refresh token that was missing or empty reads [null]. *)
Definition read_back (t : Tokens) : Tokens :=
  {| access_token := access_token t;
     refresh_token := (if truthy (refresh_token t) then refresh_token t else None);
     expiry_date := expiry_date t |}.

(** Two documents that differ in the three fields of a subscription
    update at most. *)
Definition same_but_subscription (old doc : Client) : Prop :=
  clientId doc = clientId old /\ email doc = email old /\ name doc = name old
  /\ company doc = company old /\ gmailAddress doc = gmailAddress old
  /\ tokens doc = tokens old /\ registeredAt doc = registeredAt old.

(** ** backend/database.js: the other operations of the store

    The requests these functions send (a delete, a query) are not among the
    kinds the history keeps, so what Firestore makes of each is an argument
    of the function: [rejected] is [Some error] when Firestore rejects the
    request. A query answers the matching documents in an order of
    Firestore's own, [order]. *)

Module Store.

Definition request (rejected : option Error) : M unit :=
  lift (match rejected with
        | Some error => Throw error
        | None => Return tt
        end).

(** [doc(id).delete()]: succeeds whether or not there is a document. *)
Definition doc_delete (rejected : option Error) (id : string) : M unit :=
  request rejected ;;
  fun w => (Return tt, {| firestore := base.delete id (firestore w);
                          history := history w |}).

Definition deleteClient (rejected : option Error) (id : string) : M bool :=
  try_catch
    (doc_delete rejected id ;;
     ret true)
    (fun error => throw (mkError "Failed to delete client")).

Section Queries.
Context (order : list Client -> list Client).

(** [collection.where(...).get()], and [collection.get()] with a filter
    that holds of every document. *)
Definition query (rejected : option Error) (matches : Client -> bool)
    : M (list Client) :=
  request rejected ;;
  fun w => (Return (order (List.filter matches (map snd (map_to_list (firestore w))))), w).

(** [snapshot.forEach(doc => clients.push({ ...data, tokens:
    decryptTokens(data.tokens) }))] *)
Fixpoint decrypt_each (env : Env) (key : option string) (docs : list Client)
    : M (list Client) :=
  match docs with
  | [] => ret []
  | data :: docs' =>
      let! decrypted := Database.decryptTokens env key (tokens data) in
      let! clients := decrypt_each env key docs' in
      ret (Database.with_tokens decrypted data :: clients)
  end.

(** [.where('gmailAddress', '==', gmailAddress).limit(1)] *)
Definition getClientByGmail (rejected : option Error) (env : Env) (key : option string)
    (gmail : string) : M (option Client) :=
  try_catch
    (let! docs := query rejected (fun data => String.eqb (gmailAddress data) gmail) in
     match docs with
     | [] => ret None
     | data :: _ =>
         let! decrypted := Database.decryptTokens env key (tokens data) in
         ret (Some (Database.with_tokens decrypted data))
     end)
    (fun error => throw (mkError "Failed to retrieve client data")).

Definition getAllClients (rejected : option Error) (env : Env) (key : option string)
    : M (list Client) :=
  try_catch
    (let! docs := query rejected (fun _ => true) in
     decrypt_each env key docs)
    (fun error => throw (mkError "Failed to retrieve clients")).

(** [.where('watchData.expiration', '<=', expirationThreshold)]: a document
    without a subscription has no such field and does not match. *)
Definition expires_by (threshold : Z) (data : Client) : bool :=
  match watchData data with
  | Some wd => (expiration wd <=? threshold)%Z
  | None => false
  end.

(** [getClientsWithExpiringWatches(hoursFromNow)]. [later now hours] is
    the date [setHours(getHours() + hours)] makes of [now] in the time zone
    of the process: [now + hours * 3600000] where the clocks do not
    change. *)
Definition getClientsWithExpiringWatches (rejected : option Error) (env : Env)
    (key : option string) (later : Z -> Z -> Z) (hoursFromNow : Z) : M (list Client) :=
  try_catch
    (let! now := new_Date env in
     let expirationThreshold := later now hoursFromNow in
     let! docs := query rejected (expires_by expirationThreshold) in
     decrypt_each env key docs)
    (fun error => throw (mkError "Failed to retrieve clients with expiring watches")).

(** The four counters of [getStats]. *)
Record Stats : Type := mkStats {
  totalClients : nat;
  registeredToday : nat;
  registeredThisWeek : nat;
  activeWatches : nat
}.

Definition bump (b : bool) (n : nat) : nat := if b then S n else n.

(** The body of [snapshot.forEach] in [getStats]. *)
Definition count_one (now oneDayAgo oneWeekAgo : Z) (s : Stats) (data : Client) : Stats :=
  {| totalClients := S (totalClients s);
     registeredToday := bump (oneDayAgo <=? registeredAt data)%Z (registeredToday s);
     registeredThisWeek := bump (oneWeekAgo <=? registeredAt data)%Z (registeredThisWeek s);
     activeWatches :=
       bump (match watchData data with
             | Some wd => (now <? expiration wd)%Z
             | None => false
             end) (activeWatches s) |}.

Definition getStats (rejected : option Error) (env : Env) : M Stats :=
  try_catch
    (let! docs := query rejected (fun _ => true) in
     let! now := new_Date env in
     let oneDayAgo := (now - 24 * 60 * 60 * 1000)%Z in
     let oneWeekAgo := (now - 7 * 24 * 60 * 60 * 1000)%Z in
     ret (fold_left (count_one now oneDayAgo oneWeekAgo) docs
            {| totalClients := 0; registeredToday := 0;
               registeredThisWeek := 0; activeWatches := 0 |}))
    (fun error => throw (mkError "Failed to retrieve statistics")).

End Queries.
End Store.

(** ** backend/auth.js: refreshing and revoking

    What the identity provider answers to [refreshAccessToken] and to
    [revokeCredentials] is an argument of the handler: a function of the
    credentials the shared OAuth client was given just before. *)

Module AuthRoutes.

(** [credentials] of [refreshAccessToken()], as far as the handler reads
    them *)
Record Credentials : Type := mkCredentials {
  new_access_token : string;
  new_expiry_date : Z
}.

(** [client.tokens.access_token = ...; client.tokens.expiry_date = ...] *)
Definition refreshed (credentials : Credentials) (client : Client) : Client :=
  Database.with_tokens
    {| access_token := new_access_token credentials;
       refresh_token := refresh_token (tokens client);
       expiry_date := new_expiry_date credentials |}
    client.

(** POST /auth/refresh; [clientId] is [req.body.clientId]. *)
Definition refresh (env : Env) (cfg : ProcessEnv)
    (refreshAccessToken : option string -> completion Credentials)
    (clientId : option string) : M Response :=
  try_catch
    (if negb (truthy clientId)
     then ret (Json 400 [("error", JStr "Client ID is required")])
     else
       let! client := Database.getClientById env (ENCRYPTION_KEY cfg) (default "" clientId) in
       match client with
       | None => ret (Json 404 [("error", JStr "Client not found")])
       | Some client =>
           let! credentials := lift (refreshAccessToken (refresh_token (tokens client))) in
           Database.saveClient env (ENCRYPTION_KEY cfg) (refreshed credentials client) ;;
           ret (Json 200 [("success", JBool true);
                          ("message", JStr "Token refreshed successfully");
                          ("expiry_date", JNum (new_expiry_date credentials))])
       end)
    (fun error =>
       ret (Json 500 [("error", JStr "Failed to refresh token");
                      ("message", JStr (message error))])).

(** POST /auth/revoke *)
Definition revoke (env : Env) (cfg : ProcessEnv)
    (revokeCredentials : string -> completion unit)
    (clientId : option string) : M Response :=
  try_catch
    (if negb (truthy clientId)
     then ret (Json 400 [("error", JStr "Client ID is required")])
     else
       let! client := Database.getClientById env (ENCRYPTION_KEY cfg) (default "" clientId) in
       match client with
       | None => ret (Json 404 [("error", JStr "Client not found")])
       | Some client =>
           lift (revokeCredentials (access_token (tokens client))) ;;
           ret (Json 200 [("success", JBool true);
                          ("message", JStr "Access revoked successfully")])
       end)
    (fun error =>
       ret (Json 500 [("error", JStr "Failed to revoke access");
                      ("message", JStr (message error))])).

End AuthRoutes.

(** ** backend/server.js: the watch setup endpoint *)

(** A field of a JSON body that may hold an object of its own. *)
Inductive json : Type :=
| Value (v : jsval)
| Object (fields : jsobj).

(** [res.status(status).json(body)] *)
Inductive Reply : Type := ReplyJson (status : Z) (body : list (string * json)).

Definition reply_status (r : Reply) : Z := let 'ReplyJson status _ := r in status.

Module ServerRoutes.

(** POST /gmail/watch/setup *)
Definition gmail_watch_setup (env : Env) (cfg : ProcessEnv) (clientId : option string)
    : M Reply :=
  try_catch
    (if negb (truthy clientId)
     then ret (ReplyJson 400 [("error", Value (JStr "Client ID is required"))])
     else
       let! watchData := GmailWatch.setupGmailWatch env cfg (default "" clientId) in
       ret (ReplyJson 200
              [("success", Value (JBool true));
               ("message", Value (JStr "Gmail watch set up successfully"));
               ("data", Object watchData)]))
    (fun error =>
       ret (ReplyJson 500
              [("success", Value (JBool false));
               ("error", Value (JStr "Failed to set up Gmail watch"));
               ("message", Value (JStr (message error)))])).

End ServerRoutes.

(** ** backend/gmail-watch.js: reading the mailbox

    What the mail API answers to [history.list] and [messages.get] is an
    argument, a function of the credentials and of the request. *)

Module GmailMessages.

(** [response.data] of [history.list]; [history] is missing when nothing
    happened since the start id. *)
Record HistoryData : Type := mkHistoryData {
  data_history : option (list jsobj);
  data_historyId : string
}.

(** The object [getMessageHistory] returns. *)
Record MessageHistory : Type := mkMessageHistory {
  history_success : bool;
  history_list : list jsobj;
  history_id : string
}.

Definition getMessageHistory (env : Env) (cfg : ProcessEnv)
    (list_history : Tokens -> string -> completion HistoryData)
    (id historyId : string) : M MessageHistory :=
  try_catch
    (let! client := Database.getClientById env (ENCRYPTION_KEY cfg) id in
     match client with
     | None => throw (mkError "Client not found")
     | Some client =>
         GmailWatch.getOAuth2Client env ;;
         let! response := lift (list_history (tokens client) historyId) in
         ret {| history_success := true;
                history_list := default [] (data_history response);
                history_id := data_historyId response |}
     end)
    (fun error => throw error).

(** [getMessage], whose result is [{ success: true, message:
    response.data }]. *)
Definition getMessage (env : Env) (cfg : ProcessEnv)
    (get_message : Tokens -> string -> completion jsobj)
    (id messageId : string) : M (bool * jsobj) :=
  try_catch
    (let! client := Database.getClientById env (ENCRYPTION_KEY cfg) id in
     match client with
     | None => throw (mkError "Client not found")
     | Some client =>
         GmailWatch.getOAuth2Client env ;;
         let! response := lift (get_message (tokens client) messageId) in
         ret (true, response)
     end)
    (fun error => throw error).

End GmailMessages.

(** ** Reading the collection as a whole *)

(** The documents of the collection, in no order that matters. *)
Definition documents (w : World) : list Client := map snd (map_to_list (firestore w)).

(** [decryptTokens] reads the tokens of [data] as [t], without throwing. *)
Definition deciphers (env : Env) (key : option string) (data : Client) (t : Tokens)
    : Prop :=
  forall w, Database.decryptTokens env key (tokens data) w = (Return t, w).

(** [client] is the document [data] with its tokens read. *)
Definition deciphered (env : Env) (key : option string) (data client : Client) : Prop :=
  exists t, deciphers env key data t /\ client = Database.with_tokens t data.

Definition has_subscription (data : Client) : bool :=
  match watchData data with
  | Some _ => true
  | None => false
  end.

(** Two documents that differ in their tokens and [updatedAt] at most. *)
Definition same_but_tokens (old doc : Client) : Prop :=
  clientId doc = clientId old /\ email doc = email old /\ name doc = name old
  /\ company doc = company old /\ gmailAddress doc = gmailAddress old
  /\ registeredAt doc = registeredAt old /\ lastRenewed doc = lastRenewed old
  /\ watchData doc = watchData old.

(** ** functions/watch-renewal.js: the batch

    [renewGmailWatches] calls [renewWatch] on every document of the
    snapshot in turn and only then waits for them all. A call of an
    [async] function runs up to its first [await] before it hands back its
    promise, so each renewal has decrypted its tokens, given them to the
    one OAuth client of the module and sent its first request before the
    next renewal starts, and before any answer is looked at. From there a
    renewal moves on each time the answer it waits for arrives, up to its
    next request; in which order the answers arrive is the outside's
    choice, the [schedule]. *)

Module Scheduler.

(** Sending a request: the answer is fixed by what happened so far, and is
    looked at when the renewal resumes. *)
Definition ask {A} (answer : History -> completion A) (e : Effect) : M (completion A) :=
  fun w => (Return (answer (history w)), record_effect e w).

(** Running a block up to its end, keeping how it ended. *)
Definition settle {A} (m : M A) : M (completion A) :=
  fun w => let (c, w') := m w in (Return c, w').

(** Where a renewal stands: the answer it waits for, or its result. *)
Inductive Stage : Type :=
| AwaitExists (answer : completion bool)
| AwaitCreate (answer : completion unit)
| AwaitWatch (answer : completion WatchResponse)
| AwaitUpdate (response : WatchResponse) (answer : completion unit)
| Settled (result : jsobj).

Record Renewal : Type := mkRenewal {
  renewal_client : Client;
  renewal_stage : Stage
}.

(** The state of the process while the batch runs: the world, the
    credentials the OAuth client holds, the renewals in snapshot order. *)
Record Process : Type := mkProcess {
  world : World;
  credentials : Tokens;
  renewals : list Renewal
}.

Definition topic_of (cfg : ProcessEnv) (client : Client) : string :=
  GmailWatch.existing_topic cfg client (clientId client).

(** The [catch] block of [renewWatch]. *)
Definition failed (env : Env) (client : Client) (error : Error) : M Stage :=
  let! renewedAt := new_Date env in
  ret (Settled [("success", JBool false);
                ("clientId", JStr (clientId client));
                ("gmailAddress", JStr (gmailAddress client));
                ("error", JStr (message error));
                ("renewedAt", JDate renewedAt)]).

(** [renewWatch(client)] up to [await topic.exists()]; the second
    component is what the OAuth client holds afterwards. *)
Definition start (env : Env) (cfg : ProcessEnv) (held : Tokens) (client : Client)
    : M (Stage * Tokens) :=
  try_catch
    (let! tokens := WatchRenewal.decryptTokens env (ENCRYPTION_KEY cfg) (tokens client) in
     let! answer := ask (fun h => topic_exists env h (topic_of cfg client))
                        (TopicExists (topic_of cfg client)) in
     ret (AwaitExists answer, tokens))
    (fun error =>
       let! stage := failed env client error in
       ret (stage, held)).

(** [gmail.users.watch(...)]: the request goes out with what the OAuth
    client holds now. *)
Definition request_watch (env : Env) (cfg : ProcessEnv) (held : Tokens) (client : Client)
    : M Stage :=
  let fullTopicName := GmailWatch.fullTopicName cfg (topic_of cfg client) in
  let! answer := ask (fun h => users_watch env h held fullTopicName)
                     (GmailWatch held fullTopicName) in
  ret (AwaitWatch answer).

(** [clientRef.update({ watchData, lastRenewed, updatedAt })] *)
Definition request_update (env : Env) (cfg : ProcessEnv) (client : Client)
    (watchResponse : WatchResponse) : M Stage :=
  let! answer :=
    settle (let! renewed := new_Date env in
            let! updated := new_Date env in
            Firestore.update env (clientId client)
              (Database.watch_fields
                 (Some (GmailWatch.watchData_of watchResponse (topic_of cfg client)))
                 renewed updated)) in
  ret (AwaitUpdate watchResponse answer).

(** A renewal moves on, from the answer it waited for to its next request
    or to its result. *)
Definition resume (env : Env) (cfg : ProcessEnv) (held : Tokens) (r : Renewal) : M Stage :=
  let client := renewal_client r in
  match renewal_stage r with
  | AwaitExists (Return exists_) =>
      if negb exists_
      then let! answer := ask (fun h => createTopic env h (topic_of cfg client))
                              (CreateTopic (topic_of cfg client)) in
           ret (AwaitCreate answer)
      else request_watch env cfg held client
  | AwaitCreate (Return _) => request_watch env cfg held client
  | AwaitWatch (Return watchResponse) => request_update env cfg client watchResponse
  | AwaitUpdate watchResponse (Return _) =>
      let! renewedAt := new_Date env in
      ret (Settled [("success", JBool true);
                    ("clientId", JStr (clientId client));
                    ("gmailAddress", JStr (gmailAddress client));
                    ("newExpiration", JDate (resp_expiration watchResponse));
                    ("renewedAt", JDate renewedAt)])
  | AwaitExists (Throw error) | AwaitCreate (Throw error)
  | AwaitWatch (Throw error) | AwaitUpdate _ (Throw error) => failed env client error
  | Settled result => ret (Settled result)
  end.

(** [snapshot.forEach(doc => renewalPromises.push(renewWatch(doc.data())))] *)
Fixpoint start_all (env : Env) (cfg : ProcessEnv) (docs : list Client) (p : Process)
    : Process :=
  match docs with
  | [] => p
  | client :: docs' =>
      match start env cfg (credentials p) client (world p) with
      | (Return (stage, held), w') =>
          start_all env cfg docs'
            {| world := w'; credentials := held;
               renewals := renewals p ++ [{| renewal_client := client;
                                             renewal_stage := stage |}] |}
      | (Throw _, _) => p
      end
  end.

(** The answer renewal number [i] waits for arrives. *)
Definition deliver (env : Env) (cfg : ProcessEnv) (i : nat) (p : Process) : Process :=
  match renewals p !! i with
  | Some r =>
      match resume env cfg (credentials p) r (world p) with
      | (Return stage, w') =>
          {| world := w'; credentials := credentials p;
             renewals := <[i := {| renewal_client := renewal_client r;
                                   renewal_stage := stage |}]> (renewals p) |}
      | (Throw _, _) => p
      end
  | None => p
  end.

Definition run (env : Env) (cfg : ProcessEnv) (schedule : list nat) (p : Process)
    : Process :=
  fold_left (fun p i => deliver env cfg i p) schedule p.

(** [Promise.all]: the results, once every renewal has one. *)
Fixpoint results (rs : list Renewal) : option (list jsobj) :=
  match rs with
  | [] => Some []
  | r :: rs' =>
      match renewal_stage r, results rs' with
      | Settled result, Some l => Some (result :: l)
      | _, _ => None
      end
  end.

(** What [renewGmailWatches] returns. *)
Inductive Summary : Type :=
| NothingToRenew                     (* { success: true, message: 'No watches to renew' } *)
| Processed (totalProcessed successful failed : nat) (results : list jsobj).

(** [renewGmailWatches]. [rejected], [order] and [later] are those of the
    query of [Store.getClientsWithExpiringWatches]; [held] is what the
    OAuth client holds when the function is entered. The result is [None]
    when the schedule ends before every renewal has its answer: the
    function is still waiting. *)
Definition renewGmailWatches (env : Env) (cfg : ProcessEnv)
    (rejected : option Error) (order : list Client -> list Client) (later : Z -> Z -> Z)
    (held : Tokens) (schedule : list nat) (w : World)
    : option (completion Summary * World) :=
  match (let! now := new_Date env in
         Store.query order rejected (Store.expires_by (later now 48%Z))) w with
  | (Throw error, w1) => Some (Throw error, w1)
  | (Return [], w1) => Some (Return NothingToRenew, w1)
  | (Return docs, w1) =>
      let p := run env cfg schedule
                 (start_all env cfg docs
                    {| world := w1; credentials := held; renewals := [] |}) in
      match results (renewals p) with
      | Some results =>
          match WatchRenewal.sendRenewalWebhook env (N8N_RENEWAL_WEBHOOK_URL cfg) results
                  (world p) with
          | (Return _, w2) =>
              Some (Return (Processed (length results)
                              (length (List.filter WatchRenewal.success results))
                              (length (List.filter (fun r => negb (WatchRenewal.success r))
                                         results))
                              results), w2)
          | (Throw error, w2) => Some (Throw error, w2)
          end
      | None => None
      end
  end.

(** What [renewGmailWatchesHTTP] answers. *)
Inductive HttpAnswer : Type :=
| Answer200 (result : Summary)
| Answer500 (error : string).

Definition renewGmailWatchesHTTP (env : Env) (cfg : ProcessEnv)
    (rejected : option Error) (order : list Client -> list Client) (later : Z -> Z -> Z)
    (held : Tokens) (schedule : list nat) (w : World) : option (HttpAnswer * World) :=
  match renewGmailWatches env cfg rejected order later held schedule w with
  | Some (Return result, w') => Some (Answer200 result, w')
  | Some (Throw error, w') => Some (Answer500 (message error), w')
  | None => None
  end.

End Scheduler.

(** How many answers a renewal may still have to wait for. *)
Definition answers_left (stage : Scheduler.Stage) : nat :=
  match stage with
  | Scheduler.AwaitExists _ => 4
  | Scheduler.AwaitCreate _ => 3
  | Scheduler.AwaitWatch _ => 2
  | Scheduler.AwaitUpdate _ _ => 1
  | Scheduler.Settled _ => 0
  end.

(** The snapshot of the batch entered in world [w]. *)
Definition expiring (env : Env) (order : list Client -> list Client)
    (later : Z -> Z -> Z) (w : World) : list Client :=
  order (List.filter (Store.expires_by (later (Date_now env (history w)) 48%Z))
           (documents w)).

(** The credentials the requests to [gmail.users.watch] went out with. *)
Fixpoint watch_credentials (h : History) : list Tokens :=
  match h with
  | [] => []
  | GmailWatch held _ :: h' => held :: watch_credentials h'
  | _ :: h' => watch_credentials h'
  end.

(** [w'] comes after [w], and every request to [gmail.users.watch] in
    between went out with [held]. *)
Definition watched_with (held : Tokens) (w w' : World) : Prop :=
  exists new, history w' = history w ++ new /\ Forall (eq held) (watch_credentials new).

(** A result names the account of its renewal and says how it went. *)
Definition reports (r : Scheduler.Renewal) : Prop :=
  match Scheduler.renewal_stage r with
  | Scheduler.Settled result =>
      get "clientId" result = Some (JStr (clientId (Scheduler.renewal_client r)))
      /\ exists b, get "success" result = Some (JBool b)
  | _ => True
  end.

(** [w'] comes after [w], and nothing was posted in between. *)
Definition silent (w w' : World) : Prop :=
  exists new, history w' = history w ++ new /\ deliveries new = 0%nat.

(** Every document of [w] is in [w'] with its subscription, [lastRenewed]
    and [updatedAt] changed at most, and [w'] holds no other document. *)
Definition subscriptions_apart (w w' : World) : Prop :=
  forall id, option_Forall2 same_but_subscription (firestore w !! id) (firestore w' !! id).

(** A renewal whose next [n] answers arrive with nothing in between. *)
Fixpoint alone (env : Env) (cfg : ProcessEnv) (held : Tokens) (n : nat)
    (r : Scheduler.Renewal) : M Scheduler.Stage :=
  match n with
  | O => ret (Scheduler.renewal_stage r)
  | S n' =>
      let! stage := Scheduler.resume env cfg held r in
      alone env cfg held n' {| Scheduler.renewal_client := Scheduler.renewal_client r;
                               Scheduler.renewal_stage := stage |}
  end.

(** ** Sample data for the batch *)

Module BatchSample.

(** The Cloud Function's configuration, with a receiver for the batch. *)
Definition cfg : ProcessEnv :=
  {| ENCRYPTION_KEY := Sample.key;
     FIRESTORE_PROJECT_ID := Some "gmail-agents";
     PUBSUB_TOPIC_PREFIX_var := None;
     N8N_WEBHOOK_URL := None;
     N8N_RENEWAL_WEBHOOK_URL := Some "https://n8n.example.com/webhook/gmail-renewals" |}.

(** Bob with a subscription that ends within a day. *)
Definition bob_watched : Client :=
  {| clientId := clientId MoreSamples.bob_stored;
     email := email MoreSamples.bob_stored;
     name := name MoreSamples.bob_stored;
     company := company MoreSamples.bob_stored;
     gmailAddress := gmailAddress MoreSamples.bob_stored;
     tokens := tokens MoreSamples.bob_stored;
     registeredAt := registeredAt MoreSamples.bob_stored;
     lastRenewed := Some 1705318000900%Z;
     watchData := Some {| historyId := "2040608";
                          expiration := 1705400000000;
                          topicName := "gmail-watch-7c9e6679-0000-4000-8000-000000000002" |};
     updatedAt := Some 1705318000901%Z |}.

(** The collection with Alice and Bob, both subscribed. *)
Definition world_watched : World :=
  {| firestore := <[clientId bob_watched := bob_watched]>
                    {[ clientId Sample.alice_stored := Sample.alice_stored ]};
     history := [] |}.

Definition alice_tokens : Tokens :=
  {| access_token := "ya29.a0AfH6SM"; refresh_token := None; expiry_date := 1705321800000 |}.

(** [setHours(getHours() + hours)] where the clocks do not change. *)
Definition later (now hours : Z) : Z := (now + hours * 3600000)%Z.

(** The answers arrive in turns, Bob's first. *)
Definition in_turns : list nat := [1; 0; 1; 0; 0; 1; 1; 0]%nat.

End BatchSample.

(** * Properties *)

(** ** Worlds and histories *)

Module WorldFacts.

Lemma since_extend w new : since w (extend w new) = new.
Proof. unfold since, extend. simpl. apply drop_app_length. Qed.

Lemma extend_nil w : extend w [] = w.
Proof. destruct w. unfold extend. simpl. rewrite app_nil_r. reflexivity. Qed.

Lemma extend_extend w h1 h2 : extend (extend w h1) h2 = extend w (h1 ++ h2).
Proof. unfold extend. simpl. rewrite app_assoc. reflexivity. Qed.

Lemma record_effect_extend w e : record_effect e w = extend w [e].
Proof. reflexivity. Qed.

(** A block that returns passed each of its steps. *)
Lemma bind_Return {A B} (m : M A) (k : A -> M B) w b w' :
  bind m k w = (Return b, w') ->
  exists a w1, m w = (Return a, w1) /\ k a w1 = (Return b, w').
Proof.
  unfold bind. destruct (m w) as [[a|e] w1]; intros H; [eauto | discriminate].
Qed.

Lemma bind_step {A B} (m : M A) (k : A -> M B) w a w1 :
  m w = (Return a, w1) -> bind m k w = k a w1.
Proof. intros H. unfold bind. rewrite H. reflexivity. Qed.

Lemma bind_raise {A B} (m : M A) (k : A -> M B) w e w1 :
  m w = (Throw e, w1) -> bind m k w = (Throw e, w1).
Proof. intros H. unfold bind. rewrite H. reflexivity. Qed.

(** A block that throws does so at its first step or after it. *)
Lemma bind_Throw {A B} (m : M A) (k : A -> M B) w e w' :
  bind m k w = (Throw e, w') ->
  m w = (Throw e, w') \/ exists a w1, m w = (Return a, w1) /\ k a w1 = (Throw e, w').
Proof.
  unfold bind. destruct (m w) as [[a|e'] w1]; intros H; [right; eauto | left].
  injection H as -> ->. reflexivity.
Qed.

Lemma frames_ret {A} (a : A) : frames (ret a).
Proof. intros w r w' H. injection H as _ <-. reflexivity. Qed.

Lemma frames_throw {A} e : frames (@throw A e).
Proof. intros w r w' H. injection H as _ <-. reflexivity. Qed.

Lemma frames_lift {A} (c : completion A) : frames (lift c).
Proof. intros w r w' H. injection H as _ <-. reflexivity. Qed.

Lemma frames_call {A} (answer : History -> completion A) e : frames (call answer e).
Proof. intros w r w' H. injection H as _ <-. reflexivity. Qed.

Lemma frames_bind {A B} (m : M A) (k : A -> M B) :
  frames m -> (forall a, frames (k a)) -> frames (bind m k).
Proof.
  intros Hm Hk w r w'. unfold bind.
  destruct (m w) as [[a|e] w1] eqn:Hmw; intros H.
  - rewrite (Hk a _ _ _ H). apply (Hm _ _ _ Hmw).
  - injection H as _ <-. apply (Hm _ _ _ Hmw).
Qed.

Lemma frames_try_catch {A} (m : M A) (handler : Error -> M A) :
  frames m -> (forall e, frames (handler e)) -> frames (try_catch m handler).
Proof.
  intros Hm Hh w r w'. unfold try_catch.
  destruct (m w) as [[a|e] w1] eqn:Hmw; intros H.
  - injection H as _ <-. apply (Hm _ _ _ Hmw).
  - rewrite (Hh e _ _ _ H). apply (Hm _ _ _ Hmw).
Qed.

Lemma frames_if {A} (b : bool) (m1 m2 : M A) :
  frames m1 -> frames m2 -> frames (if b then m1 else m2).
Proof. destruct b; auto. Qed.

(** Assembling [frames] along the structure of a block. *)
Ltac framing :=
  repeat first
    [ apply frames_ret | apply frames_throw | apply frames_lift | apply frames_call
    | apply frames_bind; [|intros ?] | apply frames_try_catch; [|intros ?]
    | apply frames_if ].

(** Unfolding the plumbing of a block, down to the calls it makes. *)
Ltac run :=
  repeat progress
    (unfold bind, try_catch, ret, throw, lift, call, new_Date, detach,
       Firestore.set, Firestore.get, Firestore.update, Firestore.failing;
     cbv beta);
  cbn [extend history firestore record_effect].

Ltac ask_firestore :=
  match goal with
  | |- context [firestore_down ?env ?h] =>
      let error := fresh "error" in
      destruct (firestore_down env h) as [error|]
  end.

End WorldFacts.

(** ** The cipher: decryption undoes encryption *)

Module CryptoJSFacts.
Import CryptoJS.

(** *** The published test vectors *)

(** RFC 1321, appendix A.5. *)
Example md5_of_the_empty_string :
  hex (bytes_of_block (MD5.md5 [])) = "d41d8cd98f00b204e9800998ecf8427e".
Proof. vm_compute. reflexivity. Qed.

Example md5_of_abc :
  hex (bytes_of_block (MD5.md5 (list_ascii_of_string "abc")))
  = "900150983cd24fb0d6963f7d28e17f72".
Proof. vm_compute. reflexivity. Qed.

Example md5_of_the_digits :
  hex (bytes_of_block
         (MD5.md5 (list_ascii_of_string
                     ("1234567890123456789012345678901234567890"
                      ++ "1234567890123456789012345678901234567890"))))
  = "57edf4a22be3c955ac49da2e2107b67a".
Proof. vm_compute. reflexivity. Qed.

(** FIPS 197: the S-box at 53 is ed (section 5.1.1), and the AES-256
    example of appendix C.3: key 00 01 .. 1f, block 00 11 .. ff. *)
Example sbox_of_53 : hex [AES.sbox (ascii_of_nat 83)] = "ed".
Proof. vm_compute. reflexivity. Qed.

Example aes256_example_vector :
  match blocks_of_bytes (map ascii_of_nat (seq 0 32)),
        blocks_of_bytes (map (fun i => ascii_of_nat (17 * i)) (seq 0 16)) with
  | [k0; k1], [s] =>
      hex (bytes_of_block (AES.Cipher (AES.round_keys k0 k1) s))
      = "8ea2b7ca516745bfeafc49904b496089"
      /\ AES.InvCipher (AES.round_keys k0 k1) (AES.Cipher (AES.round_keys k0 k1) s) = s
  | _, _ => False
  end.
Proof. vm_compute. split; reflexivity. Qed.

(** RFC 4648, section 10. *)
Example base64_of_foobar :
  string_of_list_ascii (Base64.stringify (list_ascii_of_string "foobar")) = "Zm9vYmFy"
  /\ string_of_list_ascii (Base64.stringify (list_ascii_of_string "fooba")) = "Zm9vYmE="
  /\ string_of_list_ascii (Base64.stringify (list_ascii_of_string "foob")) = "Zm9vYg=="
  /\ Base64.parse (list_ascii_of_string "Zm9vYg==") = Some (list_ascii_of_string "foob").
Proof. vm_compute. repeat split. Qed.

(** The envelope of an access token under the sample key and salt: the
    magic, the salt, and one block, 3dd54e87 b5124d9b 60125d17 2bf78b0c. *)
Example envelope_of_an_access_token :
  AES_encrypt "ya29.a0AfH6SM" "0123456789abcdef0123456789abcdef"
    (mkSalt (W "0" "1" "2" "3") (W "4" "5" "6" "7"))%char
  = "U2FsdGVkX18wMTIzNDU2Nz3VToe1Ek2bYBJdFyv3iww="
  /\ (hex <$> Base64.parse (list_ascii_of_string
                              "U2FsdGVkX18wMTIzNDU2Nz3VToe1Ek2bYBJdFyv3iww="))
     = Some ("53616c7465645f5f" ++ "3031323334353637"
             ++ "3dd54e87b5124d9b60125d172bf78b0c")%string.
Proof. vm_compute. split; reflexivity. Qed.

Lemma xorb_cancel a b : xorb (xorb a b) b = a.
Proof. destruct a, b; reflexivity. Qed.

Lemma bxor_cancel a b : bxor (bxor a b) b = a.
Proof. destruct a, b; simpl; rewrite !xorb_cancel; reflexivity. Qed.

Lemma wxor_cancel x y : wxor (wxor x y) y = x.
Proof. destruct x, y; simpl; rewrite !bxor_cancel; reflexivity. Qed.

Lemma block_xor_cancel x y : block_xor (block_xor x y) y = x.
Proof. destruct x, y; simpl; rewrite !wxor_cancel; reflexivity. Qed.

(** *** The four transformations of AES and their inverses *)

Lemma inv_sbox_sbox a : AES.inv_sbox (AES.sbox a) = a.
Proof. destruct a as [[] [] [] [] [] [] [] []]; vm_compute; reflexivity. Qed.

Lemma InvSubBytes_SubBytes s : AES.InvSubBytes (AES.SubBytes s) = s.
Proof.
  destruct s as [[] [] [] []]; cbv [AES.InvSubBytes AES.SubBytes AES.map_block AES.map_word].
  rewrite !inv_sbox_sbox. reflexivity.
Qed.

Lemma InvShiftRows_ShiftRows s : AES.InvShiftRows (AES.ShiftRows s) = s.
Proof. destruct s as [[] [] [] []]; reflexivity. Qed.

Lemma inv_mix_column_mix_column x : AES.inv_mix_column (AES.mix_column x) = x.
Proof.
  destruct x as [[a0 a1 a2 a3 a4 a5 a6 a7] [b0 b1 b2 b3 b4 b5 b6 b7]
                 [c0 c1 c2 c3 c4 c5 c6 c7] [d0 d1 d2 d3 d4 d5 d6 d7]].
  cbv [AES.inv_mix_column AES.mix_column AES.bxor4 AES.mul2 AES.mul3 AES.mul9
       AES.mul11 AES.mul13 AES.mul14 AES.xtime bxor].
  f_equal; f_equal; btauto.
Qed.

Lemma InvMixColumns_MixColumns s : AES.InvMixColumns (AES.MixColumns s) = s.
Proof.
  destruct s; cbv [AES.InvMixColumns AES.MixColumns AES.map_block].
  rewrite !inv_mix_column_mix_column. reflexivity.
Qed.

Lemma AddRoundKey_cancel k s : AES.AddRoundKey k (AES.AddRoundKey k s) = s.
Proof. apply block_xor_cancel. Qed.

Lemma inv_round_round k s : AES.inv_round k (AES.round k s) = s.
Proof.
  unfold AES.inv_round, AES.round.
  rewrite AddRoundKey_cancel, InvMixColumns_MixColumns, InvShiftRows_ShiftRows.
  apply InvSubBytes_SubBytes.
Qed.

Lemma inv_final_round_final_round k s : AES.inv_final_round k (AES.final_round k s) = s.
Proof.
  unfold AES.inv_final_round, AES.final_round.
  rewrite AddRoundKey_cancel, InvShiftRows_ShiftRows.
  apply InvSubBytes_SubBytes.
Qed.

Lemma inv_rounds_rounds rest : forall k s, AES.inv_rounds k rest (AES.rounds k rest s) = s.
Proof.
  induction rest as [|k' rest IH]; intros k s; simpl.
  - apply inv_final_round_final_round.
  - rewrite IH. apply inv_round_round.
Qed.

Lemma InvCipher_Cipher keys s : AES.InvCipher keys (AES.Cipher keys s) = s.
Proof.
  destruct keys as [[k0 k1] rest]. unfold AES.InvCipher, AES.Cipher.
  rewrite inv_rounds_rounds. apply AddRoundKey_cancel.
Qed.

(** *** CBC *)

Lemma CBC_decrypt_encrypt keys plain : forall iv,
  CBC.decrypt keys iv (CBC.encrypt keys iv plain) = plain.
Proof.
  induction plain as [|p plain IH]; intros iv; simpl; [reflexivity|].
  rewrite InvCipher_Cipher, block_xor_cancel, IH. reflexivity.
Qed.

Lemma CBC_encrypt_length keys plain : forall iv,
  length (CBC.encrypt keys iv plain) = length plain.
Proof. induction plain as [|p plain IH]; intros iv; simpl; [|rewrite IH]; reflexivity. Qed.

(** *** Bytes and blocks *)

Lemma bytes_of_blocks_length bs : length (bytes_of_blocks bs) = (16 * length bs)%nat.
Proof.
  induction bs as [|[[] [] [] []] bs IH]; [reflexivity|].
  unfold bytes_of_blocks in *. cbn [flat_map]. rewrite length_app, IH. simpl. lia.
Qed.

Lemma blocks_of_bytes_of_blocks bs : blocks_of_bytes (bytes_of_blocks bs) = bs.
Proof.
  induction bs as [|[[] [] [] []] bs IH]; [reflexivity|].
  unfold bytes_of_blocks in *. cbn [flat_map]. simpl. rewrite IH. reflexivity.
Qed.

Lemma bytes_of_blocks_of_bytes n : forall l,
  length l = (16 * n)%nat -> bytes_of_blocks (blocks_of_bytes l) = l.
Proof.
  induction n as [|n IH]; intros l Hl.
  - destruct l; [reflexivity | simpl in Hl; lia].
  - do 16 (destruct l as [|? l]; [simpl in Hl; lia|]).
    cbn [blocks_of_bytes bytes_of_blocks flat_map bytes_of_block bytes_of_word app].
    do 16 f_equal. apply IH. simpl in Hl. lia.
Qed.

Lemma blocks_of_bytes_length n l :
  length l = (16 * n)%nat -> length (blocks_of_bytes l) = n.
Proof.
  intros Hl. pose proof (bytes_of_blocks_length (blocks_of_bytes l)) as H.
  rewrite (bytes_of_blocks_of_bytes n l Hl) in H. lia.
Qed.

(** *** Padding *)

Lemma pad_length data :
  exists n, length (Pkcs7.pad data) = (16 * n)%nat /\ (length data < 16 * n)%nat.
Proof.
  unfold Pkcs7.pad. rewrite length_app, repeat_length.
  exists (S (length data / 16)).
  pose proof (Nat.div_mod_eq (length data) 16) as Hd.
  pose proof (Nat.mod_upper_bound (length data) 16) as Hm. lia.
Qed.

Lemma unpad_pad data : Pkcs7.unpad (Pkcs7.pad data) = data.
Proof.
  unfold Pkcs7.unpad, Pkcs7.pad.
  pose proof (Nat.mod_upper_bound (length data) 16) as Hm.
  set (n := (16 - length data mod 16)%nat).
  assert (1 <= n <= 16)%nat as Hn by (unfold n; lia).
  destruct n as [|n']; [lia|].
  replace (List.repeat (ascii_of_nat (S n')) (S n'))
    with (List.repeat (ascii_of_nat (S n')) n' ++ [ascii_of_nat (S n')])
    by (rewrite <- repeat_cons; reflexivity).
  rewrite app_assoc, last_last, nat_ascii_embedding by lia.
  rewrite !length_app, repeat_length. simpl length.
  replace (length data + n' + 1 - S n')%nat with (length data) by lia.
  rewrite <- app_assoc, firstn_app, firstn_all, Nat.sub_diag. simpl.
  apply app_nil_r.
Qed.

(** *** Base64 *)

Lemma list_ind3 {A} (P : list A -> Prop) :
  P [] -> (forall x, P [x]) -> (forall x y, P [x; y]) ->
  (forall x y z l, P l -> P (x :: y :: z :: l)) ->
  forall l, P l.
Proof.
  intros H0 H1 H2 H3 l.
  assert (P l /\ (forall x, P (x :: l)) /\ (forall x y, P (x :: y :: l))) as [H _].
  { induction l as [|a l (IH0 & IH1 & IH2)]; [auto|].
    split; [apply IH1|]. split; [intros x; apply IH2|].
    intros x y. apply H3, IH0. }
  exact H.
Qed.

(** Every 6-bit number is read back from its character. *)
Lemma reverseMap_charAt b0 b1 b2 b3 b4 b5 :
  Base64.reverseMap (Base64.charAt (Ascii b0 b1 b2 b3 b4 b5 false false))
  = Some (Ascii b0 b1 b2 b3 b4 b5 false false).
Proof. destruct b0, b1, b2, b3, b4, b5; vm_compute; reflexivity. Qed.

Lemma reverseMap_paddingChar : Base64.reverseMap Base64.paddingChar = None.
Proof. reflexivity. Qed.

Lemma parse_stringify bytes : Base64.parse (Base64.stringify bytes) = Some bytes.
Proof.
  induction bytes as [|x|x y|x y z rest IH] using list_ind3.
  - reflexivity.
  - destruct x as [x0 x1 x2 x3 x4 x5 x6 x7].
    cbn [Base64.stringify Base64.sextets Base64.parse zero].
    rewrite !reverseMap_charAt, !reverseMap_paddingChar. reflexivity.
  - destruct x as [x0 x1 x2 x3 x4 x5 x6 x7], y as [y0 y1 y2 y3 y4 y5 y6 y7].
    cbn [Base64.stringify Base64.sextets Base64.parse zero].
    rewrite !reverseMap_charAt, !reverseMap_paddingChar. reflexivity.
  - destruct x as [x0 x1 x2 x3 x4 x5 x6 x7], y as [y0 y1 y2 y3 y4 y5 y6 y7],
      z as [z0 z1 z2 z3 z4 z5 z6 z7].
    cbn [Base64.stringify Base64.sextets Base64.parse].
    rewrite !reverseMap_charAt, IH. reflexivity.
Qed.

Lemma stringify_length bytes : (length bytes <= length (Base64.stringify bytes))%nat.
Proof.
  induction bytes as [|x|x y|x y z rest IH] using list_ind3; simpl; try lia.
  - destruct (Base64.sextets x zero zero) as [[[a b] c] d]. simpl. lia.
  - destruct (Base64.sextets x y zero) as [[[a b] c] d]. simpl. lia.
  - destruct (Base64.sextets x y z) as [[[a b] c] d]. simpl. lia.
Qed.

(** *** The envelope *)

Lemma OpenSSL_parse_stringify salt ciphertext :
  OpenSSL.parse (OpenSSL.stringify salt ciphertext) = Some (salt, ciphertext).
Proof.
  unfold OpenSSL.parse, OpenSSL.stringify.
  rewrite list_ascii_of_string_of_list_ascii, parse_stringify.
  destruct salt as [[s0 s1 s2 s3] [s4 s5 s6 s7]].
  cbn [OpenSSL.magic list_ascii_of_string bytes_of_salt bytes_of_word app].
  rewrite bytes_of_blocks_length, blocks_of_bytes_of_blocks.
  replace ((16 * length ciphertext) mod 16)%nat with 0%nat
    by (rewrite Nat.mul_comm, Nat.Div0.mod_mul; reflexivity).
  reflexivity.
Qed.

(** *** Encryption and decryption with a passphrase *)

Lemma decrypt_envelope_encrypt message password salt :
  match OpenSSL.parse (AES_encrypt message password salt) with
  | Some (salt', body) =>
      AES_decrypt_envelope salt' body password = Utf8.parse message
  | None => False
  end.
Proof.
  unfold AES_encrypt.
  destruct (OpenSSLKdf (Utf8.parse password) salt) as [[k0 k1] iv] eqn:Hkdf.
  rewrite OpenSSL_parse_stringify.
  unfold AES_decrypt_envelope. rewrite Hkdf, CBC_decrypt_encrypt.
  destruct (pad_length (Utf8.parse message)) as (n & Hn & _).
  rewrite (bytes_of_blocks_of_bytes n _ Hn). apply unpad_pad.
Qed.

(** With the passphrase it was encrypted with, a string comes back. *)
Lemma AES_decrypt_encrypt elsewhere message password salt :
  Utf8.valid (Utf8.parse message) = true ->
  AES_decrypt elsewhere (AES_encrypt message password salt) password = Return message.
Proof.
  intros Hvalid. unfold AES_decrypt.
  pose proof (decrypt_envelope_encrypt message password salt) as H.
  destruct (OpenSSL.parse (AES_encrypt message password salt)) as [[salt' body]|];
    [|contradiction].
  rewrite H. unfold Utf8.stringify. rewrite Hvalid.
  unfold Utf8.parse. rewrite string_of_list_ascii_of_string. reflexivity.
Qed.

(** What [AES_decrypt] makes, under any passphrase, of what [AES_encrypt]
    wrote: the blocks are deciphered with the key and the IV derived from
    this passphrase and the salt of the envelope, the padding is cut off
    by its last byte, and what is left is read as UTF-8. *)
Lemma AES_decrypt_of_encrypt elsewhere message password salt password' :
  AES_decrypt elsewhere (AES_encrypt message password salt) password'
  = let '((k0, k1), iv) := OpenSSLKdf (Utf8.parse password) salt in
    let '((k0', k1'), iv') := OpenSSLKdf (Utf8.parse password') salt in
    Utf8.stringify
      (Pkcs7.unpad
         (bytes_of_blocks
            (CBC.decrypt (AES.round_keys k0' k1') iv'
               (CBC.encrypt (AES.round_keys k0 k1) iv
                  (blocks_of_bytes (Pkcs7.pad (Utf8.parse message))))))).
Proof.
  unfold AES_decrypt, AES_encrypt.
  destruct (OpenSSLKdf (Utf8.parse password) salt) as [[k0 k1] iv].
  rewrite OpenSSL_parse_stringify. unfold AES_decrypt_envelope.
  destruct (OpenSSLKdf (Utf8.parse password') salt) as [[k0' k1'] iv']. reflexivity.
Qed.

Lemma string_length_of_list l : String.length (string_of_list_ascii l) = length l.
Proof. induction l as [|a l IH]; simpl; [|rewrite IH]; reflexivity. Qed.

Lemma list_length_of_string m : length (list_ascii_of_string m) = String.length m.
Proof. induction m as [|a m IH]; simpl; [|rewrite IH]; reflexivity. Qed.

(** A ciphertext is longer than its plaintext. *)
Lemma AES_encrypt_longer message password salt :
  (String.length message < String.length (AES_encrypt message password salt))%nat.
Proof.
  unfold AES_encrypt.
  destruct (OpenSSLKdf (Utf8.parse password) salt) as [[k0 k1] iv].
  unfold OpenSSL.stringify. rewrite string_length_of_list.
  eapply Nat.lt_le_trans; [|apply stringify_length].
  rewrite !length_app, bytes_of_blocks_length, CBC_encrypt_length.
  destruct (pad_length (Utf8.parse message)) as (n & Hn & Hlt).
  rewrite (blocks_of_bytes_length n _ Hn).
  unfold Utf8.parse in Hlt. rewrite list_length_of_string in Hlt. lia.
Qed.

Lemma AES_encrypt_not_plaintext message password salt :
  AES_encrypt message password salt <> message.
Proof.
  intros Heq. pose proof (AES_encrypt_longer message password salt) as H.
  rewrite Heq in H. lia.
Qed.

End CryptoJSFacts.

(** ** The vault and the store (backend/database.js) *)

Module DatabaseFacts.
Import Database WorldFacts.

(** With a key, [encrypt] draws a salt and answers what crypto-js answers. *)
Lemma encrypt_under_key env key text w :
  truthy key = true ->
  encrypt env key text w
  = (CryptoJS.AES_encrypt_toString text (default "" key) (random_salt env (history w)),
     extend w [RandomSalt]).
Proof. intros Hkey. unfold encrypt. rewrite Hkey. reflexivity. Qed.

Lemma encrypt_with_key env key text w :
  truthy key = true ->
  CryptoJS.Utf8.valid (CryptoJS.Utf8.parse text) = true ->
  encrypt env key text w
  = (Return (CryptoJS.AES_encrypt text (default "" key) (random_salt env (history w))),
     extend w [RandomSalt]).
Proof.
  intros Hkey Hvalid. rewrite (encrypt_under_key _ _ _ _ Hkey).
  unfold CryptoJS.AES_encrypt_toString, CryptoJS.Utf8.encodable. rewrite Hvalid.
  reflexivity.
Qed.

Lemma encrypt_refuses env key text w :
  truthy key = true ->
  CryptoJS.Utf8.valid (CryptoJS.Utf8.parse text) = false ->
  encrypt env key text w = (Throw (mkError "URI malformed"), extend w [RandomSalt]).
Proof.
  intros Hkey Hvalid. rewrite (encrypt_under_key _ _ _ _ Hkey).
  unfold CryptoJS.AES_encrypt_toString, CryptoJS.Utf8.encodable. rewrite Hvalid.
  reflexivity.
Qed.

(** What [encrypt] returned under a key is the envelope of a well-formed
    text. *)
Lemma encrypt_returned env key text w c w' :
  truthy key = true ->
  encrypt env key text w = (Return c, w') ->
  CryptoJS.Utf8.valid (CryptoJS.Utf8.parse text) = true
  /\ c = CryptoJS.AES_encrypt text (default "" key) (random_salt env (history w))
  /\ w' = extend w [RandomSalt].
Proof.
  intros Hkey. destruct (CryptoJS.Utf8.valid (CryptoJS.Utf8.parse text)) eqn:Hvalid.
  - rewrite (encrypt_with_key _ _ _ _ Hkey Hvalid). intros H. injection H as <- <-.
    auto.
  - rewrite (encrypt_refuses _ _ _ _ Hkey Hvalid). discriminate.
Qed.

(** [encrypt] leaves the documents alone, whatever it answers. *)
Lemma encrypt_extends env key text w :
  exists c new, encrypt env key text w = (c, extend w new).
Proof.
  destruct (truthy key) eqn:Hkey.
  - rewrite (encrypt_under_key _ _ _ _ Hkey). eexists _, _. reflexivity.
  - exists (Return text), []. unfold encrypt. rewrite Hkey, extend_nil. reflexivity.
Qed.

Lemma encrypt_without_key env key text w :
  truthy key = false -> encrypt env key text w = (Return text, w).
Proof. intros Hkey. unfold encrypt. rewrite Hkey. reflexivity. Qed.

(** C5, as the code has it: without a key [encrypt] and [decrypt] are the
    identity on every string. With a key, [decrypt] undoes [encrypt],
    whatever salt the encryption drew, on every string that is well-formed
    Unicode, and the decryption of the Cloud Function reads it back too;
    on a string that is not, [encrypt] throws the [URIError] of
    [encodeURIComponent] once the salt is drawn, and there is nothing to
    decrypt. *)
Theorem decrypt_encrypt_identity env key text w :
  (truthy key = false \/ CryptoJS.Utf8.valid (CryptoJS.Utf8.parse text) = true ->
   exists c w',
     encrypt env key text w = (Return c, w')
     /\ decrypt env key c = Return text
     /\ WatchRenewal.decrypt env key c = Return text)
  /\ (truthy key = true -> CryptoJS.Utf8.valid (CryptoJS.Utf8.parse text) = false ->
      encrypt env key text w = (Throw (mkError "URI malformed"), extend w [RandomSalt])).
Proof.
  split.
  - intros Hmode. destruct (truthy key) eqn:Hkey.
    + destruct Hmode as [Hmode|Hvalid]; [discriminate|].
      eexists _, _. split; [apply (encrypt_with_key _ _ _ _ Hkey Hvalid)|].
      unfold decrypt, WatchRenewal.decrypt. rewrite Hkey. simpl.
      split; apply CryptoJSFacts.AES_decrypt_encrypt, Hvalid.
    + eexists _, _. split; [apply encrypt_without_key, Hkey|].
      unfold decrypt, WatchRenewal.decrypt. rewrite Hkey. split; reflexivity.
  - apply encrypt_refuses.
Qed.

Lemma decrypt_encrypt_identity_witness :
  CryptoJS.Utf8.valid (CryptoJS.Utf8.parse "ya29.a0AfH6SM") = true
  /\ exists c w',
       encrypt Sample.env_up Sample.key "ya29.a0AfH6SM" Sample.world0 = (Return c, w')
       /\ decrypt Sample.env_up Sample.key c = Return "ya29.a0AfH6SM"
       /\ WatchRenewal.decrypt Sample.env_up Sample.key c = Return "ya29.a0AfH6SM".
Proof.
  split; [reflexivity|].
  apply (proj1 (decrypt_encrypt_identity Sample.env_up Sample.key "ya29.a0AfH6SM"
                  Sample.world0)).
  right. reflexivity.
Defined.

(** C5 as stated fails: with the key set, [encrypt] of the string that is
    one surrogate without its partner returns nothing to decrypt: it
    throws. *)
Lemma encrypt_throws_on_a_lone_surrogate :
  truthy Sample.key = true
  /\ CryptoJS.Utf8.parse Sample.lone_surrogate
     = [ascii_of_nat 237; ascii_of_nat 160; ascii_of_nat 128]
  /\ encrypt Sample.env_up Sample.key Sample.lone_surrogate Sample.world0
     = (Throw (mkError "URI malformed"), extend Sample.world0 [RandomSalt]).
Proof. split; [reflexivity|]. split; reflexivity. Qed.

(** C4, as the code has it: [decrypt] has no check of the key. Under any
    key it answers what crypto-js makes of the envelope: the blocks are
    deciphered with the key and the IV derived from that key and the
    envelope's salt, the padding is cut off by its last byte, and the
    bytes left are returned as the plaintext when they are well-formed
    UTF-8; when they are not, the library's plain [Error] is thrown. *)
Theorem decrypt_under_another_key env key key' text w :
  truthy key = true -> truthy key' = true ->
  CryptoJS.Utf8.valid (CryptoJS.Utf8.parse text) = true ->
  let salt := random_salt env (history w) in
  let derived := CryptoJS.OpenSSLKdf (CryptoJS.Utf8.parse (default "" key)) salt in
  let derived' := CryptoJS.OpenSSLKdf (CryptoJS.Utf8.parse (default "" key')) salt in
  let ciphertext :=
    CryptoJS.CBC.encrypt
      (CryptoJS.AES.round_keys (fst (fst derived)) (snd (fst derived))) (snd derived)
      (CryptoJS.blocks_of_bytes (CryptoJS.Pkcs7.pad (CryptoJS.Utf8.parse text))) in
  let bytes :=
    CryptoJS.Pkcs7.unpad
      (CryptoJS.bytes_of_blocks
         (CryptoJS.CBC.decrypt
            (CryptoJS.AES.round_keys (fst (fst derived')) (snd (fst derived')))
            (snd derived') ciphertext)) in
  exists c,
    encrypt env key text w = (Return c, extend w [RandomSalt])
    /\ decrypt env key' c
       = if CryptoJS.Utf8.valid bytes then Return (string_of_list_ascii bytes)
         else Throw (mkError "Malformed UTF-8 data").
Proof.
  intros Hkey Hkey' Hvalid. cbv zeta.
  pose proof (CryptoJSFacts.AES_decrypt_of_encrypt (cryptojs_elsewhere env) text
                (default "" key) (random_salt env (history w)) (default "" key')) as Hdec.
  destruct (CryptoJS.OpenSSLKdf (CryptoJS.Utf8.parse (default "" key)) _) as [[k0 k1] iv].
  destruct (CryptoJS.OpenSSLKdf (CryptoJS.Utf8.parse (default "" key')) _)
    as [[k0' k1'] iv'].
  cbn [fst snd]. eexists. split; [apply (encrypt_with_key _ _ _ _ Hkey Hvalid)|].
  unfold decrypt. rewrite Hkey'. cbn [negb]. rewrite Hdec. reflexivity.
Qed.

(** The sample token, encrypted under the sample key and decrypted under
    another: three bytes are left that happen to be UTF-8, and come back
    as the plaintext. *)
Lemma decrypt_under_another_key_witness :
  truthy Sample.key = true /\ truthy (Some "key-96") = true
  /\ CryptoJS.Utf8.valid (CryptoJS.Utf8.parse "ya29.a0AfH6SM") = true
  /\ exists c,
       encrypt Sample.env_up Sample.key "ya29.a0AfH6SM" Sample.world0
       = (Return c, extend Sample.world0 [RandomSalt])
       /\ decrypt Sample.env_up (Some "key-96") c = Return "Nb^".
Proof.
  split; [reflexivity|]. split; [reflexivity|]. split; [reflexivity|].
  destruct (decrypt_under_another_key Sample.env_up Sample.key (Some "key-96")
              "ya29.a0AfH6SM" Sample.world0 eq_refl eq_refl eq_refl) as (c & Henc & Hdec).
  exists c. split; [exact Henc|]. rewrite Hdec. vm_compute. reflexivity.
Defined.

(** Under yet another key the bytes left are not UTF-8, and the library's
    [Error] is what the caller gets. *)
Example decrypt_under_a_key_that_throws :
  decrypt Sample.env_up (Some "key-16") "U2FsdGVkX18wMTIzNDU2Nz3VToe1Ek2bYBJdFyv3iww="
  = Throw (mkError "Malformed UTF-8 data").
Proof. vm_compute. reflexivity. Qed.

(** C4 as stated fails: an access token encrypted under one key and
    decrypted under another comes back as the empty string, with no
    exception at all. *)
Lemma wrong_key_returns_empty_string :
  Sample.key <> Some "wrong"
  /\ encrypt Sample.env_up Sample.key "ya29.a0AfH6SM" Sample.world0
     = (Return "U2FsdGVkX18wMTIzNDU2Nz3VToe1Ek2bYBJdFyv3iww=",
        extend Sample.world0 [RandomSalt])
  /\ decrypt Sample.env_up (Some "wrong") "U2FsdGVkX18wMTIzNDU2Nz3VToe1Ek2bYBJdFyv3iww="
     = Return "".
Proof.
  split; [discriminate|]. split; vm_compute; reflexivity.
Qed.

(** *** What reaches Firestore *)

(** [encryptTokens] leaves the documents alone, whatever it answers. *)
Lemma encryptTokens_extends env key t w :
  exists c new, encryptTokens env key t w = (c, extend w new).
Proof.
  unfold encryptTokens, bind.
  destruct (encrypt_extends env key (access_token t) w) as ([access|e] & new1 & ->);
    [|eexists _, _; reflexivity].
  destruct (truthy (refresh_token t)).
  - destruct (encrypt_extends env key (default "" (refresh_token t)) (extend w new1))
      as ([refresh|e] & new2 & ->); unfold ret; rewrite extend_extend;
      eexists _, _; reflexivity.
  - unfold ret. eexists _, _. reflexivity.
Qed.

(** What [encryptTokens] returned under a key. *)
Lemma encryptTokens_stored_form env key t w t' w' :
  truthy key = true ->
  encryptTokens env key t w = (Return t', w') ->
  stored_form (default "" key) t t'.
Proof.
  intros Hkey. unfold encryptTokens. intros H.
  apply bind_Return in H as (access & w1 & Ha & H).
  apply (encrypt_returned _ _ _ _ _ _ Hkey) in Ha as (_ & -> & ->).
  apply bind_Return in H as (refresh & w2 & Hr & H).
  injection H as <- _. unfold stored_form. cbn [access_token refresh_token expiry_date].
  split; [eexists; reflexivity|]. split; [apply CryptoJSFacts.AES_encrypt_not_plaintext|].
  split; [|reflexivity].
  destruct (truthy (refresh_token t)) eqn:Htruthy.
  - apply bind_Return in Hr as (r' & w3 & Hr & H). injection H as <- _.
    apply (encrypt_returned _ _ _ _ _ _ Hkey) in Hr as (_ & -> & _).
    destruct (refresh_token t) as [r|]; [|discriminate]. cbn [default from_option id].
    eexists _, r. split; [reflexivity|]. split; [reflexivity|].
    intros Heq. injection Heq. apply CryptoJSFacts.AES_encrypt_not_plaintext.
  - injection Hr as <- _. reflexivity.
Qed.

(** [encryptTokens] returns on the tokens the cipher can take. *)
Lemma encryptTokens_returns env key t w :
  readable key t ->
  exists encrypted new, encryptTokens env key t w = (Return encrypted, extend w new).
Proof.
  intros Hreadable. unfold encryptTokens, bind.
  destruct (truthy key) eqn:Hkey.
  - destruct Hreadable as [Hnone|[Haccess Hrefresh]]; [congruence|].
    rewrite (encrypt_with_key _ _ _ _ Hkey Haccess).
    destruct (truthy (refresh_token t)) eqn:Htruthy.
    + destruct (refresh_token t) as [r|]; [|discriminate]. cbn [default from_option id].
      rewrite (encrypt_with_key _ _ _ _ Hkey (Hrefresh r eq_refl)).
      unfold ret. rewrite extend_extend. eexists _, _. reflexivity.
    + unfold ret. eexists _, _. reflexivity.
  - rewrite (encrypt_without_key _ _ _ _ Hkey).
    destruct (truthy (refresh_token t)).
    + rewrite (encrypt_without_key _ _ _ _ Hkey). unfold ret.
      exists {| access_token := access_token t;
                refresh_token := Some (default "" (refresh_token t));
                expiry_date := expiry_date t |}, [].
      rewrite extend_nil. reflexivity.
    + unfold ret. eexists _, []. rewrite extend_nil. reflexivity.
Qed.

(** [saveClient], step by step. *)
Lemma saveClient_cases env key clientData w :
  exists c new,
    encryptTokens env key (tokens clientData) w = (c, extend w new)
    /\ match c with
       | Return encrypted =>
           let now := Date_now env (history w ++ new) in
           let doc := dataToSave encrypted now clientData in
           (firestore_down env ((history w ++ new) ++ [DateNow]) = None
            /\ saveClient env key clientData w
               = (Return clientData,
                  {| firestore := <[clientId clientData := doc]> (firestore w);
                     history := (history w ++ new) ++ [DateNow]
                                ++ [FirestoreSet (clientId clientData) doc] |}))
           \/ (exists error w',
                  firestore_down env ((history w ++ new) ++ [DateNow]) = Some error
                  /\ saveClient env key clientData w
                     = (Throw (mkError "Failed to save client data"), w')
                  /\ firestore w' = firestore w)
       | Throw _ =>
           saveClient env key clientData w
           = (Throw (mkError "Failed to save client data"), extend w new)
       end.
Proof.
  destruct (encryptTokens_extends env key (tokens clientData) w) as (c & new & Henc).
  exists c, new. split; [exact Henc|].
  unfold saveClient. run. rewrite Henc. destruct c as [encrypted|e]; [|reflexivity].
  cbv zeta. run.
  destruct (firestore_down env ((history w ++ new) ++ [DateNow])) as [error|].
  - right. eexists _, _. split; [reflexivity|]. split; reflexivity.
  - left. split; [reflexivity|]. rewrite <- !app_assoc. reflexivity.
Qed.

Lemma updateClientTokens_cases env key id t w r w' :
  updateClientTokens env key id t w = (Return r, w') ->
  exists encrypted new old updated,
    encryptTokens env key t w = (Return encrypted, extend w new)
    /\ firestore w !! id = Some old
    /\ firestore w' = <[id := token_fields encrypted updated old]> (firestore w).
Proof.
  destruct (encryptTokens_extends env key t w) as (c & new & Henc).
  unfold updateClientTokens. run. rewrite Henc.
  destruct c as [encrypted|e]; [|discriminate]. run. ask_firestore; [discriminate|].
  destruct (firestore w !! id) as [old|] eqn:Hold; [|discriminate].
  intros H. injection H as _ <-.
  eexists _, _, _, _. split; [reflexivity|]. split; reflexivity.
Qed.

(** C6, as the code has it: with a key, whenever [saveClient] or
    [updateClientTokens] writes a document, its access token is a
    ciphertext under the key and not the plaintext, its refresh token
    likewise when there is one (and [null] otherwise), and its expiry date
    is the number it was given; a save that fails leaves the collection as
    it was. *)
Theorem tokens_written_in_stored_form env key w :
  truthy key = true ->
  (forall clientData r w',
      saveClient env key clientData w = (Return r, w') ->
      exists doc, firestore w' !! clientId clientData = Some doc
                  /\ stored_form (default "" key) (tokens clientData) (tokens doc))
  /\ (forall clientData e w',
         saveClient env key clientData w = (Throw e, w') -> firestore w' = firestore w)
  /\ (forall id t r w',
         updateClientTokens env key id t w = (Return r, w') ->
         exists doc, firestore w' !! id = Some doc
                     /\ stored_form (default "" key) t (tokens doc)).
Proof.
  intros Hkey. split; [|split].
  - intros clientData r w' Hsave.
    destruct (saveClient_cases env key clientData w)
      as ([encrypted|e] & new & Henc & Hcases);
      [|rewrite Hcases in Hsave; discriminate].
    pose proof (encryptTokens_stored_form _ _ _ _ _ _ Hkey Henc) as Hform.
    cbv zeta in Hcases. destruct Hcases as [[_ Hok]|(error & w1 & _ & Hfail & _)];
      [|rewrite Hfail in Hsave; discriminate].
    rewrite Hok in Hsave. injection Hsave as _ <-. cbn [firestore].
    eexists. split; [apply lookup_insert_eq|]. exact Hform.
  - intros clientData e w' Hsave.
    destruct (saveClient_cases env key clientData w)
      as ([encrypted|e'] & new & Henc & Hcases).
    + cbv zeta in Hcases. destruct Hcases as [[_ Hok]|(error & w1 & _ & Hfail & Hstore)];
        [rewrite Hok in Hsave; discriminate|].
      rewrite Hfail in Hsave. injection Hsave as _ <-. exact Hstore.
    + rewrite Hcases in Hsave. injection Hsave as _ <-. reflexivity.
  - intros id t r w' Hupd.
    destruct (updateClientTokens_cases env key id t w r w' Hupd)
      as (encrypted & new & old & updated & Henc & Hold & Hstore).
    pose proof (encryptTokens_stored_form _ _ _ _ _ _ Hkey Henc) as Hform.
    rewrite Hstore. eexists. split; [apply lookup_insert_eq|]. exact Hform.
Qed.

Lemma tokens_written_in_stored_form_witness :
  truthy Sample.key = true
  /\ exists w' doc,
       saveClient Sample.env_up Sample.key Sample.alice Sample.world0
       = (Return Sample.alice, w')
       /\ firestore w' !! clientId Sample.alice = Some doc
       /\ stored_form "0123456789abcdef0123456789abcdef"
            (tokens Sample.alice) (tokens doc).
Proof.
  split; [reflexivity|].
  destruct (saveClient Sample.env_up Sample.key Sample.alice Sample.world0)
    as [[r|e] w'] eqn:Hsave.
  - destruct (tokens_written_in_stored_form Sample.env_up Sample.key Sample.world0 eq_refl)
      as (Hwritten & _).
    destruct (Hwritten Sample.alice r w' Hsave) as (doc & Hdoc & Hform).
    exists w', doc. split; [|split; [exact Hdoc | exact Hform]].
    assert (fst (saveClient Sample.env_up Sample.key Sample.alice Sample.world0)
            = Return Sample.alice) as Hrun by (vm_compute; reflexivity).
    rewrite Hsave in Hrun. simpl in Hrun. rewrite Hrun. reflexivity.
  - assert (fst (saveClient Sample.env_up Sample.key Sample.alice Sample.world0)
            = Return Sample.alice) as Hrun by (vm_compute; reflexivity).
    rewrite Hsave in Hrun. discriminate.
Defined.

(** C6 as stated fails for the expiry date: the document [saveClient]
    writes holds the very number it was given. *)
Lemma expiry_date_is_stored_as_given :
  truthy Sample.key = true
  /\ expiry_date (tokens Sample.alice) = 1705321800000%Z
  /\ exists w' doc,
       saveClient Sample.env_up Sample.key Sample.alice Sample.world0
       = (Return Sample.alice, w')
       /\ firestore w' !! clientId Sample.alice = Some doc
       /\ expiry_date (tokens doc) = 1705321800000%Z.
Proof.
  split; [reflexivity|]. split; [reflexivity|].
  assert (fst (saveClient Sample.env_up Sample.key Sample.alice Sample.world0)
          = Return Sample.alice) as Hrun by (vm_compute; reflexivity).
  destruct (saveClient_cases Sample.env_up Sample.key Sample.alice Sample.world0)
    as ([encrypted|e] & new & Henc & Hcases);
    [|rewrite Hcases in Hrun; discriminate].
  cbv zeta in Hcases. destruct Hcases as [[_ Hok]|(error & w1 & _ & Hfail & _)];
    [|rewrite Hfail in Hrun; discriminate].
  eexists _, _. split; [exact Hok|]. split; [apply lookup_insert_eq|].
  assert (match fst (encryptTokens Sample.env_up Sample.key
                            (tokens Sample.alice) Sample.world0) with
          | Return t => expiry_date t
          | Throw _ => 0%Z
          end = 1705321800000%Z) as Hdate by (vm_compute; reflexivity).
  rewrite Henc in Hdate. exact Hdate.
Qed.

(** *** The subscription fields *)

Lemma updateWatchData_returns env id wd w r w' :
  updateWatchData env id wd w = (Return r, w') ->
  exists old,
    firestore w !! id = Some old
    /\ firestore w'
       = <[id := watch_fields wd (Date_now env (history w))
                   (Date_now env (history w ++ [DateNow])) old]> (firestore w).
Proof.
  unfold updateWatchData. run. ask_firestore; [discriminate|].
  destruct (firestore w !! id) as [old|] eqn:Hold; [|discriminate].
  intros H. injection H as _ <-. exists old. split; reflexivity.
Qed.

End DatabaseFacts.

(** ** The store, read back and unavailable (backend/database.js) *)

Module StoreFacts.
Import Database WorldFacts.

Lemma truthy_ciphertext message password salt :
  truthy (Some (CryptoJS.AES_encrypt message password salt)) = true.
Proof.
  pose proof (CryptoJSFacts.AES_encrypt_longer message password salt) as Hlen.
  simpl. destruct (CryptoJS.AES_encrypt message password salt); [simpl in Hlen; lia|].
  reflexivity.
Qed.

Lemma decryptTokens_encryptTokens env key t w encrypted w' w1 :
  readable key t ->
  encryptTokens env key t w = (Return encrypted, w') ->
  decryptTokens env key encrypted w1
  = (Return {| access_token := access_token t;
               refresh_token := (if truthy (refresh_token t)
                                 then refresh_token t else None);
               expiry_date := expiry_date t |}, w1).
Proof.
  intros Hreadable Henc. unfold encryptTokens in Henc.
  apply bind_Return in Henc as (access & w2 & Ha & Henc).
  apply bind_Return in Henc as (refresh & w3 & Hr & Henc).
  injection Henc as <- _.
  unfold decryptTokens, decrypt. cbn [access_token refresh_token expiry_date].
  destruct (truthy key) eqn:Hkey; cbn [negb].
  - destruct Hreadable as [Hoff|[Haccess Hrefresh]]; [congruence|].
    apply (DatabaseFacts.encrypt_returned _ _ _ _ _ _ Hkey) in Ha as (_ & -> & ->).
    run. rewrite (CryptoJSFacts.AES_decrypt_encrypt _ _ _ _ Haccess).
    destruct (truthy (refresh_token t)) eqn:Htruthy.
    + apply bind_Return in Hr as (r' & w4 & Hr & H). injection H as <- _.
      apply (DatabaseFacts.encrypt_returned _ _ _ _ _ _ Hkey) in Hr as (_ & -> & _).
      rewrite truthy_ciphertext. cbn [default from_option id].
      destruct (refresh_token t) as [r|]; [|discriminate]. cbn [default from_option id].
      rewrite (CryptoJSFacts.AES_decrypt_encrypt _ _ _ _ (Hrefresh r eq_refl)).
      reflexivity.
    + injection Hr as <- _. reflexivity.
  - rewrite (DatabaseFacts.encrypt_without_key _ _ _ _ Hkey) in Ha.
    injection Ha as <- <-. run.
    destruct (truthy (refresh_token t)) eqn:Htruthy.
    + apply bind_Return in Hr as (r' & w4 & Hr & H). injection H as <- _.
      rewrite (DatabaseFacts.encrypt_without_key _ _ _ _ Hkey) in Hr.
      injection Hr as <- _.
      destruct (refresh_token t) as [r|]; [|discriminate]. cbn [default from_option id].
      rewrite Htruthy. reflexivity.
    + injection Hr as <- _. reflexivity.
Qed.

(** What was saved is read back: [getClientById] after [saveClient] returns
    the record with its tokens in the clear, while Firestore answers. *)
Theorem getClientById_after_saveClient env key c w :
  (forall h, firestore_down env h = None) ->
  readable key (tokens c) ->
  exists w1 updated w2,
    saveClient env key c w = (Return c, w1)
    /\ getClientById env key (clientId c) w1
       = (Return (Some (as_read_back updated c)), w2)
    /\ firestore w2 = firestore w1.
Proof.
  intros Hup Hreadable.
  destruct (DatabaseFacts.encryptTokens_returns env key (tokens c) w Hreadable)
    as (encrypted & new & Henc).
  destruct (DatabaseFacts.saveClient_cases env key c w) as (c' & new' & Henc' & Hcases).
  rewrite Henc in Henc'. injection Henc' as <- Hnew.
  apply app_inv_head in Hnew as <-.
  cbv zeta in Hcases. destruct Hcases as [[_ Hok]|(error & w1 & Hdown & _)];
    [|rewrite Hup in Hdown; discriminate].
  eexists _, _, _. split; [exact Hok|].
  unfold getClientById. run. rewrite Hup. cbn [firestore].
  rewrite lookup_insert_eq.
  rewrite (decryptTokens_encryptTokens env key (tokens c) w encrypted _ _ Hreadable Henc).
  split; reflexivity.
Qed.

Lemma getClientById_after_saveClient_witness :
  exists w1 w2,
    saveClient Sample.env_up Sample.key Sample.alice Sample.world0
    = (Return Sample.alice, w1)
    /\ getClientById Sample.env_up Sample.key (clientId Sample.alice) w1
       = (Return (Some (as_read_back 1705318200002 Sample.alice)), w2)
    /\ tokens (as_read_back 1705318200002 Sample.alice) = Sample.google_tokens.
Proof.
  destruct (getClientById_after_saveClient Sample.env_up Sample.key Sample.alice
              Sample.world0) as (w1 & updated & w2 & Hsave & Hget & _).
  - reflexivity.
  - right. split; [reflexivity|]. intros r Hr. injection Hr as <-. reflexivity.
  - exists w1, w2. split; [exact Hsave|]. split; [|reflexivity].
    rewrite Hget. do 3 f_equal.
    assert (match fst (getClientById Sample.env_up Sample.key (clientId Sample.alice)
                         (snd (saveClient Sample.env_up Sample.key Sample.alice
                                 Sample.world0))) with
            | Return (Some c) => updatedAt c
            | _ => None
            end = Some 1705318200002%Z) as Hrun by (vm_compute; reflexivity).
    rewrite Hsave in Hrun. cbn [snd] in Hrun. rewrite Hget in Hrun. cbn [fst] in Hrun.
    injection Hrun as ->. reflexivity.
Defined.

(** While Firestore is unavailable every operation of the store throws an
    [Error] with its own message, after one request and no other, and the
    collection is as before. *)
Theorem store_operations_fail_when_unavailable env key w :
  (forall h, firestore_down env h <> None) ->
  (forall c, exists w',
      saveClient env key c w = (Throw (mkError "Failed to save client data"), w')
      /\ firestore w' = firestore w)
  /\ (forall id, exists w',
         getClientById env key id w
         = (Throw (mkError "Failed to retrieve client data"), w')
         /\ firestore w' = firestore w
         /\ since w w' = [FirestoreGet id])
  /\ (forall id wd, exists w',
         updateWatchData env id wd w
         = (Throw (mkError "Failed to update watch data"), w')
         /\ firestore w' = firestore w
         /\ since w w' = [DateNow; DateNow; FirestoreUpdate id])
  /\ (forall id t, exists w',
         updateClientTokens env key id t w
         = (Throw (mkError "Failed to update tokens"), w')
         /\ firestore w' = firestore w).
Proof.
  intros Hdown. split; [|split; [|split]].
  - intros c.
    destruct (DatabaseFacts.saveClient_cases env key c w)
      as ([encrypted|e] & new & Henc & Hcases).
    + cbv zeta in Hcases. destruct Hcases as [[Hup _]|(error & w1 & _ & Hfail & Hstore)];
        [contradiction (Hdown _ Hup)|].
      exists w1. split; [exact Hfail | exact Hstore].
    + eexists. split; [exact Hcases | reflexivity].
  - intros id. unfold getClientById. run.
    destruct (firestore_down env (history w)) as [error|] eqn:Hnow;
      [|contradiction (Hdown _ Hnow)].
    eexists. split; [reflexivity|]. split; [reflexivity|].
    rewrite !record_effect_extend. apply since_extend.
  - intros id wd. unfold updateWatchData. run.
    destruct (firestore_down env _) as [error|] eqn:Hnow;
      [|contradiction (Hdown _ Hnow)].
    eexists. split; [reflexivity|]. split; [reflexivity|].
    rewrite !record_effect_extend, !extend_extend. apply since_extend.
  - intros id t.
    destruct (DatabaseFacts.encryptTokens_extends env key t w) as (c & new & Henc).
    unfold updateClientTokens. run. rewrite Henc.
    destruct c as [encrypted|e]; [|eexists; split; reflexivity]. run.
    destruct (firestore_down env _) as [error|] eqn:Hnow;
      [|contradiction (Hdown _ Hnow)].
    eexists. split; reflexivity.
Qed.

Lemma store_operations_fail_when_unavailable_witness :
  exists w',
    getClientById Sample.env_down Sample.key "3f0e7c1a-0000-4000-8000-000000000001"
      Sample.world_alice
    = (Throw (mkError "Failed to retrieve client data"), w')
    /\ firestore w' = firestore Sample.world_alice.
Proof.
  destruct (store_operations_fail_when_unavailable Sample.env_down Sample.key
              Sample.world_alice) as (_ & Hget & _).
  - intros h. discriminate.
  - destruct (Hget "3f0e7c1a-0000-4000-8000-000000000001") as (w' & Hrun & Hstore & _).
    exists w'. split; [exact Hrun | exact Hstore].
Defined.

End StoreFacts.

Module WebhookFacts.
Import Webhook WorldFacts.

Lemma deliveries_app h1 h2 : deliveries (h1 ++ h2) = (deliveries h1 + deliveries h2)%nat.
Proof.
  induction h1 as [|e h1 IH]; simpl; [reflexivity|].
  destruct e; simpl; rewrite ?IH; reflexivity.
Qed.

Lemma delays_app h1 h2 : delays (h1 ++ h2) = delays h1 ++ delays h2.
Proof.
  induction h1 as [|e h1 IH]; simpl; [reflexivity|].
  destruct e; simpl; rewrite ?IH; reflexivity.
Qed.

(** One attempt that fails: the clock is read, the POST is made, and the
    handler runs in the world after them. *)
Lemma failed_attempt {A} env url (payload : Z -> Payload) (k : AxiosResponse -> M A)
    (handler : Error -> M A) w e :
  axios_post env (history w ++ [DateNow]) url (payload (Date_now env (history w))) = Throw e ->
  try_catch
    (let! now := new_Date env in
     let payload := payload now in
     let! response := post env url payload in k response) handler w
  = handler e (record_effect (AxiosPost url (payload (Date_now env (history w))))
                 (record_effect DateNow w)).
Proof.
  intros Hfail. unfold try_catch, bind, new_Date, post, call. simpl.
  rewrite Hfail. reflexivity.
Qed.

(** The retry loop of either sender, from its unfolding equation. *)
Section RetryLoop.
Context (env : Env) (url : string) (payload : Z -> Payload)
        (f : nat -> M DeliveryOutcome).
Hypothesis f_unfold : forall attempt,
  f attempt =
  try_catch
    (let! now := new_Date env in
     let payload := payload now in
     let! response := post env url payload in
     ret (Delivered (status response) (data response)))
    (fun error =>
       match lt_dec attempt MAX_RETRY_ATTEMPTS with
       | left _ =>
           let delayTime := delayTime attempt in
           delay delayTime ;; f (attempt + 1)%nat
       | right _ => ret (Failed (message error) attempt)
       end).

Lemma attempt_cases attempt w :
  (exists r, f attempt w =
     (Return (Delivered (status r) (data r)),
      extend w [DateNow; AxiosPost url (payload (Date_now env (history w)))]) /\
     axios_post env (history w ++ [DateNow]) url (payload (Date_now env (history w))) = Return r)
  \/ (exists e, f attempt w =
       match lt_dec attempt MAX_RETRY_ATTEMPTS with
       | left _ =>
           f (attempt + 1)%nat
             (extend w [DateNow; AxiosPost url (payload (Date_now env (history w)));
                        SetTimeout (delayTime attempt)])
       | right _ =>
           (Return (Failed (message e) attempt),
            extend w [DateNow; AxiosPost url (payload (Date_now env (history w)))])
       end /\
       axios_post env (history w ++ [DateNow]) url (payload (Date_now env (history w))) = Throw e).
Proof.
  rewrite f_unfold.
  destruct (axios_post env (history w ++ [DateNow]) url (payload (Date_now env (history w))))
    as [r|e] eqn:Hpost.
  - left. exists r. split; [|reflexivity].
    unfold try_catch, bind, new_Date, post, call, ret. simpl.
    rewrite Hpost. unfold extend, record_effect. simpl. rewrite <- app_assoc. reflexivity.
  - right. exists e. split; [|reflexivity].
    rewrite (failed_attempt env url payload _ _ w e Hpost).
    destruct (lt_dec attempt MAX_RETRY_ATTEMPTS).
    + unfold bind, delay, call. simpl. f_equal.
      unfold extend, record_effect. simpl. rewrite <- !app_assoc. reflexivity.
    + unfold ret, extend, record_effect. simpl. rewrite <- app_assoc. reflexivity.
Qed.

(** The loop always returns a value, after at least one and at most
    [MAX_RETRY_ATTEMPTS - attempt + 1] deliveries. *)
Lemma loop_returns n : forall attempt w,
  (MAX_RETRY_ATTEMPTS - attempt = n)%nat ->
  exists o new, f attempt w = (Return o, extend w new)
                /\ (1 <= deliveries new <= S n)%nat.
Proof.
  induction n as [|n IH]; intros attempt w Hn.
  - destruct (attempt_cases attempt w) as [[r [Hr _]]|[e [He _]]].
    + eexists _, _. split; [exact Hr|]. simpl. lia.
    + destruct (lt_dec attempt MAX_RETRY_ATTEMPTS); [lia|].
      eexists _, _. split; [exact He|]. simpl. lia.
  - destruct (attempt_cases attempt w) as [[r [Hr _]]|[e [He _]]].
    + eexists _, _. split; [exact Hr|]. simpl. lia.
    + destruct (lt_dec attempt MAX_RETRY_ATTEMPTS); [|lia].
      destruct (IH (attempt + 1)%nat
                  (extend w [DateNow; AxiosPost url (payload (Date_now env (history w)));
                             SetTimeout (delayTime attempt)]))
        as (o & new & Hf & Hd); [lia|].
      rewrite He, Hf, extend_extend.
      eexists _, _. split; [reflexivity|]. simpl. lia.
Qed.

(** When every POST fails, the loop makes every remaining attempt, waits
    [delayTime] between two of them, and returns the failure object. *)
Lemma loop_exhausts n : forall attempt w,
  (forall h p, exists e, axios_post env h url p = Throw e) ->
  (attempt + n = MAX_RETRY_ATTEMPTS)%nat ->
  exists e new, f attempt w = (Return (Failed e MAX_RETRY_ATTEMPTS), extend w new)
                /\ deliveries new = S n
                /\ delays new = map delayTime (seq attempt n).
Proof.
  induction n as [|n IH]; intros attempt w Hfail Hn.
  - destruct (attempt_cases attempt w) as [[r [_ Hr]]|[e [He _]]].
    + destruct (Hfail (history w ++ [DateNow]) (payload (Date_now env (history w)))) as [e He].
      congruence.
    + destruct (lt_dec attempt MAX_RETRY_ATTEMPTS); [lia|].
      assert (attempt = MAX_RETRY_ATTEMPTS) as Heq by lia.
      rewrite Heq in He at 2.
      eexists _, _. split; [exact He|]. split; reflexivity.
  - destruct (attempt_cases attempt w) as [[r [_ Hr]]|[e [He _]]].
    + destruct (Hfail (history w ++ [DateNow]) (payload (Date_now env (history w)))) as [e He].
      congruence.
    + destruct (lt_dec attempt MAX_RETRY_ATTEMPTS); [|lia].
      destruct (IH (attempt + 1)%nat
                  (extend w [DateNow; AxiosPost url (payload (Date_now env (history w)));
                             SetTimeout (delayTime attempt)]) Hfail)
        as (e' & new & Hf & Hd & Ht); [lia|].
      rewrite He, Hf, extend_extend.
      eexists _, _. split; [reflexivity|]. simpl. rewrite Hd, Ht.
      replace (attempt + 1)%nat with (S attempt) by lia. split; reflexivity.
Qed.
End RetryLoop.

Lemma sendRegistrationWebhook_unfold env url clientData attempt :
  truthy url = true ->
  sendRegistrationWebhook env url clientData attempt =
  try_catch
    (let! now := new_Date env in
     let payload := registration_payload clientData now in
     let! response := post env (default "" url) payload in
     ret (Delivered (status response) (data response)))
    (fun error =>
       match lt_dec attempt MAX_RETRY_ATTEMPTS with
       | left _ =>
           let delayTime := delayTime attempt in
           delay delayTime ;; sendRegistrationWebhook env url clientData (attempt + 1)%nat
       | right _ => ret (Failed (message error) attempt)
       end).
Proof. intros Hurl. rewrite sendRegistrationWebhook_equation_1 at 1. rewrite Hurl. reflexivity. Qed.

Lemma sendRenewalWebhook_unfold env url renewalData attempt :
  truthy url = true ->
  sendRenewalWebhook env url renewalData attempt =
  try_catch
    (let! now := new_Date env in
     let payload := renewal_payload renewalData now in
     let! response := post env (default "" url) payload in
     ret (Delivered (status response) (data response)))
    (fun error =>
       match lt_dec attempt MAX_RETRY_ATTEMPTS with
       | left _ =>
           let delayTime := delayTime attempt in
           delay delayTime ;; sendRenewalWebhook env url renewalData (attempt + 1)%nat
       | right _ => ret (Failed (message error) attempt)
       end).
Proof. intros Hurl. rewrite sendRenewalWebhook_equation_1 at 1. rewrite Hurl. reflexivity. Qed.

Lemma backoff_sorted : StronglySorted Z.lt (map backoff [1; 2]%Z).
Proof. repeat constructor. Qed.

(** Any sender that skips without a URL and otherwise runs the retry loop
    follows the policy. *)
Lemma policy_of_loop env url skipped (f : nat -> M DeliveryOutcome) :
  (truthy url = false -> forall w, f 1%nat w = (Return (Skipped skipped), w)) ->
  (truthy url = true -> exists payload, forall attempt,
    f attempt =
    try_catch
      (let! now := new_Date env in
       let payload := payload now in
       let! response := post env (default "" url) payload in
       ret (Delivered (status response) (data response)))
      (fun error =>
         match lt_dec attempt MAX_RETRY_ATTEMPTS with
         | left _ =>
             let delayTime := delayTime attempt in
             delay delayTime ;; f (attempt + 1)%nat
         | right _ => ret (Failed (message error) attempt)
         end)) ->
  delivery_policy env url skipped (f 1%nat).
Proof.
  intros Hskip Hloop w. destruct (truthy url) eqn:Hurl.
  - destruct (Hloop eq_refl) as [payload Hunfold].
    split; [|split; [discriminate|]].
    + destruct (loop_returns env _ payload f Hunfold 2 1%nat w eq_refl)
        as (o & new & Hf & Hd).
      exists o, (extend w new). rewrite since_extend. split; [exact Hf|].
      unfold MAX_RETRY_ATTEMPTS. lia.
    + intros _ Hfail.
      destruct (loop_exhausts env _ payload f Hunfold 2 1%nat w Hfail eq_refl)
        as (e & new & Hf & Hd & Ht).
      exists e, (extend w new). rewrite since_extend.
      split; [exact Hf|]. split; [exact Hd|].
      rewrite Ht. split; [reflexivity|]. apply backoff_sorted.
  - split; [|split; [intros _; apply Hskip; reflexivity | discriminate]].
    exists (Skipped skipped), w. split; [apply Hskip; reflexivity|].
    unfold since. rewrite drop_all. simpl. lia.
Qed.

(** C7: both senders of backend/webhook.js always return a value and make
    at most [MAX_RETRY_ATTEMPTS] deliveries; without a URL they return the
    skipped object and do nothing; when every POST fails they make exactly
    [MAX_RETRY_ATTEMPTS] deliveries, wait [RETRY_DELAY_MS * 2^(attempt-1)]
    after attempt 1 and attempt 2 (2000 ms, then 4000 ms), and return the
    failure object. *)
Theorem notifier_delivery_policy (env : Env)
    (N8N_WEBHOOK_URL N8N_RENEWAL_WEBHOOK_URL : option string)
    (clientData : Client) (renewalData : jsobj) :
  delivery_policy env N8N_WEBHOOK_URL "Webhook URL not configured"
    (sendRegistrationWebhook env N8N_WEBHOOK_URL clientData 1)
  /\ delivery_policy env N8N_RENEWAL_WEBHOOK_URL "Renewal webhook URL not configured"
    (sendRenewalWebhook env N8N_RENEWAL_WEBHOOK_URL renewalData 1).
Proof.
  split.
  - apply (policy_of_loop env N8N_WEBHOOK_URL _
             (sendRegistrationWebhook env N8N_WEBHOOK_URL clientData)).
    + intros Hurl w. rewrite sendRegistrationWebhook_equation_1, Hurl. reflexivity.
    + intros Hurl. exists (registration_payload clientData).
      intros attempt. apply sendRegistrationWebhook_unfold, Hurl.
  - apply (policy_of_loop env N8N_RENEWAL_WEBHOOK_URL _
             (sendRenewalWebhook env N8N_RENEWAL_WEBHOOK_URL renewalData)).
    + intros Hurl w. rewrite sendRenewalWebhook_equation_1, Hurl. reflexivity.
    + intros Hurl. exists (renewal_payload renewalData).
      intros attempt. apply sendRenewalWebhook_unfold, Hurl.
Qed.

(** The policy at a receiver that refuses every connection. *)
Lemma notifier_delivery_policy_witness :
  truthy (Some "https://n8n.example.com/webhook/gmail-registrations") = true
  /\ exists w',
       sendRegistrationWebhook Sample.env_down
         (Some "https://n8n.example.com/webhook/gmail-registrations")
         Sample.alice 1 Sample.world0
       = (Return (Failed "connect ECONNREFUSED" 3), w')
       /\ deliveries (since Sample.world0 w') = 3%nat
       /\ delays (since Sample.world0 w') = [2000; 4000]%Z.
Proof.
  split; [reflexivity|].
  destruct (notifier_delivery_policy Sample.env_down
              (Some "https://n8n.example.com/webhook/gmail-registrations") None
              Sample.alice [])
    as [Hreg _].
  destruct (Hreg Sample.world0) as (_ & _ & Hexh).
  destruct Hexh as (e & w' & Hf & Hd & Ht & _);
    [reflexivity | intros h p; eexists; reflexivity |].
  exists w'. split; [|split; [exact Hd | exact Ht]].
  rewrite Hf. f_equal. f_equal.
  assert (fst (sendRegistrationWebhook Sample.env_down
            (Some "https://n8n.example.com/webhook/gmail-registrations")
            Sample.alice 1 Sample.world0)
          = Return (Failed "connect ECONNREFUSED" 3)) as Hrun by (vm_compute; reflexivity).
  rewrite Hf in Hrun. simpl in Hrun. congruence.
Defined.

End WebhookFacts.

(** ** The OAuth callback (backend/auth.js) *)

Module AuthFacts.
Import Auth WorldFacts.

Lemma state_differs_spec registrationData state :
  state_differs registrationData state = true <-> state <> Some (reg_state registrationData).
Proof.
  unfold state_differs. destruct state as [s|]; [|split; [discriminate | reflexivity]].
  destruct (String.eqb_spec (reg_state registrationData) s) as [<-|Hne]; simpl.
  - split; [discriminate | intros H; contradiction H; reflexivity].
  - split; [intros _ H; injection H; auto | reflexivity].
Qed.

(** The handshake completes only along one path of the handler. *)
Lemma callback_success env cfg query session w gmail timestamp session' w' :
  callback env cfg query session w
  = (Return (RedirectToSuccess gmail timestamp, session'), w') ->
  exists registrationData granted,
    session = Some registrationData /\ session' = None
    /\ load_order env = AuthFirst
    /\ truthy (q_error query) = false
    /\ state_differs registrationData (q_state query) = false
    /\ getToken env (history w) (q_code query) = Return granted
    /\ userinfo_get env (history w ++ [OAuthGetToken (q_code query)]) granted = Return gmail.
Proof.
  intros Hrun.
  assert (truthy (q_error query) = false) as Herror.
  { destruct (truthy (q_error query)) eqn:H; [|reflexivity].
    unfold callback in Hrun. rewrite H in Hrun. discriminate. }
  unfold callback in Hrun. rewrite Herror in Hrun.
  destruct session as [registrationData|]; [|discriminate].
  destruct (state_differs registrationData (q_state query)) eqn:Hstate; [discriminate|].
  revert Hrun. run.
  destruct (getToken env (history w) (q_code query)) as [granted|e] eqn:Htoken; [|discriminate].
  destruct (userinfo_get env (history w ++ [OAuthGetToken (q_code query)]) granted)
    as [gmailAddress|e] eqn:Huser; [|discriminate].
  match goal with
  | |- context [Database.saveClient env ?key ?c ?w1] =>
      destruct (DatabaseFacts.saveClient_cases env key c w1)
        as ([encrypted|e] & new & Henc & Hcases)
  end; [|rewrite Hcases; discriminate].
  cbv zeta in Hcases. destruct Hcases as [[_ Hok]|(error & w1 & _ & Hfail & _)];
    [|rewrite Hfail; discriminate].
  rewrite Hok. unfold setupGmailWatch.
  destruct (load_order env); run; [|discriminate].
  intros H. injection H as <- _ <- _.
  exists registrationData, granted. repeat split; auto.
Qed.

(** Once the provider granted the tokens and named the mailbox, the outcome
    hangs on the encryption of the tokens and on Firestore. *)
Lemma callback_granted env cfg query registrationData w granted gmail :
  truthy (q_error query) = false ->
  state_differs registrationData (q_state query) = false ->
  getToken env (history w) (q_code query) = Return granted ->
  userinfo_get env (history w ++ [OAuthGetToken (q_code query)]) granted = Return gmail ->
  let called := [OAuthGetToken (q_code query); UserinfoGet granted; Uuid; DateNow] in
  let id := uuidv4 env (history w ++ [OAuthGetToken (q_code query); UserinfoGet granted]) in
  let now := Date_now env (history w ++ [OAuthGetToken (q_code query); UserinfoGet granted; Uuid]) in
  let clientData := clientData_of id registrationData gmail granted now in
  exists c new,
    Database.encryptTokens env (ENCRYPTION_KEY cfg) granted (extend w called)
    = (c, extend w (called ++ new))
    /\ match c with
       | Return encrypted =>
           let doc := Database.dataToSave encrypted
                        (Date_now env (history w ++ called ++ new)) clientData in
           match firestore_down env (history w ++ called ++ new ++ [DateNow]) with
           | None =>
               match load_order env with
               | AuthFirst =>
                   exists timestamp w',
                     callback env cfg query (Some registrationData) w
                     = (Return (RedirectToSuccess gmail timestamp, None), w')
                     /\ firestore w' = <[id := doc]> (firestore w)
               | GmailWatchFirst =>
                   exists w',
                     callback env cfg query (Some registrationData) w
                     = (Return (Send 500 "Authentication failed. Please try again.",
                                Some registrationData), w')
                     /\ firestore w' = <[id := doc]> (firestore w)
               end
           | Some _ =>
               exists w',
                 callback env cfg query (Some registrationData) w
                 = (Return (Send 500 "Authentication failed. Please try again.",
                            Some registrationData), w')
                 /\ firestore w' = firestore w
           end
       | Throw _ =>
           exists w',
             callback env cfg query (Some registrationData) w
             = (Return (Send 500 "Authentication failed. Please try again.",
                        Some registrationData), w')
             /\ firestore w' = firestore w
       end.
Proof.
  intros Herror Hstate Htoken Huser. cbv zeta.
  unfold callback. rewrite Herror, Hstate. run. rewrite Htoken, Huser. run.
  match goal with
  | |- context [Database.saveClient env ?key ?c ?w1] =>
      destruct (DatabaseFacts.saveClient_cases env key c w1)
        as (c' & new & Henc & Hcases)
  end.
  cbv zeta in Hcases. unfold record_effect, extend in *.
  cbn [history firestore clientId clientData_of tokens] in *.
  rewrite <- !app_assoc in *. cbn [app] in *.
  replace {| access_token := access_token granted;
             refresh_token := refresh_token granted;
             expiry_date := expiry_date granted |} with granted in * by (destruct granted; reflexivity).
  exists c', new. split; [exact Henc|].
  destruct c' as [encrypted|e].
  - destruct Hcases as [[Hup Hok]|(error & w1 & Hdown & Hfail & Hstore)].
    + rewrite Hup, Hok. unfold setupGmailWatch.
      destruct (load_order env); run; [eexists _, _ | eexists]; split; reflexivity.
    + rewrite Hdown, Hfail. eexists. split; [reflexivity | exact Hstore].
  - rewrite Hcases. eexists. split; reflexivity.
Qed.

(** C1: when the handshake completes, exactly one document is written; its
    [gmailAddress] is the address the profile endpoint answered for the
    tokens just granted, and the email of the registration form is its
    [email]. The form's email has no part in [gmailAddress]: the same
    handshake with any other email in the form completes as well and writes
    the same document but for [email]. *)
Theorem callback_stores_provider_address env cfg query session w gmail timestamp session' w' :
  callback env cfg query session w
  = (Return (RedirectToSuccess gmail timestamp, session'), w') ->
  exists registrationData granted doc,
    session = Some registrationData
    /\ getToken env (history w) (q_code query) = Return granted
    /\ userinfo_get env (history w ++ [OAuthGetToken (q_code query)]) granted = Return gmail
    /\ firestore w' = <[clientId doc := doc]> (firestore w)
    /\ gmailAddress doc = gmail
    /\ email doc = reg_email registrationData
    /\ forall other, exists timestamp2 w2,
         callback env cfg query (Some (with_reg_email other registrationData)) w
         = (Return (RedirectToSuccess gmail timestamp2, None), w2)
         /\ firestore w2 = <[clientId doc := with_email other doc]> (firestore w).
Proof.
  intros Hrun.
  destruct (callback_success _ _ _ _ _ _ _ _ _ Hrun)
    as (registrationData & granted & -> & -> & Hload & Herror & Hstate & Htoken & Huser).
  destruct (callback_granted env cfg query registrationData w granted gmail
              Herror Hstate Htoken Huser) as ([encrypted|e] & new & Henc & Hout).
  2: { destruct Hout as (w1 & Hfail & _). rewrite Hfail in Hrun. discriminate. }
  cbv zeta in Hout. rewrite Hload in Hout.
  destruct (firestore_down env _) as [error|] eqn:Hdown.
  { destruct Hout as (w1 & Hfail & _). rewrite Hfail in Hrun. discriminate. }
  destruct Hout as (timestamp1 & w1 & Hok & Hstore).
  rewrite Hok in Hrun. injection Hrun as _ <-.
  eexists registrationData, granted, _.
  split; [reflexivity|]. split; [exact Htoken|]. split; [exact Huser|].
  split; [exact Hstore|]. split; [reflexivity|]. split; [reflexivity|].
  intros other.
  destruct (callback_granted env cfg query (with_reg_email other registrationData) w
              granted gmail Herror Hstate Htoken Huser) as (c' & new' & Henc' & Hout').
  rewrite Henc in Henc'. injection Henc' as <- Hnew.
  apply app_inv_head in Hnew. injection Hnew as <-.
  cbv zeta in Hout'. rewrite Hdown, Hload in Hout'.
  destruct Hout' as (timestamp2 & w2 & Hok' & Hstore').
  exists timestamp2, w2. split; [exact Hok'|]. exact Hstore'.
Qed.

(** The whole handshake of Alice, who typed another address in the form
    than the mailbox she then authorized. *)
Lemma callback_stores_provider_address_witness :
  exists state session w1 timestamp w2 doc,
    google Sample.env_up
      {| q_email := "alice@example.com"; q_name := "Alice"; q_company := Some "Acme Corp" |}
      None Sample.world0
    = (Return (RedirectToConsent state, session), w1)
    /\ callback Sample.env_up Sample.cfg
         {| q_code := Some "4/0AX4XfWh"; q_state := Some state; q_error := None |}
         session w1
       = (Return (RedirectToSuccess "alice.inbox@gmail.com" timestamp, None), w2)
    /\ firestore w2 = <[clientId doc := doc]> (firestore w1)
    /\ gmailAddress doc = "alice.inbox@gmail.com"
    /\ email doc = "alice@example.com".
Proof.
  eexists _, _, _.
  destruct (callback Sample.env_up Sample.cfg
              {| q_code := Some "4/0AX4XfWh";
                 q_state := Some "9b2d5a4e-0000-4000-8000-00000000beef";
                 q_error := None |}
              (Some {| reg_email := "alice@example.com"; reg_name := "Alice";
                       reg_company := "Acme Corp";
                       reg_state := "9b2d5a4e-0000-4000-8000-00000000beef" |})
              (extend Sample.world0 [Uuid])) as [[[response session']|e] w2] eqn:Hrun.
  - assert (response = RedirectToSuccess "alice.inbox@gmail.com" 1705318200011
            /\ session' = None) as [-> ->].
    { assert (fst (callback Sample.env_up Sample.cfg
                {| q_code := Some "4/0AX4XfWh";
                   q_state := Some "9b2d5a4e-0000-4000-8000-00000000beef";
                   q_error := None |}
                (Some {| reg_email := "alice@example.com"; reg_name := "Alice";
                         reg_company := "Acme Corp";
                         reg_state := "9b2d5a4e-0000-4000-8000-00000000beef" |})
                (extend Sample.world0 [Uuid]))
              = Return (RedirectToSuccess "alice.inbox@gmail.com" 1705318200011, None))
        as Heval by (vm_compute; reflexivity).
      rewrite Hrun in Heval. simpl in Heval. injection Heval as -> ->. split; reflexivity. }
    destruct (callback_stores_provider_address _ _ _ _ _ _ _ _ _ Hrun)
      as (registrationData & granted & doc & Hsession & _ & _ & Hstore & Hgmail & Hemail & _).
    injection Hsession as <-.
    exists 1705318200011%Z, w2, doc.
    split; [reflexivity|]. split; [exact Hrun|]. split; [exact Hstore|].
    split; [exact Hgmail | exact Hemail].
  - exfalso.
    assert (fst (callback Sample.env_up Sample.cfg
                {| q_code := Some "4/0AX4XfWh";
                   q_state := Some "9b2d5a4e-0000-4000-8000-00000000beef";
                   q_error := None |}
                (Some {| reg_email := "alice@example.com"; reg_name := "Alice";
                         reg_company := "Acme Corp";
                         reg_state := "9b2d5a4e-0000-4000-8000-00000000beef" |})
                (extend Sample.world0 [Uuid]))
              = Return (RedirectToSuccess "alice.inbox@gmail.com" 1705318200011, None))
      as Heval by (vm_compute; reflexivity).
    rewrite Hrun in Heval. discriminate.
Defined.

(** C2, as the code has it: a callback whose state does not match the one
    bound to the session, or whose session has no binding, ends in a 400
    and touches nothing: no document is written, no call is made, the
    session stays as it was. The 400 is the CSRF failure unless the provider
    reported an error, which the handler answers first. *)
Theorem callback_rejects_unbound_state env cfg query session w :
  (session = None
   \/ exists registrationData,
        session = Some registrationData
        /\ q_state query <> Some (reg_state registrationData)) ->
  callback env cfg query session w
  = (Return (if truthy (q_error query)
             then Send 400 ("Authentication failed: " ++ default "" (q_error query))%string
             else csrf_failure,
             session),
     w).
Proof.
  intros Hunbound. unfold callback.
  destruct (truthy (q_error query)); [reflexivity|].
  destruct Hunbound as [->|(registrationData & -> & Hstate)]; [reflexivity|].
  apply state_differs_spec in Hstate. rewrite Hstate. reflexivity.
Qed.

Lemma callback_rejects_unbound_state_witness :
  Some "forged-state" <> Some "9b2d5a4e-0000-4000-8000-00000000beef"
  /\ callback Sample.env_up Sample.cfg
       {| q_code := Some "4/0AX4XfWh"; q_state := Some "forged-state"; q_error := None |}
       (Some {| reg_email := "alice@example.com"; reg_name := "Alice";
                reg_company := "Acme Corp";
                reg_state := "9b2d5a4e-0000-4000-8000-00000000beef" |})
       Sample.world0
     = (Return (csrf_failure,
                Some {| reg_email := "alice@example.com"; reg_name := "Alice";
                        reg_company := "Acme Corp";
                        reg_state := "9b2d5a4e-0000-4000-8000-00000000beef" |}),
        Sample.world0).
Proof.
  split; [discriminate|].
  apply (callback_rejects_unbound_state Sample.env_up Sample.cfg
           {| q_code := Some "4/0AX4XfWh"; q_state := Some "forged-state"; q_error := None |}).
  right. eexists. split; [reflexivity | discriminate].
Defined.

(** C2 as stated fails when the provider sends an error along: with no
    session binding at all, the answer is the provider-error failure, not
    the CSRF failure. *)
Lemma provider_error_is_answered_before_the_state_check :
  callback Sample.env_up Sample.cfg
    {| q_code := None; q_state := Some "forged-state"; q_error := Some "access_denied" |}
    None Sample.world0
  = (Return (Send 400 "Authentication failed: access_denied", None), Sample.world0)
  /\ Send 400 "Authentication failed: access_denied" <> csrf_failure.
Proof. split; [reflexivity | discriminate]. Qed.

End AuthFacts.

(** ** The push endpoint (backend/server.js) *)

Module ServerFacts.
Import Server WorldFacts.

(** C3, as the code has it: the handler never raises and touches nothing;
    it answers 200 exactly when [message.data] is there and what it decodes
    to parses as JSON, 400 when the message or its data is missing (or
    empty), and 500 when parsing throws. *)
Theorem pubsub_push_status env message w :
  exists response,
    pubsub_push env message w = (Return response, w)
    /\ match message with
       | None => response = Json 400 [("error", JStr "Invalid Pub/Sub message")]
       | Some m =>
           if truthy (message_data m)
           then match JSON_parse env
                        (Buffer_from_base64_toString env (default "" (message_data m))) with
                | Return _ => response = Send 200 "OK"
                | Throw _ => response = Json 500 [("error", JStr "Failed to process notification")]
                end
           else response = Json 400 [("error", JStr "Invalid Pub/Sub message")]
       end
    /\ (status_of response = 200 \/ status_of response = 400 \/ status_of response = 500)%Z.
Proof.
  unfold pubsub_push. run. destruct message as [m|]; [|eauto 6].
  destruct (truthy (message_data m)); simpl; [|eauto 6].
  destruct (JSON_parse env _); eauto 6.
Qed.

(** C3 as stated fails: a push without a message is answered 400, and one
    whose data is not JSON is answered 500. *)
Lemma push_without_message_is_answered_400 :
  (exists response,
      pubsub_push Sample.env_up None Sample.world0 = (Return response, Sample.world0)
      /\ response = Json 400 [("error", JStr "Invalid Pub/Sub message")]
      /\ status_of response = 400%Z)
  /\ (exists response,
         pubsub_push Sample.env_up (Some {| message_data := Some "bm90IGpzb24=" |})
           Sample.world0
         = (Return response, Sample.world0)
         /\ response = Json 500 [("error", JStr "Failed to process notification")]
         /\ status_of response = 500%Z)
  /\ Buffer_from_base64_toString Sample.env_up "bm90IGpzb24=" = "not json".
Proof.
  split; [|split]; [eexists; split; [|split] .. |]; vm_compute; reflexivity.
Qed.

(** The notification Gmail publishes is acknowledged. *)
Example push_of_a_notification_is_acknowledged :
  pubsub_push Sample.env_up (Some {| message_data := Some Sample.notification_data |})
    Sample.world0
  = (Return (Send 200 "OK"), Sample.world0).
Proof. vm_compute. reflexivity. Qed.

End ServerFacts.

(** ** Renewal (functions/watch-renewal.js and backend/gmail-watch.js) *)

Module RenewalFacts.
Import WorldFacts.

Lemma frames_decryptTokens env key t : frames (WatchRenewal.decryptTokens env key t).
Proof. unfold WatchRenewal.decryptTokens. framing. Qed.

Lemma frames_createPubSubTopic env topicName :
  frames (WatchRenewal.createPubSubTopic env topicName).
Proof. unfold WatchRenewal.createPubSubTopic. framing. Qed.

Lemma frames_watch env credentials topic : frames (GmailWatch.watch env credentials topic).
Proof. unfold GmailWatch.watch. framing. Qed.

Lemma frames_new_Date env : frames (new_Date env).
Proof. unfold new_Date. framing. Qed.

Lemma update_throws env id fields w e w' :
  Firestore.update env id fields w = (Throw e, w') -> firestore w' = firestore w.
Proof.
  unfold Firestore.update. run. ask_firestore.
  - intros H. injection H as _ <-. reflexivity.
  - destruct (firestore w !! id); intros H; [discriminate|].
    injection H as _ <-. reflexivity.
Qed.

Lemma update_returns env id fields w w' :
  Firestore.update env id fields w = (Return tt, w') ->
  exists old, firestore w !! id = Some old
              /\ firestore w' = <[id := fields old]> (firestore w).
Proof.
  unfold Firestore.update. run. ask_firestore; [discriminate|].
  destruct (firestore w !! id) as [old|]; intros H; [|discriminate].
  injection H as <-. exists old. split; reflexivity.
Qed.

(** When the block under [try] throws, no document has changed. *)
Lemma renewWatch_try_throws env cfg client w e w1 :
  WatchRenewal.renewWatch_try env cfg client w = (Throw e, w1) ->
  firestore w1 = firestore w.
Proof.
  unfold WatchRenewal.renewWatch_try. intros H.
  apply bind_Throw in H as [H|(credentials & wa & Ha & H)];
    [apply (frames_decryptTokens _ _ _ _ _ _ H)|].
  rewrite <- (frames_decryptTokens _ _ _ _ _ _ Ha).
  apply bind_Throw in H as [H|(topic & wb & Hb & H)];
    [apply (frames_createPubSubTopic _ _ _ _ _ H)|].
  rewrite <- (frames_createPubSubTopic _ _ _ _ _ Hb).
  apply bind_Throw in H as [H|(response & wc & Hc & H)];
    [apply (frames_watch _ _ _ _ _ _ H)|].
  rewrite <- (frames_watch _ _ _ _ _ _ Hc).
  apply bind_Throw in H as [H|(renewed & wd & Hd & H)];
    [apply (frames_new_Date _ _ _ _ H)|].
  rewrite <- (frames_new_Date _ _ _ _ Hd).
  apply bind_Throw in H as [H|(updated & we & He & H)];
    [apply (frames_new_Date _ _ _ _ H)|].
  rewrite <- (frames_new_Date _ _ _ _ He).
  apply bind_Throw in H as [H|([] & wf & Hf & H)];
    [apply (update_throws _ _ _ _ _ _ H)|].
  apply bind_Throw in H as [H|(renewedAt & wg & Hg & H)]; discriminate.
Qed.

(** When it returns, the result is the success object, the provider was
    called, and the document holds the subscription it answered. *)
Lemma renewWatch_try_returns env cfg client w obj w' :
  WatchRenewal.renewWatch_try env cfg client w = (Return obj, w') ->
  exists response renewedAt old doc,
    obj = [("success", JBool true);
           ("clientId", JStr (clientId client));
           ("gmailAddress", JStr (gmailAddress client));
           ("newExpiration", JDate (resp_expiration response));
           ("renewedAt", JDate renewedAt)]
    /\ firestore w !! clientId client = Some old
    /\ firestore w' = <[clientId client := doc]> (firestore w)
    /\ watchData doc
       = Some (GmailWatch.watchData_of response
                 (GmailWatch.existing_topic cfg client (clientId client))).
Proof.
  unfold WatchRenewal.renewWatch_try. intros H.
  apply bind_Return in H as (credentials & wa & Ha & H).
  apply bind_Return in H as (topic & wb & Hb & H).
  apply bind_Return in H as (response & wc & Hc & H).
  apply bind_Return in H as (renewed & wd & Hd & H).
  apply bind_Return in H as (updated & we & He & H).
  apply bind_Return in H as ([] & wf & Hf & H).
  apply bind_Return in H as (renewedAt & wg & Hg & H).
  injection H as <- <-.
  apply update_returns in Hf as (old & Hold & Hwf).
  rewrite (frames_new_Date _ _ _ _ Hg), Hwf.
  assert (firestore we = firestore w) as Hframe.
  { rewrite (frames_new_Date _ _ _ _ He), (frames_new_Date _ _ _ _ Hd),
      (frames_watch _ _ _ _ _ _ Hc), (frames_createPubSubTopic _ _ _ _ _ Hb).
    apply (frames_decryptTokens _ _ _ _ _ _ Ha). }
  rewrite Hframe in *.
  eexists response, renewedAt, old, _.
  split; [reflexivity|]. split; [exact Hold|]. split; reflexivity.
Qed.








(** *** An account without a refresh token *)




End RenewalFacts.

(** ** The subscription fields (updateWatchData and the teardown) *)

Module SubscriptionFacts.
Import WorldFacts.

Lemma frames_get env id : frames (Firestore.get env id).
Proof.
  unfold Firestore.get. apply frames_bind; [unfold Firestore.failing; framing|].
  intros [] w r w' H. injection H as _ <-. reflexivity.
Qed.

Lemma frames_getClientById env key id : frames (Database.getClientById env key id).
Proof.
  unfold Database.getClientById. apply frames_try_catch; [|intros e; framing].
  apply frames_bind; [apply frames_get|].
  intros [data|]; [unfold Database.decryptTokens|]; framing.
Qed.

Lemma frames_stop env credentials : frames (GmailWatch.stop env credentials).
Proof. unfold GmailWatch.stop. framing. Qed.

(** A block whose handler throws again returns only when it returned. *)
Lemma rethrow_Return {A} (m : M A) (handler : Error -> Error) w a w' :
  try_catch m (fun error => throw (handler error)) w = (Return a, w') ->
  m w = (Return a, w').
Proof.
  unfold try_catch, throw. destruct (m w) as [[a'|e] w1]; intros H;
    [exact H | discriminate].
Qed.

(** The import is a function only when gmail-watch.js was loaded first. *)
Lemma getOAuth2Client_returns env w u w' :
  GmailWatch.getOAuth2Client env w = (Return u, w') ->
  load_order env = GmailWatchFirst /\ w' = w.
Proof.
  unfold GmailWatch.getOAuth2Client. destruct (load_order env); [discriminate|].
  intros H. injection H as _ <-. split; reflexivity.
Qed.

(** The teardown, when it returns, has cleared the subscription through
    [updateWatchData], after the provider call. *)
Lemma stopGmailWatch_returns env cfg id w obj w' :
  GmailWatch.stopGmailWatch env cfg id w = (Return obj, w') ->
  exists new w1,
    load_order env = GmailWatchFirst
    /\ history w1 = history w ++ new
    /\ firestore w1 = firestore w
    /\ Database.updateWatchData env id None w1 = (Return true, w').
Proof.
  unfold GmailWatch.stopGmailWatch. intros H.
  apply (rethrow_Return _ (fun error => error)) in H.
  apply bind_Return in H as ([client|] & wa & Ha & H); [|discriminate].
  apply bind_Return in H as ([] & wi & Hi & H).
  apply getOAuth2Client_returns in Hi as [Hload ->].
  apply bind_Return in H as ([] & wb & Hb & H).
  apply bind_Return in H as (updated & wc & Hc & H).
  injection H as _ <-.
  assert (updated = true) as ->.
  { revert Hc. unfold Database.updateWatchData. run. ask_firestore; [discriminate|].
    destruct (firestore wb !! id); intros H; [|discriminate].
    injection H as <- _. reflexivity. }
  assert (exists new, history wb = history w ++ new) as [new Hnew].
  { revert Ha Hb. unfold Database.getClientById, Database.decryptTokens, GmailWatch.stop.
    run. ask_firestore; [discriminate|].
    destruct (firestore w !! id) as [data|]; [|discriminate].
    destruct (Database.decrypt env (ENCRYPTION_KEY cfg) (access_token (tokens data)));
      [|discriminate].
    destruct (truthy (refresh_token (tokens data)));
      [destruct (Database.decrypt env (ENCRYPTION_KEY cfg) _); [|discriminate]|];
      intros Ha; injection Ha as _ <-; cbn [history];
      (destruct (users_stop env _ _) as [[]|]; [|discriminate]);
      intros Hb; injection Hb as <-;
      rewrite !record_effect_extend, extend_extend; eexists; reflexivity. }
  exists new, wb. split; [exact Hload|]. split; [exact Hnew|]. split; [|exact Hc].
  rewrite (frames_stop _ _ _ _ _ Hb). apply (frames_getClientById _ _ _ _ _ _ Ha).
Qed.

(** C10, as the code has it: whenever [updateWatchData] succeeds, the
    document gets the subscription it was given and [lastRenewed] is set
    to the time of the call, also when the subscription is cleared with
    [null]; the other fields but [updatedAt] and the other documents stay.
    So a teardown ([stopGmailWatch]) that succeeds leaves the document
    without a subscription and with [lastRenewed] at the time it ran (it
    can succeed only in a process that loaded gmail-watch.js first). *)
Theorem updateWatchData_stamps_lastRenewed env id w :
  (forall wd r w',
      Database.updateWatchData env id wd w = (Return r, w') ->
      exists old doc,
        firestore w !! id = Some old
        /\ firestore w' !! id = Some doc
        /\ watchData doc = wd
        /\ lastRenewed doc = Some (Date_now env (history w))
        /\ Database.with_tokens (tokens old) doc
           = Database.watch_fields wd (Date_now env (history w))
               (Date_now env (history w ++ [DateNow])) old
        /\ forall id', id' <> id -> firestore w' !! id' = firestore w !! id')
  /\ (forall cfg obj w',
         GmailWatch.stopGmailWatch env cfg id w = (Return obj, w') ->
         exists old doc new,
           firestore w !! id = Some old
           /\ firestore w' !! id = Some doc
           /\ watchData doc = None
           /\ lastRenewed doc = Some (Date_now env (history w ++ new))
           /\ forall id', id' <> id -> firestore w' !! id' = firestore w !! id').
Proof.
  split.
  - intros wd r w' Hupd.
    destruct (DatabaseFacts.updateWatchData_returns env id wd w r w' Hupd)
      as (old & Hold & Hw').
    exists old, (Database.watch_fields wd (Date_now env (history w))
                   (Date_now env (history w ++ [DateNow])) old).
    rewrite Hw'. split; [exact Hold|]. split; [apply lookup_insert_eq|].
    split; [reflexivity|]. split; [reflexivity|]. split; [reflexivity|].
    intros id' Hne. apply lookup_insert_ne. congruence.
  - intros cfg obj w' Hstop.
    destruct (stopGmailWatch_returns env cfg id w obj w' Hstop)
      as (new & w1 & _ & Hhist & Hstore & Hupd).
    destruct (DatabaseFacts.updateWatchData_returns env id None w1 true w' Hupd)
      as (old & Hold & Hw').
    rewrite Hstore in Hold, Hw'. rewrite Hhist in Hw'.
    exists old, (Database.watch_fields None (Date_now env (history w ++ new))
                   (Date_now env ((history w ++ new) ++ [DateNow])) old), new.
    rewrite Hw'. split; [exact Hold|]. split; [apply lookup_insert_eq|].
    split; [reflexivity|]. split; [reflexivity|].
    intros id' Hne. apply lookup_insert_ne. congruence.
Qed.

Lemma updateWatchData_stamps_lastRenewed_witness :
  exists w' doc,
    Database.updateWatchData Sample.env_up (clientId Sample.alice_stored) None
      Sample.world_alice
    = (Return true, w')
    /\ firestore w' !! clientId Sample.alice_stored = Some doc
    /\ watchData doc = None
    /\ lastRenewed doc = Some 1705318200000%Z.
Proof.
  destruct (Database.updateWatchData Sample.env_up (clientId Sample.alice_stored) None
              Sample.world_alice) as [[r|e] w'] eqn:Hupd.
  - destruct (updateWatchData_stamps_lastRenewed Sample.env_up
                (clientId Sample.alice_stored) Sample.world_alice) as [Hset _].
    destruct (Hset _ _ _ Hupd) as (old & doc & _ & Hdoc & Hwd & Hstamp & _).
    exists w', doc. split; [|split; [exact Hdoc | split; [exact Hwd | exact Hstamp]]].
    assert (fst (Database.updateWatchData Sample.env_up (clientId Sample.alice_stored)
                   None Sample.world_alice) = Return true) as Hrun
      by (vm_compute; reflexivity).
    rewrite Hupd in Hrun. simpl in Hrun. rewrite Hrun. reflexivity.
  - assert (fst (Database.updateWatchData Sample.env_up (clientId Sample.alice_stored)
                   None Sample.world_alice) = Return true) as Hrun
      by (vm_compute; reflexivity).
    rewrite Hupd in Hrun. discriminate.
Defined.

(** C10 as stated fails: clearing Alice's subscription moves her
    [lastRenewed] from the time of her last renewal to the time of the
    call. *)
Lemma clearing_the_subscription_stamps_lastRenewed :
  firestore Sample.world_alice !! clientId Sample.alice_stored = Some Sample.alice_stored
  /\ lastRenewed Sample.alice_stored = Some 1704700000500%Z
  /\ exists w' doc,
       Database.updateWatchData Sample.env_up (clientId Sample.alice_stored) None
         Sample.world_alice
       = (Return true, w')
       /\ firestore w' !! clientId Sample.alice_stored = Some doc
       /\ watchData doc = None
       /\ lastRenewed doc = Some 1705318200000%Z.
Proof.
  split; [vm_compute; reflexivity|]. split; [reflexivity|].
  destruct (Database.updateWatchData Sample.env_up (clientId Sample.alice_stored) None
              Sample.world_alice) as [[r|e] w'] eqn:Hupd.
  - destruct (DatabaseFacts.updateWatchData_returns _ _ _ _ _ _ Hupd)
      as (old & Hold & Hw').
    assert (fst (Database.updateWatchData Sample.env_up (clientId Sample.alice_stored)
                   None Sample.world_alice) = Return true) as Hrun
      by (vm_compute; reflexivity).
    rewrite Hupd in Hrun. simpl in Hrun. rewrite Hrun.
    eexists _, _. split; [reflexivity|]. rewrite Hw'.
    split; [apply lookup_insert_eq|]. split; reflexivity.
  - assert (fst (Database.updateWatchData Sample.env_up (clientId Sample.alice_stored)
                   None Sample.world_alice) = Return true) as Hrun
      by (vm_compute; reflexivity).
    rewrite Hupd in Hrun. discriminate.
Qed.

(** A teardown that succeeds: Alice's, in a process that loaded
    gmail-watch.js first. *)
Example teardown_stamps_lastRenewed :
  match GmailWatch.stopGmailWatch Sample.env_watch_first Sample.cfg
          (clientId Sample.alice_stored) Sample.world_alice with
  | (Return obj, w') =>
      obj = [("success", JBool true); ("message", JStr "Gmail watch stopped successfully")]
      /\ (firestore w' !! clientId Sample.alice_stored) ≫= watchData = None
      /\ (firestore w' !! clientId Sample.alice_stored) ≫= lastRenewed
         = Some 1705318200002%Z
  | (Throw _, _) => False
  end.
Proof. vm_compute. repeat split. Qed.

(** A renewal by the backend that succeeds, in such a process. *)
Example renewGmailWatch_success_object :
  fst (GmailWatch.renewGmailWatch Sample.env_watch_first Sample.cfg
         (clientId Sample.alice_stored) Sample.world_alice)
  = Return [("success", JBool true);
            ("clientId", JStr "3f0e7c1a-0000-4000-8000-000000000001");
            ("gmailAddress", JStr "alice.inbox@gmail.com");
            ("watchData",
             JWatch {| historyId := "1234567"; expiration := 1705923000000;
                       topicName := "gmail-watch-3f0e7c1a-0000-4000-8000-000000000001" |});
            ("renewedAt", JDate 1705318200007)].
Proof. vm_compute. reflexivity. Qed.

(** In a process that loaded auth.js first, as the container does, the
    three functions of gmail-watch.js never reach the provider: setting up
    and tearing down throw, the renewal returns its failure object, and
    the collection stays as it was. *)
Theorem gmail_watch_fails_when_auth_loaded_first env cfg id w :
  load_order env = AuthFirst ->
  (exists e w',
      GmailWatch.setupGmailWatch env cfg id w = (Throw e, w')
      /\ firestore w' = firestore w /\ since w w' = [FirestoreGet id])
  /\ (exists e w',
         GmailWatch.stopGmailWatch env cfg id w = (Throw e, w')
         /\ firestore w' = firestore w /\ since w w' = [FirestoreGet id])
  /\ (exists e w',
         GmailWatch.renewGmailWatch env cfg id w
         = (Return [("success", JBool false);
                    ("clientId", JStr id);
                    ("error", JStr e);
                    ("renewedAt", JDate (Date_now env (history w ++ [FirestoreGet id])))],
            w')
         /\ firestore w' = firestore w
         /\ since w w' = [FirestoreGet id; DateNow]).
Proof.
  intros Hload.
  assert (exists r, Database.getClientById env (ENCRYPTION_KEY cfg) id w
                    = (r, extend w [FirestoreGet id])) as [r Hget].
  { unfold Database.getClientById, Database.decryptTokens. run. ask_firestore.
    - eexists. reflexivity.
    - destruct (firestore w !! id) as [data|]; [|eexists; reflexivity].
      destruct (Database.decrypt env (ENCRYPTION_KEY cfg) (access_token (tokens data)));
        [|eexists; reflexivity].
      destruct (truthy (refresh_token (tokens data)));
        [destruct (Database.decrypt env (ENCRYPTION_KEY cfg) _)|]; eexists; reflexivity. }
  unfold GmailWatch.setupGmailWatch, GmailWatch.stopGmailWatch, GmailWatch.renewGmailWatch,
    GmailWatch.renewGmailWatch_try, GmailWatch.getOAuth2Client, try_catch.
  rewrite Hload.
  destruct r as [[client|]|e];
    first [rewrite !(bind_step _ _ _ _ _ Hget) | rewrite !(bind_raise _ _ _ _ _ Hget)]; run;
    (split; [|split]; eexists _, _;
     (split; [reflexivity|]; split; [reflexivity|]);
     rewrite ?record_effect_extend, ?extend_extend; apply since_extend).
Qed.

Lemma gmail_watch_fails_when_auth_loaded_first_witness :
  load_order Sample.env_up = AuthFirst
  /\ exists w',
       GmailWatch.stopGmailWatch Sample.env_up Sample.cfg (clientId Sample.alice_stored)
         Sample.world_alice
       = (Throw (mkError "getOAuth2Client is not a function"), w')
       /\ firestore w' = firestore Sample.world_alice.
Proof.
  split; [reflexivity|].
  destruct (gmail_watch_fails_when_auth_loaded_first Sample.env_up Sample.cfg
              (clientId Sample.alice_stored) Sample.world_alice eq_refl)
    as (_ & (e & w' & Hstop & Hstore & _) & _).
  exists w'. split; [|exact Hstore].
  rewrite Hstop. f_equal.
  assert (fst (GmailWatch.stopGmailWatch Sample.env_up Sample.cfg
                 (clientId Sample.alice_stored) Sample.world_alice)
          = Throw (mkError "getOAuth2Client is not a function")) as Hrun
    by (vm_compute; reflexivity).
  rewrite Hstop in Hrun. exact Hrun.
Defined.

(** Setting up and tearing down a subscription let errors through: for an
    account that is not there both throw [Client not found]; for one that
    is there both throw at the import of [getOAuth2Client] when auth.js was
    loaded first; otherwise what the provider throws at [stop] or [watch]
    reaches the caller as it is. In each case the collection is untouched. *)
Theorem establish_and_teardown_propagate env cfg id w :
  (firestore_down env (history w) = None ->
   firestore w !! id = None ->
   GmailWatch.setupGmailWatch env cfg id w
   = (Throw (mkError "Client not found"), extend w [FirestoreGet id])
   /\ GmailWatch.stopGmailWatch env cfg id w
      = (Throw (mkError "Client not found"), extend w [FirestoreGet id]))
  /\ (forall client w1,
         load_order env = AuthFirst ->
         Database.getClientById env (ENCRYPTION_KEY cfg) id w = (Return (Some client), w1) ->
         GmailWatch.setupGmailWatch env cfg id w
         = (Throw (mkError "getOAuth2Client is not a function"), w1)
         /\ GmailWatch.stopGmailWatch env cfg id w
            = (Throw (mkError "getOAuth2Client is not a function"), w1)
         /\ firestore w1 = firestore w)
  /\ (forall client w1 e,
         load_order env = GmailWatchFirst ->
         Database.getClientById env (ENCRYPTION_KEY cfg) id w = (Return (Some client), w1) ->
         users_stop env (history w1) (tokens client) = Throw e ->
         GmailWatch.stopGmailWatch env cfg id w
         = (Throw e, extend w1 [GmailStop (tokens client)])
         /\ firestore w1 = firestore w)
  /\ (forall client w1 topic w2 e,
         load_order env = GmailWatchFirst ->
         Database.getClientById env (ENCRYPTION_KEY cfg) id w = (Return (Some client), w1) ->
         GmailWatch.createPubSubTopic env (PUBSUB_TOPIC_PREFIX cfg ++ id)%string w1
         = (Return topic, w2) ->
         users_watch env (history w2) (tokens client)
           (GmailWatch.fullTopicName cfg (PUBSUB_TOPIC_PREFIX cfg ++ id)%string)
         = Throw e ->
         exists w', GmailWatch.setupGmailWatch env cfg id w = (Throw e, w')
                    /\ firestore w' = firestore w).
Proof.
  split; [|split; [|split]].
  - intros Hup Hnone.
    unfold GmailWatch.setupGmailWatch, GmailWatch.stopGmailWatch, Database.getClientById.
    run. rewrite Hup, Hnone. split; reflexivity.
  - intros client w1 Hload Hget.
    unfold GmailWatch.setupGmailWatch, GmailWatch.stopGmailWatch, try_catch.
    rewrite !(bind_step _ _ _ _ _ Hget). unfold GmailWatch.getOAuth2Client.
    rewrite Hload. split; [reflexivity|]. split; [reflexivity|].
    apply (frames_getClientById _ _ _ _ _ _ Hget).
  - intros client w1 e Hload Hget Hstop.
    unfold GmailWatch.stopGmailWatch, try_catch.
    rewrite (bind_step _ _ _ _ _ Hget). unfold GmailWatch.getOAuth2Client.
    rewrite Hload. unfold GmailWatch.stop. run. rewrite Hstop.
    split; [reflexivity | apply (frames_getClientById _ _ _ _ _ _ Hget)].
  - intros client w1 topic w2 e Hload Hget Htopic Hwatch.
    unfold GmailWatch.setupGmailWatch, try_catch.
    rewrite (bind_step _ _ _ _ _ Hget). unfold GmailWatch.getOAuth2Client.
    rewrite Hload. rewrite (bind_step (ret tt) _ w1 tt w1 eq_refl).
    rewrite (bind_step _ _ _ _ _ Htopic). unfold GmailWatch.watch. run. rewrite Hwatch.
    eexists. split; [reflexivity|]. cbn [record_effect firestore].
    assert (frames (GmailWatch.createPubSubTopic env (PUBSUB_TOPIC_PREFIX cfg ++ id)%string))
      as Hframes by (unfold GmailWatch.createPubSubTopic; framing).
    rewrite (Hframes _ _ _ Htopic). apply (frames_getClientById _ _ _ _ _ _ Hget).
Qed.

Lemma establish_and_teardown_propagate_witness :
  GmailWatch.setupGmailWatch Sample.env_up Sample.cfg "no-such-client" Sample.world0
  = (Throw (mkError "Client not found"),
     extend Sample.world0 [FirestoreGet "no-such-client"])
  /\ GmailWatch.stopGmailWatch Sample.env_up Sample.cfg "no-such-client" Sample.world0
     = (Throw (mkError "Client not found"),
        extend Sample.world0 [FirestoreGet "no-such-client"]).
Proof.
  destruct (establish_and_teardown_propagate Sample.env_up Sample.cfg "no-such-client"
              Sample.world0) as (Hmissing & _).
  apply Hmissing; reflexivity.
Defined.

End SubscriptionFacts.

(** ** The notifier of the Cloud Function (functions/watch-renewal.js) *)

Module BatchNotifierFacts.
Import WorldFacts.

Lemma filter_partition {A} (f : A -> bool) (l : list A) :
  (length (List.filter f l) + length (List.filter (fun a => negb (f a)) l))%nat = length l.
Proof.
  induction l as [|a l IH]; [reflexivity|].
  simpl. destruct (f a); simpl; lia.
Qed.

(** [sendRenewalWebhook] of the Cloud Function never raises and never
    retries: without a URL nothing happens; with one it reads the clock and
    posts the batch once, whatever the receiver answers, sets no timer and
    leaves the collection alone. The counts of the batch add up to the
    number of results. *)
Theorem batch_notifier_posts_once env url results w :
  exists w',
    WatchRenewal.sendRenewalWebhook env url results w = (Return tt, w')
    /\ firestore w' = firestore w
    /\ since w w'
       = (if truthy url
          then [DateNow;
                AxiosPost (default "" url)
                  (WatchRenewal.batch_payload results (Date_now env (history w)))]
          else [])
    /\ (deliveries (since w w') <= 1)%nat
    /\ delays (since w w') = []
    /\ match payload_data (WatchRenewal.batch_payload results (Date_now env (history w))) with
       | RenewalBatchPayload totalProcessed successful failed _ =>
           totalProcessed = length results
           /\ (successful + failed)%nat = totalProcessed
       | _ => False
       end.
Proof.
  unfold WatchRenewal.sendRenewalWebhook.
  assert (since w w = []) as Hsame by (rewrite <- (extend_nil w) at 2; apply since_extend).
  destruct (truthy url); cbn [negb].
  - run.
    assert (since w (record_effect
                       (AxiosPost (default "" url)
                          (WatchRenewal.batch_payload results (Date_now env (history w))))
                       (record_effect DateNow w))
            = [DateNow;
               AxiosPost (default "" url)
                 (WatchRenewal.batch_payload results (Date_now env (history w)))]) as Hsince
      by (rewrite !record_effect_extend, extend_extend; apply since_extend).
    destruct (axios_post env _ _ _);
      (eexists; split; [reflexivity|]; split; [reflexivity|]; rewrite Hsince;
       split; [reflexivity|]; split; [simpl; lia|]; split; [reflexivity|];
       split; [reflexivity | apply filter_partition]).
  - exists w. split; [reflexivity|]. split; [reflexivity|]. rewrite Hsame.
    split; [reflexivity|]. split; [simpl; lia|]. split; [reflexivity|].
    split; [reflexivity | apply filter_partition].
Qed.

(** At a receiver that refuses every connection the batch is posted once
    and the failure is dropped. *)
Example batch_notifier_at_a_dead_receiver :
  exists w',
    WatchRenewal.sendRenewalWebhook Sample.env_down
      (Some "https://n8n.example.com/webhook/gmail-renewals")
      [[("success", JBool false); ("clientId", JStr "3f0e7c1a-0000-4000-8000-000000000001")]]
      Sample.world0
    = (Return tt, w')
    /\ deliveries (since Sample.world0 w') = 1%nat
    /\ delays (since Sample.world0 w') = [].
Proof. eexists. split; [vm_compute; reflexivity|]. split; reflexivity. Qed.

End BatchNotifierFacts.

(** ** The notifier: a delivery that gets through, another first attempt *)

Module RetryFacts.
Import Webhook WorldFacts.

Section RetryLoop.
Context (env : Env) (url : string) (payload : Z -> Payload)
        (f : nat -> M DeliveryOutcome).
Hypothesis f_unfold : forall attempt,
  f attempt =
  try_catch
    (let! now := new_Date env in
     let payload := payload now in
     let! response := post env url payload in
     ret (Delivered (status response) (data response)))
    (fun error =>
       match lt_dec attempt MAX_RETRY_ATTEMPTS with
       | left _ =>
           let delayTime := delayTime attempt in
           delay delayTime ;; f (attempt + 1)%nat
       | right _ => ret (Failed (message error) attempt)
       end).

(** After [j] failed deliveries the next one is answered: the loop stops
    there. *)
Lemma loop_stops_at_success r j : forall attempt w,
  (attempt + j <= MAX_RETRY_ATTEMPTS)%nat ->
  (forall h p, (deliveries h < j)%nat ->
               exists e, axios_post env (history w ++ h) url p = Throw e) ->
  (forall h p, deliveries h = j -> axios_post env (history w ++ h) url p = Return r) ->
  exists new,
    f attempt w = (Return (Delivered (status r) (data r)), extend w new)
    /\ deliveries new = S j
    /\ delays new = map delayTime (seq attempt j).
Proof.
  induction j as [|j IH]; intros attempt w Hle Hfail Hok.
  - destruct (WebhookFacts.attempt_cases env url payload f f_unfold attempt w)
      as [(r' & Hr & Hpost)|(e & _ & Hpost)].
    + rewrite (Hok [DateNow] _ eq_refl) in Hpost. injection Hpost as <-.
      eexists. split; [exact Hr|]. split; reflexivity.
    + rewrite (Hok [DateNow] _ eq_refl) in Hpost. discriminate.
  - destruct (WebhookFacts.attempt_cases env url payload f f_unfold attempt w)
      as [(r' & _ & Hpost)|(e & He & _)].
    + destruct (Hfail [DateNow] (payload (Date_now env (history w)))) as [e He];
        [simpl; lia | congruence].
    + destruct (lt_dec attempt MAX_RETRY_ATTEMPTS); [|lia].
      destruct (IH (attempt + 1)%nat
                  (extend w [DateNow; AxiosPost url (payload (Date_now env (history w)));
                             SetTimeout (delayTime attempt)]))
        as (new & Hf & Hd & Ht).
      * lia.
      * intros h p Hlt. cbn [extend history]. rewrite <- app_assoc.
        apply Hfail. rewrite WebhookFacts.deliveries_app. simpl. lia.
      * intros h p Heq. cbn [extend history]. rewrite <- app_assoc.
        apply Hok. rewrite WebhookFacts.deliveries_app. simpl. lia.
      * rewrite He, Hf, extend_extend.
        eexists. split; [reflexivity|]. simpl. rewrite Hd, Ht.
        replace (attempt + 1)%nat with (S attempt) by lia. split; reflexivity.
Qed.

(** From any first attempt: at least one delivery and at most one more
    than the attempts left. *)
Lemma loop_from attempt w :
  exists o new, f attempt w = (Return o, extend w new)
                /\ (1 <= deliveries new <= S (MAX_RETRY_ATTEMPTS - attempt))%nat.
Proof. apply (WebhookFacts.loop_returns env url payload f f_unfold _ attempt w eq_refl). Qed.

(** When every delivery fails, from a first attempt up to the maximum. *)
Lemma loop_fails_from attempt w :
  (attempt <= MAX_RETRY_ATTEMPTS)%nat ->
  (forall h p, exists e, axios_post env h url p = Throw e) ->
  exists e new,
    f attempt w = (Return (Failed e MAX_RETRY_ATTEMPTS), extend w new)
    /\ deliveries new = S (MAX_RETRY_ATTEMPTS - attempt)
    /\ delays new = map delayTime (seq attempt (MAX_RETRY_ATTEMPTS - attempt)).
Proof.
  intros Hle Hfail.
  apply (WebhookFacts.loop_exhausts env url payload f f_unfold
           (MAX_RETRY_ATTEMPTS - attempt) attempt w Hfail).
  lia.
Qed.

(** And from a first attempt past the maximum: one delivery, no wait. *)
Lemma loop_fails_past attempt w :
  (MAX_RETRY_ATTEMPTS <= attempt)%nat ->
  (forall h p, exists e, axios_post env h url p = Throw e) ->
  exists e,
    f attempt w
    = (Return (Failed e attempt),
       extend w [DateNow; AxiosPost url (payload (Date_now env (history w)))]).
Proof.
  intros Hle Hfail.
  destruct (WebhookFacts.attempt_cases env url payload f f_unfold attempt w)
    as [(r & _ & Hpost)|(e & He & _)].
  - destruct (Hfail (history w ++ [DateNow]) (payload (Date_now env (history w))))
      as [e He]. congruence.
  - destruct (lt_dec attempt MAX_RETRY_ATTEMPTS); [lia|]. eauto.
Qed.
End RetryLoop.

(** Both senders stop at the first delivery the receiver accepts: after
    [j] refused deliveries ([j] at most 2) the next answer is returned as
    the success object, [j + 1] deliveries were made, and the waits before
    them were 2000 ms, then 4000 ms. *)
Theorem notifier_stops_at_first_success env url clientData renewalData r j w :
  truthy url = true ->
  (j <= 2)%nat ->
  (forall h p, (deliveries h < j)%nat ->
               exists e, axios_post env (history w ++ h) (default "" url) p = Throw e) ->
  (forall h p, deliveries h = j ->
               axios_post env (history w ++ h) (default "" url) p = Return r) ->
  (exists w',
      sendRegistrationWebhook env url clientData 1 w
      = (Return (Delivered (status r) (data r)), w')
      /\ deliveries (since w w') = S j
      /\ delays (since w w') = firstn j [2000; 4000]%Z)
  /\ (exists w',
         sendRenewalWebhook env url renewalData 1 w
         = (Return (Delivered (status r) (data r)), w')
         /\ deliveries (since w w') = S j
         /\ delays (since w w') = firstn j [2000; 4000]%Z).
Proof.
  intros Hurl Hj Hfail Hok.
  assert (map delayTime (seq 1 j) = firstn j [2000; 4000]%Z) as Hdelays.
  { destruct j as [|[|[|j]]]; [reflexivity .. | lia]. }
  split.
  - destruct (loop_stops_at_success env (default "" url) (registration_payload clientData)
                (sendRegistrationWebhook env url clientData)
                (fun attempt => WebhookFacts.sendRegistrationWebhook_unfold
                                  env url clientData attempt Hurl)
                r j 1%nat w) as (new & Hf & Hd & Ht);
      [unfold MAX_RETRY_ATTEMPTS; lia | assumption ..|].
    exists (extend w new). rewrite since_extend, <- Hdelays. auto.
  - destruct (loop_stops_at_success env (default "" url) (renewal_payload renewalData)
                (sendRenewalWebhook env url renewalData)
                (fun attempt => WebhookFacts.sendRenewalWebhook_unfold
                                  env url renewalData attempt Hurl)
                r j 1%nat w) as (new & Hf & Hd & Ht);
      [unfold MAX_RETRY_ATTEMPTS; lia | assumption ..|].
    exists (extend w new). rewrite since_extend, <- Hdelays. auto.
Qed.

Lemma notifier_stops_at_first_success_witness :
  exists w',
    sendRegistrationWebhook MoreSamples.env_flaky
      (Some "https://n8n.example.com/webhook/gmail-registrations") Sample.alice 1
      Sample.world0
    = (Return (Delivered 202 "queued"), w')
    /\ deliveries (since Sample.world0 w') = 2%nat
    /\ delays (since Sample.world0 w') = [2000]%Z.
Proof.
  destruct (notifier_stops_at_first_success MoreSamples.env_flaky
              (Some "https://n8n.example.com/webhook/gmail-registrations")
              Sample.alice [] {| status := 202; data := "queued" |} 1 Sample.world0)
    as [Hreg _].
  - reflexivity.
  - lia.
  - intros h p Hlt. eexists. cbn [MoreSamples.env_flaky axios_post Sample.world0 history app].
    destruct (Nat.ltb_spec (deliveries h) 1); [reflexivity | lia].
  - intros h p Heq. cbn [MoreSamples.env_flaky axios_post Sample.world0 history app].
    rewrite Heq. reflexivity.
  - exact Hreg.
Defined.

(** The senders take the number of the first attempt from their caller.
    With a URL set, they make at least one delivery and at most one more
    than the attempts left up to the maximum. When every delivery fails:
    from a first attempt within the maximum they make all the deliveries
    left, wait between them and report the maximum; from one past the
    maximum they make a single delivery, do not wait, and report the
    caller's number. *)
Theorem notifier_from_any_attempt env url clientData attempt w :
  truthy url = true ->
  (exists o w',
      sendRegistrationWebhook env url clientData attempt w = (Return o, w')
      /\ (1 <= deliveries (since w w') <= S (MAX_RETRY_ATTEMPTS - attempt))%nat)
  /\ ((forall h p, exists e, axios_post env h (default "" url) p = Throw e) ->
      exists e w',
        sendRegistrationWebhook env url clientData attempt w
        = (Return (Failed e (Nat.max attempt MAX_RETRY_ATTEMPTS)), w')
        /\ deliveries (since w w') = S (MAX_RETRY_ATTEMPTS - attempt)
        /\ delays (since w w')
           = map delayTime (seq attempt (MAX_RETRY_ATTEMPTS - attempt))).
Proof.
  intros Hurl.
  pose proof (fun a => WebhookFacts.sendRegistrationWebhook_unfold env url clientData a Hurl)
    as Hunfold.
  split.
  - destruct (loop_from env _ _ _ Hunfold attempt w) as (o & new & Hf & Hd).
    exists o, (extend w new). rewrite since_extend. auto.
  - intros Hfail. destruct (le_lt_dec attempt MAX_RETRY_ATTEMPTS) as [Hle|Hlt].
    + destruct (loop_fails_from env _ _ _ Hunfold attempt w Hle Hfail)
        as (e & new & Hf & Hd & Ht).
      exists e, (extend w new). rewrite since_extend, Nat.max_r by exact Hle. auto.
    + destruct (loop_fails_past env _ _ _ Hunfold attempt w) as (e & Hf); [lia | exact Hfail|].
      exists e, (extend w [DateNow; AxiosPost (default "" url)
                                      (registration_payload clientData
                                         (Date_now env (history w)))]).
      rewrite since_extend, Nat.max_l by lia.
      replace (MAX_RETRY_ATTEMPTS - attempt)%nat with 0%nat by lia.
      split; [exact Hf|]. split; reflexivity.
Qed.

(** From attempt 0 a dead receiver is tried four times, the first wait
    being half the base delay. *)
Lemma notifier_from_any_attempt_witness :
  exists e w',
    sendRegistrationWebhook Sample.env_down
      (Some "https://n8n.example.com/webhook/gmail-registrations") Sample.alice 0
      Sample.world0
    = (Return (Failed e 3), w')
    /\ deliveries (since Sample.world0 w') = 4%nat
    /\ delays (since Sample.world0 w') = [1000; 2000; 4000]%Z.
Proof.
  destruct (notifier_from_any_attempt Sample.env_down
              (Some "https://n8n.example.com/webhook/gmail-registrations")
              Sample.alice 0 Sample.world0 eq_refl) as [_ Hfail].
  apply Hfail. intros h p. eexists. reflexivity.
Defined.

End RetryFacts.

(** ** The handshake as a whole (backend/auth.js) *)

Module HandshakeFacts.
Import Auth WorldFacts.

Lemma since_history w w' new : history w' = history w ++ new -> since w w' = new.
Proof. intros H. unfold since. rewrite H. apply drop_app_length. Qed.

(** Reading what happened off a world that is written out. *)
Ltac chronicle :=
  erewrite since_history
    by (cbn [history record_effect extend]; rewrite <- ?app_assoc; reflexivity).

Lemma state_matches registrationData state :
  state_differs registrationData state = false ->
  state = Some (reg_state registrationData).
Proof.
  unfold state_differs. destruct state as [s|]; [|discriminate].
  destruct (String.eqb_spec (reg_state registrationData) s) as [<-|]; [reflexivity|discriminate].
Qed.

(** /auth/google puts in the redirect the state it binds to the session,
    with the form's data, and touches no document. A callback on that
    session completes only when it brings that state back; it then clears
    the binding, so that the same request sent again, in whatever
    circumstances, is refused as a possible CSRF and changes nothing. *)
Theorem handshake_state_is_single_use env cfg start session0 w0 :
  exists state registrationData w1,
    google env start session0 w0
    = (Return (RedirectToConsent state, Some registrationData), w1)
    /\ reg_state registrationData = state
    /\ reg_email registrationData = q_email start
    /\ firestore w1 = firestore w0
    /\ forall query gmail timestamp session' w2,
         callback env cfg query (Some registrationData) w1
         = (Return (RedirectToSuccess gmail timestamp, session'), w2) ->
         q_state query = Some state
         /\ session' = None
         /\ forall env3 cfg3 w3,
              callback env3 cfg3 query session' w3 = (Return (csrf_failure, None), w3).
Proof.
  unfold google. run. eexists _, _, _. split; [reflexivity|].
  split; [reflexivity|]. split; [reflexivity|]. split; [reflexivity|].
  intros query gmail timestamp session' w2 Hrun.
  destruct (AuthFacts.callback_success _ _ _ _ _ _ _ _ _ Hrun)
    as (r & granted & Hsession & -> & _ & Herror & Hstate & _).
  injection Hsession as <-.
  split; [apply (state_matches _ _ Hstate)|]. split; [reflexivity|].
  intros env3 cfg3 w3. unfold callback. rewrite Herror. reflexivity.
Qed.

(** In a process that loaded auth.js first, the callback never raises and
    ends in one of two ways. Either it redirects to the success page: then
    one document was written, for the address the provider named, the
    session binding is gone, and two calls were started and not awaited,
    the watch setup for the new id and the registration webhook for the
    record with the tokens as granted. Or it answers 400 or 500: then no
    document was written, the session is as it was, and nothing was
    started or posted. *)
Theorem callback_creates_account_only_on_success env cfg query session w :
  load_order env = AuthFirst ->
  exists response session' w',
    callback env cfg query session w = (Return (response, session'), w')
    /\ ((exists gmail timestamp c doc,
            response = RedirectToSuccess gmail timestamp
            /\ session' = None
            /\ gmailAddress c = gmail
            /\ getToken env (history w) (q_code query) = Return (tokens c)
            /\ firestore w' = <[clientId c := doc]> (firestore w)
            /\ detached (since w w')
               = [SetupGmailWatch (clientId c); SendRegistrationWebhook c])
        \/ ((status_of response = 400 \/ status_of response = 500)%Z
            /\ session' = session
            /\ firestore w' = firestore w
            /\ detached (since w w') = []
            /\ deliveries (since w w') = 0%nat)).
Proof.
  intros Hload.
  assert (since w w = []) as Hsame by (apply since_history; rewrite app_nil_r; reflexivity).
  unfold callback, setupGmailWatch. rewrite Hload.
  destruct (truthy (q_error query)).
  { run. eexists _, _, _. split; [reflexivity|]. right. rewrite Hsame. auto 6. }
  destruct session as [registrationData|].
  2: { run. eexists _, _, _. split; [reflexivity|]. right. rewrite Hsame. auto 6. }
  destruct (state_differs registrationData (q_state query)).
  { run. eexists _, _, _. split; [reflexivity|]. right. rewrite Hsame. auto 6. }
  unfold Database.saveClient, Database.encryptTokens, Database.encrypt, Database.draw_salt.
  run.
  destruct (getToken env (history w) (q_code query)) as [granted|e] eqn:Htoken.
  2: { eexists _, _, _. split; [reflexivity|]. right. chronicle. auto 6. }
  destruct (userinfo_get env _ granted) as [gmail|e].
  2: { eexists _, _, _. split; [reflexivity|]. right. chronicle. auto 6. }
  cbn [tokens clientData_of access_token refresh_token].
  assert (forall (c : completion unit) (P : Prop), (c = Return tt -> P) ->
            (forall e, c = Throw e -> P) -> P) as Hcase
    by (intros [[]|e] P Hr Ht; [apply Hr | apply (Ht e)]; reflexivity).
  unfold CryptoJS.AES_encrypt_toString.
  destruct (truthy (ENCRYPTION_KEY cfg)); cbn [negb]; run;
    [apply (Hcase (CryptoJS.Utf8.encodable (access_token granted)));
     [intros ->|intros e ->]; run|];
    try (eexists _, _, _; split; [reflexivity|]; right; chronicle; auto 6; fail);
    (destruct (truthy (refresh_token granted)); run;
     try (apply (Hcase (CryptoJS.Utf8.encodable
                          (default "" (refresh_token granted))));
          [intros ->|intros e ->]; run);
     try (eexists _, _, _; split; [reflexivity|]; right; chronicle; auto 6; fail);
     (destruct (firestore_down env _);
      [ eexists _, _, _; split; [reflexivity|]; right; chronicle; auto 6
      | eexists _, _, _; split; [reflexivity|]; left;
        eexists _, _, (clientData_of _ registrationData gmail granted _), _;
        split; [reflexivity|]; split; [reflexivity|]; split; [reflexivity|];
        split; [destruct granted; reflexivity|];
        split; [reflexivity|]; chronicle; rewrite <- ?app_assoc; reflexivity ])).
Qed.

Lemma callback_creates_account_only_on_success_witness :
  load_order Sample.env_down = AuthFirst
  /\ exists response w',
       callback Sample.env_down Sample.cfg
         {| q_code := Some "4/0AX4XfWh";
            q_state := Some "9b2d5a4e-0000-4000-8000-00000000beef";
            q_error := None |}
         (Some {| reg_email := "alice@example.com"; reg_name := "Alice";
                  reg_company := "Acme Corp";
                  reg_state := "9b2d5a4e-0000-4000-8000-00000000beef" |})
         Sample.world_alice
       = (Return (response,
                  Some {| reg_email := "alice@example.com"; reg_name := "Alice";
                          reg_company := "Acme Corp";
                          reg_state := "9b2d5a4e-0000-4000-8000-00000000beef" |}), w')
       /\ status_of response = 500%Z
       /\ firestore w' = firestore Sample.world_alice
       /\ detached (since Sample.world_alice w') = [].
Proof.
  split; [reflexivity|].
  destruct (callback_creates_account_only_on_success Sample.env_down Sample.cfg
              {| q_code := Some "4/0AX4XfWh";
                 q_state := Some "9b2d5a4e-0000-4000-8000-00000000beef";
                 q_error := None |}
              (Some {| reg_email := "alice@example.com"; reg_name := "Alice";
                       reg_company := "Acme Corp";
                       reg_state := "9b2d5a4e-0000-4000-8000-00000000beef" |})
              Sample.world_alice eq_refl)
    as (response & session' & w' & Hrun & Hcases).
  assert (fst (callback Sample.env_down Sample.cfg
                 {| q_code := Some "4/0AX4XfWh";
                    q_state := Some "9b2d5a4e-0000-4000-8000-00000000beef";
                    q_error := None |}
                 (Some {| reg_email := "alice@example.com"; reg_name := "Alice";
                          reg_company := "Acme Corp";
                          reg_state := "9b2d5a4e-0000-4000-8000-00000000beef" |})
                 Sample.world_alice)
          = Return (Send 500 "Authentication failed. Please try again.",
                    Some {| reg_email := "alice@example.com"; reg_name := "Alice";
                            reg_company := "Acme Corp";
                            reg_state := "9b2d5a4e-0000-4000-8000-00000000beef" |}))
    as Heval by (vm_compute; reflexivity).
  rewrite Hrun in Heval. cbn [fst] in Heval. injection Heval as -> ->.
  exists (Send 500 "Authentication failed. Please try again."), w'.
  split; [exact Hrun|]. split; [reflexivity|].
  destruct Hcases as [(gmail & timestamp & c & doc & Hresp & _)|(_ & _ & Hstore & Hquiet & _)];
    [discriminate | split; assumption].
Defined.

End HandshakeFacts.

(** ** The vault without a key, and updates of documents (backend/database.js) *)

Module UpdateFacts.
Import Database WorldFacts.

Lemma encryptTokens_without_key env key t w :
  truthy key = false -> encryptTokens env key t w = (Return (read_back t), w).
Proof.
  intros Hkey. unfold encryptTokens, encrypt. rewrite Hkey. cbn [negb]. run.
  unfold read_back. destruct (refresh_token t) as [r|]; cbn [truthy];
    [destruct (negb (r =? "")%string)|]; reflexivity.
Qed.

(** Without [ENCRYPTION_KEY] nothing is encrypted: [encrypt] and [decrypt]
    are the identity and draw no salt, and what [saveClient] and
    [updateClientTokens] write holds the access token and a non-empty
    refresh token exactly as given. *)
Theorem without_key_tokens_are_stored_in_the_clear env key w :
  truthy key = false ->
  (forall text, encrypt env key text w = (Return text, w)
                /\ decrypt env key text = Return text)
  /\ (forall c r w',
         saveClient env key c w = (Return r, w') ->
         exists doc, firestore w' !! clientId c = Some doc
                     /\ tokens doc = read_back (tokens c))
  /\ (forall id t r w',
         updateClientTokens env key id t w = (Return r, w') ->
         exists doc, firestore w' !! id = Some doc
                     /\ tokens doc = read_back t).
Proof.
  intros Hkey. split; [|split].
  - intros text. unfold encrypt, decrypt. rewrite Hkey. split; reflexivity.
  - intros c r w'. unfold saveClient. run.
    rewrite (encryptTokens_without_key env key _ w Hkey). run.
    ask_firestore; [discriminate|].
    intros H. injection H as _ <-. cbn [firestore].
    eexists. split; [apply lookup_insert_eq | reflexivity].
  - intros id t r w'. unfold updateClientTokens. run.
    rewrite (encryptTokens_without_key env key _ w Hkey). run.
    ask_firestore; [discriminate|].
    destruct (firestore w !! id) as [old|]; [|discriminate].
    intros H. injection H as _ <-. cbn [firestore].
    eexists. split; [apply lookup_insert_eq | reflexivity].
Qed.

Lemma without_key_tokens_are_stored_in_the_clear_witness :
  exists w' doc,
    saveClient Sample.env_up None Sample.alice Sample.world0 = (Return Sample.alice, w')
    /\ firestore w' !! clientId Sample.alice = Some doc
    /\ tokens doc = Sample.google_tokens.
Proof.
  destruct (without_key_tokens_are_stored_in_the_clear Sample.env_up None Sample.world0
              eq_refl) as (_ & Hsave & _).
  destruct (saveClient Sample.env_up None Sample.alice Sample.world0)
    as [[r|e] w'] eqn:Hrun.
  - destruct (Hsave Sample.alice r w' Hrun) as (doc & Hdoc & Htokens).
    assert (fst (saveClient Sample.env_up None Sample.alice Sample.world0)
            = Return Sample.alice) as Heval by (vm_compute; reflexivity).
    rewrite Hrun in Heval. cbn [fst] in Heval. injection Heval as ->.
    exists w', doc. split; [reflexivity|]. split; [exact Hdoc | exact Htokens].
  - assert (fst (saveClient Sample.env_up None Sample.alice Sample.world0)
            = Return Sample.alice) as Heval by (vm_compute; reflexivity).
    rewrite Hrun in Heval. discriminate.
Defined.

Lemma renewWatch_try_needs_the_document env cfg client w obj w' :
  WatchRenewal.renewWatch_try env cfg client w = (Return obj, w') ->
  exists old, firestore w !! clientId client = Some old.
Proof.
  intros Htry.
  destruct (RenewalFacts.renewWatch_try_returns _ _ _ _ _ _ Htry)
    as (response & renewedAt & old & doc & _ & Hold & _).
  exists old. exact Hold.
Qed.

(** The updates never create a document: for an id the collection does not
    hold, [updateWatchData] and [updateClientTokens] throw their own
    message, and the Cloud Function's [renewWatch], handed a record whose
    document is gone, returns its failure object; the collection stays as
    it was. *)
Theorem updates_never_create_a_document env key id w :
  firestore w !! id = None ->
  (forall wd, exists w',
      updateWatchData env id wd w = (Throw (mkError "Failed to update watch data"), w')
      /\ firestore w' = firestore w)
  /\ (forall t, exists w',
         updateClientTokens env key id t w = (Throw (mkError "Failed to update tokens"), w')
         /\ firestore w' = firestore w)
  /\ (forall cfg client,
         clientId client = id ->
         exists obj w',
           WatchRenewal.renewWatch env cfg client w = (Return obj, w')
           /\ get "success" obj = Some (JBool false)
           /\ firestore w' = firestore w).
Proof.
  intros Hnone. split; [|split].
  - intros wd. unfold updateWatchData. run. rewrite Hnone.
    ask_firestore; eexists; split; reflexivity.
  - intros t. destruct (DatabaseFacts.encryptTokens_extends env key t w)
      as (c & new & Henc).
    unfold updateClientTokens. run. rewrite Henc.
    destruct c as [encrypted|e]; [|eexists; split; reflexivity]. run. rewrite Hnone.
    ask_firestore; eexists; split; reflexivity.
  - intros cfg client Hid. unfold WatchRenewal.renewWatch, try_catch.
    destruct (WatchRenewal.renewWatch_try env cfg client w) as [[obj|e] w1] eqn:Htry.
    + destruct (renewWatch_try_needs_the_document _ _ _ _ _ _ Htry) as [old Hold].
      rewrite Hid, Hnone in Hold. discriminate.
    + run. eexists _, _. split; [reflexivity|]. split; [reflexivity|].
      apply (RenewalFacts.renewWatch_try_throws _ _ _ _ _ _ Htry).
Qed.

Lemma updates_never_create_a_document_witness :
  firestore Sample.world0 !! "no-such-client" = None
  /\ exists w',
       updateClientTokens Sample.env_up Sample.key "no-such-client" Sample.google_tokens
         Sample.world0
       = (Throw (mkError "Failed to update tokens"), w')
       /\ firestore w' = firestore Sample.world0.
Proof.
  split; [reflexivity|].
  destruct (updates_never_create_a_document Sample.env_up Sample.key "no-such-client"
              Sample.world0 eq_refl) as (_ & Htokens & _).
  apply Htokens.
Defined.

(** New tokens are read back: [getClientById] after [updateClientTokens]
    returns the document as it was but for the tokens, which are the new
    ones in the clear, and [updatedAt]; the subscription and the other
    fields are kept. *)
Theorem getClientById_after_updateClientTokens env key id t w old :
  (forall h, firestore_down env h = None) ->
  readable key t ->
  firestore w !! id = Some old ->
  exists w1 updated w2,
    updateClientTokens env key id t w = (Return true, w1)
    /\ getClientById env key id w1
       = (Return (Some (token_fields (read_back t) updated old)), w2)
    /\ firestore w2 = firestore w1
    /\ forall id', id' <> id -> firestore w1 !! id' = firestore w !! id'.
Proof.
  intros Hup Hreadable Hold.
  destruct (DatabaseFacts.encryptTokens_returns env key t w Hreadable)
    as (encrypted & new & Henc).
  unfold updateClientTokens. run. rewrite Henc. run. rewrite Hup, Hold.
  eexists _, _, _. split; [reflexivity|].
  unfold getClientById. run. rewrite Hup. cbn [firestore].
  rewrite lookup_insert_eq. cbn [tokens token_fields].
  rewrite (StoreFacts.decryptTokens_encryptTokens env key t w encrypted _ _ Hreadable Henc).
  split; [reflexivity|]. split; [reflexivity|].
  intros id' Hne. apply lookup_insert_ne. congruence.
Qed.

Lemma getClientById_after_updateClientTokens_witness :
  exists w1 updated w2,
    updateClientTokens Sample.env_up Sample.key (clientId Sample.alice_stored)
      Sample.google_tokens Sample.world_alice
    = (Return true, w1)
    /\ getClientById Sample.env_up Sample.key (clientId Sample.alice_stored) w1
       = (Return (Some (token_fields Sample.google_tokens updated Sample.alice_stored)), w2).
Proof.
  destruct (getClientById_after_updateClientTokens Sample.env_up Sample.key
              (clientId Sample.alice_stored) Sample.google_tokens Sample.world_alice
              Sample.alice_stored)
    as (w1 & updated & w2 & Hupd & Hget & _).
  - reflexivity.
  - right. split; [reflexivity|]. intros r Hr. injection Hr as <-. reflexivity.
  - vm_compute. reflexivity.
  - exists w1, updated, w2. split; [exact Hupd | exact Hget].
Defined.

End UpdateFacts.

(** ** What a renewal writes *)

Module RenewalFrameFacts.
Import WorldFacts.

Lemma same_but_subscription_watch_fields wd renewed updated old :
  same_but_subscription old (Database.watch_fields wd renewed updated old).
Proof. repeat split. Qed.

Lemma existing_topic_kept cfg client id stored :
  watchData client = Some stored -> topicName stored <> "" ->
  GmailWatch.existing_topic cfg client id = topicName stored.
Proof.
  intros Hwd Hne. unfold GmailWatch.existing_topic. rewrite Hwd. cbn [truthy].
  destruct (String.eqb_spec (topicName stored) ""); [contradiction | reflexivity].
Qed.

(** The block under [try] of [renewWatch], when it returns, wrote the
    three fields of the subscription into the document and nothing else. *)
Lemma renewWatch_try_writes env cfg client w obj w' :
  WatchRenewal.renewWatch_try env cfg client w = (Return obj, w') ->
  exists old response renewed updated,
    firestore w !! clientId client = Some old
    /\ firestore w'
       = <[clientId client :=
             Database.watch_fields
               (Some (GmailWatch.watchData_of response
                        (GmailWatch.existing_topic cfg client (clientId client))))
               renewed updated old]> (firestore w).
Proof.
  unfold WatchRenewal.renewWatch_try. intros H.
  apply bind_Return in H as (credentials & wa & Ha & H).
  apply bind_Return in H as (topic & wb & Hb & H).
  apply bind_Return in H as (response & wc & Hc & H).
  apply bind_Return in H as (renewed & wd & Hd & H).
  apply bind_Return in H as (updated & we & He & H).
  apply bind_Return in H as ([] & wf & Hf & H).
  apply bind_Return in H as (renewedAt & wg & Hg & H).
  injection H as _ <-.
  apply RenewalFacts.update_returns in Hf as (old & Hold & Hwf).
  rewrite (RenewalFacts.frames_new_Date _ _ _ _ Hg), Hwf.
  assert (firestore we = firestore w) as Hframe.
  { rewrite (RenewalFacts.frames_new_Date _ _ _ _ He),
      (RenewalFacts.frames_new_Date _ _ _ _ Hd),
      (RenewalFacts.frames_watch _ _ _ _ _ _ Hc),
      (RenewalFacts.frames_createPubSubTopic _ _ _ _ _ Hb).
    apply (RenewalFacts.frames_decryptTokens _ _ _ _ _ _ Ha). }
  rewrite Hframe in *. exists old, response, renewed, updated.
  split; [exact Hold | reflexivity].
Qed.

(** A renewal by the Cloud Function either fails and leaves the
    collection as it was, or succeeds and changes one document in its
    subscription, [lastRenewed] and [updatedAt] only: the tokens and the
    registration data stay, the other documents stay, and the topic is the
    one the record came with whenever it names one. *)
Theorem renewWatch_changes_the_subscription_only env cfg client w :
  exists obj w',
    WatchRenewal.renewWatch env cfg client w = (Return obj, w')
    /\ ((get "success" obj = Some (JBool false) /\ firestore w' = firestore w)
        \/ (get "success" obj = Some (JBool true)
            /\ exists old doc subscription,
                 firestore w !! clientId client = Some old
                 /\ firestore w' = <[clientId client := doc]> (firestore w)
                 /\ same_but_subscription old doc
                 /\ watchData doc = Some subscription
                 /\ topicName subscription
                    = GmailWatch.existing_topic cfg client (clientId client)
                 /\ (forall stored, watchData client = Some stored ->
                                    topicName stored <> "" ->
                                    topicName subscription = topicName stored))).
Proof.
  unfold WatchRenewal.renewWatch, try_catch.
  destruct (WatchRenewal.renewWatch_try env cfg client w) as [[obj|e] w1] eqn:Htry.
  - exists obj, w1. split; [reflexivity|]. right.
    destruct (RenewalFacts.renewWatch_try_returns _ _ _ _ _ _ Htry)
      as (response' & renewedAt & _ & _ & -> & _).
    split; [reflexivity|].
    destruct (renewWatch_try_writes _ _ _ _ _ _ Htry)
      as (old & response & renewed & updated & Hold & Hstore).
    eexists old, _, _. split; [exact Hold|]. split; [exact Hstore|].
    split; [apply same_but_subscription_watch_fields|]. split; [reflexivity|].
    split; [reflexivity|].
    intros stored Hwd Hne. symmetry. cbn [topicName GmailWatch.watchData_of].
    symmetry. apply (existing_topic_kept _ _ _ _ Hwd Hne).
  - run. eexists _, _. split; [reflexivity|]. left. split; [reflexivity|].
    apply (RenewalFacts.renewWatch_try_throws _ _ _ _ _ _ Htry).
Qed.

End RenewalFrameFacts.

(** ** Deleting and listing (backend/database.js) *)

Module CollectionFacts.
Import Store WorldFacts.

Lemma In_documents w data :
  In data (documents w) <-> exists id, firestore w !! id = Some data.
Proof.
  unfold documents. rewrite in_map_iff. split.
  - intros ([id data'] & Heq & Hin). simpl in Heq. subst data'.
    exists id. apply elem_of_map_to_list, list_elem_of_In, Hin.
  - intros (id & Hlook). exists (id, data). split; [reflexivity|].
    apply list_elem_of_In, elem_of_map_to_list, Hlook.
Qed.

Lemma length_documents w : length (documents w) = size (firestore w).
Proof. unfold documents. rewrite length_map. apply length_map_to_list. Qed.

(** [decryptTokens] reads no world and leaves none changed. *)
Lemma decryptTokens_lifted env key t :
  exists c, forall w, Database.decryptTokens env key t w = (c, w).
Proof.
  unfold Database.decryptTokens. run.
  destruct (Database.decrypt env key (access_token t)); [|eexists; reflexivity].
  destruct (truthy (refresh_token t));
    [destruct (Database.decrypt env key _)|]; eexists; reflexivity.
Qed.

Lemma deciphers_or_throws env key data :
  (exists t, deciphers env key data t)
  \/ exists e, forall w, Database.decryptTokens env key (tokens data) w = (Throw e, w).
Proof.
  destruct (decryptTokens_lifted env key (tokens data)) as [[t|e] H]; [left | right]; eauto.
Qed.

Lemma decrypt_each_reads env key docs :
  Forall (fun data => exists t, deciphers env key data t) docs ->
  exists clients,
    Forall2 (deciphered env key) docs clients
    /\ forall w, decrypt_each env key docs w = (Return clients, w).
Proof.
  induction 1 as [|data docs [t Ht] _ (clients & Hall & Hrun)].
  - exists []. split; [constructor | reflexivity].
  - exists (Database.with_tokens t data :: clients). split.
    + constructor; [exists t; split; [exact Ht | reflexivity] | exact Hall].
    + intros w. cbn [decrypt_each]. unfold bind. rewrite Ht, Hrun. reflexivity.
Qed.

Lemma decrypt_each_throws env key docs :
  Exists (fun data => forall t, ~ deciphers env key data t) docs ->
  exists e, forall w, decrypt_each env key docs w = (Throw e, w).
Proof.
  induction docs as [|data docs IH]; intros Hbad; [inversion Hbad|].
  destruct (deciphers_or_throws env key data) as [[t Ht]|[e He]].
  - inversion Hbad as [? ? Hhere|? ? Hlater]; subst; [contradiction (Hhere t Ht)|].
    destruct (IH Hlater) as [e He]. exists e. intros w.
    cbn [decrypt_each]. unfold bind. rewrite Ht, He. reflexivity.
  - exists e. intros w. cbn [decrypt_each]. unfold bind. rewrite He. reflexivity.
Qed.

(** [deleteClient] removes the document and no other, and succeeds as well
    when there is none; afterwards [getClientById] finds nothing. When
    Firestore rejects the request it throws its own message and the
    collection is as before. *)
Theorem deleteClient_removes_the_document rejected id w :
  match rejected with
  | None =>
      exists w',
        deleteClient rejected id w = (Return true, w')
        /\ firestore w' !! id = None
        /\ (forall id', id' <> id -> firestore w' !! id' = firestore w !! id')
        /\ (firestore w !! id = None -> firestore w' = firestore w)
        /\ (forall env key,
               firestore_down env (history w') = None ->
               fst (Database.getClientById env key id w') = Return None)
  | Some _ =>
      deleteClient rejected id w = (Throw (mkError "Failed to delete client"), w)
  end.
Proof.
  unfold deleteClient, doc_delete, request. destruct rejected as [error|]; run; [reflexivity|].
  eexists. split; [reflexivity|]. cbn [firestore history].
  split; [apply lookup_delete_eq|].
  split; [intros id' Hne; apply lookup_delete_ne; congruence|].
  split; [apply delete_id|].
  intros env key Hup. unfold Database.getClientById. run. rewrite Hup.
  cbn [firestore]. rewrite lookup_delete_eq. reflexivity.
Qed.

(** Alice, once saved, is gone after [deleteClient]. *)
Example deleteClient_after_saveClient :
  match Database.saveClient Sample.env_up Sample.key Sample.alice Sample.world0 with
  | (Return _, w1) =>
      match deleteClient None (clientId Sample.alice) w1 with
      | (Return deleted, w2) =>
          deleted = true
          /\ fst (Database.getClientById Sample.env_up Sample.key (clientId Sample.alice) w1)
             <> Return None
          /\ fst (Database.getClientById Sample.env_up Sample.key (clientId Sample.alice) w2)
             = Return None
      | (Throw _, _) => False
      end
  | (Throw _, _) => False
  end.
Proof. vm_compute. split; [reflexivity|]. split; [discriminate | reflexivity]. Qed.

Section Queries.
Context (order : list Client -> list Client).
Hypothesis order_permutes : forall l, Permutation (order l) l.

Lemma In_query (matches : Client -> bool) w data :
  In data (order (List.filter matches (documents w)))
  <-> (exists id, firestore w !! id = Some data) /\ matches data = true.
Proof.
  rewrite <- In_documents, <- filter_In. split; intros H.
  - apply (Permutation_in _ (order_permutes _) H).
  - apply (Permutation_in _ (Permutation_sym (order_permutes _)) H).
Qed.

Lemma query_all_length w :
  length (order (List.filter (fun _ => true) (documents w))) = size (firestore w).
Proof.
  rewrite (Permutation_length (order_permutes _)), <- length_documents.
  f_equal. induction (documents w) as [|d l IH]; [reflexivity | simpl; f_equal; exact IH].
Qed.

Lemma Forall2_In_r {A B} (R : A -> B -> Prop) l k y :
  Forall2 R l k -> In y k -> exists x, In x l /\ R x y.
Proof.
  induction 1 as [|x y' l k HR _ IH]; intros Hin; [destruct Hin|].
  destruct Hin as [->|Hin]; [exists x; split; [left; reflexivity | exact HR]|].
  destruct (IH Hin) as (x' & Hx' & HR'). exists x'. split; [right; exact Hx' | exact HR'].
Qed.

Lemma Forall2_In_l {A B} (R : A -> B -> Prop) l k x :
  Forall2 R l k -> In x l -> exists y, In y k /\ R x y.
Proof.
  induction 1 as [|x' y l k HR _ IH]; intros Hin; [destruct Hin|].
  destruct Hin as [->|Hin]; [exists y; split; [left; reflexivity | exact HR]|].
  destruct (IH Hin) as (y' & Hy' & HR'). exists y'. split; [right; exact Hy' | exact HR'].
Qed.

(** What a listing answers when every matching document can be read, and
    when one cannot. *)
Lemma listing_reads env key (matches : Client -> bool) w :
  (forall id data, firestore w !! id = Some data -> matches data = true ->
                   exists t, deciphers env key data t) ->
  exists clients,
    (forall w1, decrypt_each env key (order (List.filter matches (documents w))) w1
                = (Return clients, w1))
    /\ length clients = length (List.filter matches (documents w))
    /\ (forall client,
           In client clients ->
           exists id data, firestore w !! id = Some data /\ matches data = true
                           /\ deciphered env key data client)
    /\ (forall id data,
           firestore w !! id = Some data -> matches data = true ->
           exists client, In client clients /\ deciphered env key data client).
Proof.
  intros Hall.
  destruct (decrypt_each_reads env key (order (List.filter matches (documents w))))
    as (clients & Hrel & Hrun).
  { apply List.Forall_forall. intros data Hin. apply In_query in Hin as [[id Hid] Hm]. eauto. }
  exists clients. split; [exact Hrun|].
  split; [rewrite <- (Forall2_length _ _ _ Hrel); apply Permutation_length, order_permutes|].
  split.
  - intros client Hin. destruct (Forall2_In_r _ _ _ _ Hrel Hin) as (data & Hdata & Hread).
    apply In_query in Hdata as [[id Hid] Hm]. eauto.
  - intros id data Hid Hm. apply (Forall2_In_l _ _ _ _ Hrel).
    apply In_query. eauto.
Qed.

Lemma listing_throws env key (matches : Client -> bool) w id data :
  firestore w !! id = Some data -> matches data = true ->
  (forall t, ~ deciphers env key data t) ->
  exists e, forall w1,
    decrypt_each env key (order (List.filter matches (documents w))) w1 = (Throw e, w1).
Proof.
  intros Hid Hm Hbad. apply decrypt_each_throws, List.Exists_exists.
  exists data. split; [apply In_query; eauto | exact Hbad].
Qed.

(** [getAllClients] answers every document with its tokens read, as many
    clients as there are documents, and changes nothing; one document
    whose tokens cannot be read, or a request Firestore rejects, makes the
    whole listing throw its own message. *)
Theorem getAllClients_lists_every_document env key w :
  ((forall id data, firestore w !! id = Some data -> exists t, deciphers env key data t) ->
   exists clients,
     getAllClients order None env key w = (Return clients, w)
     /\ length clients = size (firestore w)
     /\ (forall client,
            In client clients ->
            exists id data, firestore w !! id = Some data /\ deciphered env key data client)
     /\ (forall id data,
            firestore w !! id = Some data ->
            exists client, In client clients /\ deciphered env key data client))
  /\ (forall id data,
         firestore w !! id = Some data -> (forall t, ~ deciphers env key data t) ->
         getAllClients order None env key w
         = (Throw (mkError "Failed to retrieve clients"), w))
  /\ (forall error,
         getAllClients order (Some error) env key w
         = (Throw (mkError "Failed to retrieve clients"), w)).
Proof.
  split; [|split].
  - intros Hall.
    destruct (listing_reads env key (fun _ => true) w) as (clients & Hrun & Hlen & Hfrom & Hto);
      [eauto|].
    exists clients. unfold getAllClients, query, request. run. fold (documents w).
    rewrite Hrun. split; [reflexivity|].
    split; [rewrite Hlen, <- query_all_length;
            symmetry; apply Permutation_length, order_permutes|].
    split.
    + intros client Hin. destruct (Hfrom client Hin) as (id & data & Hid & _ & Hread). eauto.
    + intros id data Hid. apply (Hto id data Hid eq_refl).
  - intros id data Hid Hbad.
    destruct (listing_throws env key (fun _ => true) w id data Hid eq_refl Hbad) as [e He].
    unfold getAllClients, query, request. run. fold (documents w). rewrite He. reflexivity.
  - intros error. reflexivity.
Qed.

(** [getClientByGmail] answers [null] exactly when no document has the
    address; otherwise one document that has it, with its tokens read. It
    changes nothing. *)
Theorem getClientByGmail_finds_the_mailbox env key gmail w :
  (forall id data, firestore w !! id = Some data -> exists t, deciphers env key data t) ->
  exists found,
    getClientByGmail order None env key gmail w = (Return found, w)
    /\ (found = None <->
        forall id data, firestore w !! id = Some data -> gmailAddress data <> gmail)
    /\ (forall client,
           found = Some client ->
           gmailAddress client = gmail
           /\ exists id data, firestore w !! id = Some data /\ deciphered env key data client).
Proof.
  intros Hall. unfold getClientByGmail, query, request. run. fold (documents w).
  destruct (order (List.filter (fun data => (gmailAddress data =? gmail)%string) (documents w)))
    as [|data docs] eqn:Hdocs.
  - exists None. split; [reflexivity|]. split; [|discriminate].
    split; [|reflexivity]. intros _ id data Hid Heq.
    assert (In data []) as [].
    rewrite <- Hdocs. apply In_query. split; [eauto|]. apply String.eqb_eq, Heq.
  - assert (In data (data :: docs)) as Hin by (left; reflexivity).
    rewrite <- Hdocs in Hin. apply In_query in Hin as [[id Hid] Hm].
    apply String.eqb_eq in Hm. destruct (Hall id data Hid) as [t Ht].
    rewrite Ht. exists (Some (Database.with_tokens t data)).
    split; [reflexivity|]. split.
    + split; [discriminate|]. intros Hnone. contradiction (Hnone id data Hid Hm).
    + intros client Hclient. injection Hclient as <-. split; [exact Hm|].
      exists id, data. split; [exact Hid|]. exists t. split; [exact Ht | reflexivity].
Qed.

(** [getClientsWithExpiringWatches] answers, with their tokens read, the
    documents whose subscription expires at or before the threshold, all
    of them and no other: a document without a subscription is never
    among them. *)
Theorem expiring_watches_have_a_subscription env key later hours w :
  (forall id data, firestore w !! id = Some data -> exists t, deciphers env key data t) ->
  let threshold := later (Date_now env (history w)) hours in
  exists clients,
    getClientsWithExpiringWatches order None env key later hours w
    = (Return clients, extend w [DateNow])
    /\ (forall client,
           In client clients ->
           exists subscription,
             watchData client = Some subscription
             /\ (expiration subscription <= threshold)%Z)
    /\ (forall id data subscription,
           firestore w !! id = Some data ->
           watchData data = Some subscription ->
           (expiration subscription <= threshold)%Z ->
           exists client, In client clients /\ deciphered env key data client)
    /\ (length clients <= size (firestore w))%nat.
Proof.
  intros Hall threshold.
  destruct (listing_reads env key (expires_by threshold) (extend w [DateNow]))
    as (clients & Hrun & Hlen & Hfrom & Hto); [intros id data Hid _; eauto|].
  exists clients. unfold getClientsWithExpiringWatches, query, request. run.
  fold threshold. change (map snd (map_to_list (firestore w)))
    with (documents (extend w [DateNow])).
  rewrite Hrun. split; [reflexivity|]. split; [|split].
  - intros client Hin. destruct (Hfrom client Hin) as (id & data & _ & Hm & t & _ & ->).
    unfold expires_by in Hm. cbn [watchData Database.with_tokens].
    destruct (watchData data) as [subscription|]; [|discriminate].
    exists subscription. split; [reflexivity|]. apply Z.leb_le, Hm.
  - intros id data subscription Hid Hwd Hle. apply (Hto id data Hid).
    unfold expires_by. rewrite Hwd. apply Z.leb_le, Hle.
  - rewrite Hlen, <- (length_documents w).
    change (documents (extend w [DateNow])) with (documents w).
    induction (documents w) as [|d l IH]; [reflexivity|].
    simpl. destruct (expires_by threshold d); simpl; lia.
Qed.

Lemma count_one_keeps now day week s data :
  (registeredToday s <= registeredThisWeek s <= totalClients s)%nat ->
  (activeWatches s <= totalClients s)%nat ->
  (week <= day)%Z ->
  let s' := count_one now day week s data in
  (registeredToday s' <= registeredThisWeek s' <= totalClients s')%nat
  /\ (activeWatches s' <= totalClients s')%nat
  /\ totalClients s' = S (totalClients s).
Proof.
  intros Hreg Hactive Hle. unfold count_one, bump. cbn.
  destruct (Z.leb_spec day (registeredAt data)), (Z.leb_spec week (registeredAt data));
    destruct (match watchData data with Some wd => (now <? expiration wd)%Z | None => false end);
    lia.
Qed.

Lemma fold_count_one now day week docs : forall s,
  (registeredToday s <= registeredThisWeek s <= totalClients s)%nat ->
  (activeWatches s <= totalClients s)%nat ->
  (week <= day)%Z ->
  let s' := fold_left (count_one now day week) docs s in
  (registeredToday s' <= registeredThisWeek s' <= totalClients s')%nat
  /\ (activeWatches s' <= totalClients s')%nat
  /\ totalClients s' = (totalClients s + length docs)%nat.
Proof.
  induction docs as [|data docs IH]; intros s Hreg Hactive Hle; cbn [fold_left length].
  - cbv zeta. lia.
  - destruct (count_one_keeps now day week s data Hreg Hactive Hle) as (Hreg' & Hactive' & Htotal).
    destruct (IH _ Hreg' Hactive' Hle) as (H1 & H2 & H3).
    cbv zeta in *. split; [exact H1|]. split; [exact H2|]. rewrite H3, Htotal. lia.
Qed.

Lemma fold_count_one_idle now day week docs : forall s,
  Forall (fun data => watchData data = None) docs ->
  activeWatches (fold_left (count_one now day week) docs s) = activeWatches s.
Proof.
  induction docs as [|data docs IH]; intros s Hnone; [reflexivity|].
  inversion Hnone as [|? ? Hdata Hrest]; subst. cbn [fold_left].
  rewrite (IH _ Hrest). unfold count_one. cbn. rewrite Hdata. reflexivity.
Qed.

(** [getStats] counts every document once; of its counters, today's
    registrations are among this week's, which are among all, and so are
    the active watches; a collection without subscriptions has no active
    watch. It reads the clock once and changes nothing; a request Firestore
    rejects makes it throw its own message. *)
Theorem getStats_counters_are_consistent env w :
  (exists stats,
      getStats order None env w = (Return stats, extend w [DateNow])
      /\ totalClients stats = size (firestore w)
      /\ (registeredToday stats <= registeredThisWeek stats <= totalClients stats)%nat
      /\ (activeWatches stats <= totalClients stats)%nat
      /\ ((forall id data, firestore w !! id = Some data -> watchData data = None) ->
          activeWatches stats = 0%nat))
  /\ (forall error,
         getStats order (Some error) env w
         = (Throw (mkError "Failed to retrieve statistics"), w)).
Proof.
  split; [|intros error; reflexivity].
  unfold getStats, query, request. run. fold (documents w).
  eexists. split; [reflexivity|].
  destruct (fold_count_one (Date_now env (history w))
              (Date_now env (history w) - 24 * 60 * 60 * 1000)
              (Date_now env (history w) - 7 * 24 * 60 * 60 * 1000)
              (order (List.filter (fun _ => true) (documents w)))
              {| totalClients := 0; registeredToday := 0;
                 registeredThisWeek := 0; activeWatches := 0 |})
    as (Hreg & Hactive & Htotal); [cbn; lia | cbn; lia | lia |].
  cbv zeta in *. split; [rewrite Htotal; cbn [totalClients]; apply query_all_length|].
  split; [exact Hreg|]. split; [exact Hactive|].
  intros Hnone. rewrite fold_count_one_idle; [reflexivity|].
  apply List.Forall_forall. intros data Hin. apply In_query in Hin as [[id Hid] _]. eauto.
Qed.

End Queries.

(** The two sample documents can be read under the sample key. *)
Lemma world_two_deciphers id data :
  firestore MoreSamples.world_two !! id = Some data ->
  exists t, deciphers Sample.env_up Sample.key data t.
Proof.
  unfold MoreSamples.world_two. cbn [firestore]. intros Hid.
  apply lookup_insert_Some in Hid as [[_ <-]|[_ Hid]].
  - exists MoreSamples.bob_tokens. intros w. unfold Database.decryptTokens. run.
    assert (Database.decrypt Sample.env_up Sample.key
              (access_token (tokens MoreSamples.bob_stored)) = Return "ya29.b0BobToken") as ->
      by (vm_compute; reflexivity).
    assert (truthy (refresh_token (tokens MoreSamples.bob_stored)) = true) as ->
      by reflexivity.
    assert (Database.decrypt Sample.env_up Sample.key
              (default "" (refresh_token (tokens MoreSamples.bob_stored)))
            = Return "1//0bobRefresh") as -> by (vm_compute; reflexivity).
    reflexivity.
  - apply lookup_singleton_Some in Hid as [_ <-].
    exists {| access_token := "ya29.a0AfH6SM"; refresh_token := None;
              expiry_date := 1705321800000 |}.
    intros w. unfold Database.decryptTokens. run.
    assert (Database.decrypt Sample.env_up Sample.key
              (access_token (tokens Sample.alice_stored)) = Return "ya29.a0AfH6SM") as ->
      by (vm_compute; reflexivity).
    reflexivity.
Qed.

Lemma getAllClients_lists_every_document_witness :
  exists clients,
    getAllClients (fun l => l) None Sample.env_up Sample.key MoreSamples.world_two
    = (Return clients, MoreSamples.world_two)
    /\ length clients = 2%nat.
Proof.
  destruct (getAllClients_lists_every_document (fun l => l) (fun l => Permutation_refl l)
              Sample.env_up Sample.key MoreSamples.world_two) as (Hall & _).
  destruct (Hall world_two_deciphers) as (clients & Hrun & Hlen & _).
  exists clients. split; [exact Hrun|]. rewrite Hlen. vm_compute. reflexivity.
Defined.

Lemma getClientByGmail_finds_the_mailbox_witness :
  exists client,
    getClientByGmail (fun l => l) None Sample.env_up Sample.key "bob.inbox@gmail.com"
      MoreSamples.world_two
    = (Return (Some client), MoreSamples.world_two)
    /\ gmailAddress client = "bob.inbox@gmail.com".
Proof.
  destruct (getClientByGmail_finds_the_mailbox (fun l => l) (fun l => Permutation_refl l)
              Sample.env_up Sample.key "bob.inbox@gmail.com" MoreSamples.world_two
              world_two_deciphers) as (found & Hrun & Hnone & Hsome).
  destruct found as [client|].
  - exists client. split; [exact Hrun|]. apply (Hsome client eq_refl).
  - exfalso. destruct Hnone as [Hnone _].
    apply (Hnone eq_refl (clientId MoreSamples.bob_stored) MoreSamples.bob_stored);
      [|reflexivity].
    unfold MoreSamples.world_two. cbn [firestore]. apply lookup_insert_eq.
Defined.

(** Of Alice and Bob, only Alice has a subscription that expires within
    48 hours: Bob has none. *)
Lemma expiring_watches_have_a_subscription_witness :
  exists clients,
    getClientsWithExpiringWatches (fun l => l) None Sample.env_up Sample.key
      (fun now hours => now + hours * 3600000)%Z 48 MoreSamples.world_two
    = (Return clients, extend MoreSamples.world_two [DateNow])
    /\ map gmailAddress clients = ["alice.inbox@gmail.com"].
Proof.
  destruct (expiring_watches_have_a_subscription (fun l => l) (fun l => Permutation_refl l)
              Sample.env_up Sample.key (fun now hours => now + hours * 3600000)%Z 48
              MoreSamples.world_two world_two_deciphers) as (clients & Hrun & _).
  exists clients. split; [exact Hrun|].
  assert (match fst (getClientsWithExpiringWatches (fun l => l) None Sample.env_up
                       Sample.key (fun now hours => now + hours * 3600000)%Z 48
                       MoreSamples.world_two) with
          | Return clients => map gmailAddress clients
          | Throw _ => []
          end = ["alice.inbox@gmail.com"]) as Heval by (vm_compute; reflexivity).
  rewrite Hrun in Heval. exact Heval.
Defined.

Lemma getStats_counters_are_consistent_witness :
  exists stats,
    getStats (fun l => l) None Sample.env_up MoreSamples.world_two
    = (Return stats, extend MoreSamples.world_two [DateNow])
    /\ totalClients stats = 2%nat
    /\ (registeredToday stats <= registeredThisWeek stats <= 2)%nat.
Proof.
  destruct (getStats_counters_are_consistent (fun l => l) (fun l => Permutation_refl l)
              Sample.env_up MoreSamples.world_two)
    as ((stats & Hrun & Htotal & Hreg & _) & _).
  exists stats. split; [exact Hrun|].
  assert (size (firestore MoreSamples.world_two) = 2%nat) as Hsize
    by (vm_compute; reflexivity).
  rewrite Hsize in Htotal. rewrite Htotal in Hreg. split; [exact Htotal | exact Hreg].
Defined.

End CollectionFacts.

(** ** Refreshing and revoking (backend/auth.js) *)

Module AuthRoutesFacts.
Import AuthRoutes WorldFacts.

(** What [getClientById] found, when it found a document. *)
Lemma getClientById_found env key id w client w1 :
  Database.getClientById env key id w = (Return (Some client), w1) ->
  exists data,
    firestore w !! id = Some data
    /\ deciphered env key data client
    /\ w1 = extend w [FirestoreGet id].
Proof.
  unfold Database.getClientById. run. ask_firestore; [discriminate|].
  destruct (firestore w !! id) as [data|]; [|discriminate].
  destruct (CollectionFacts.decryptTokens_lifted env key (tokens data)) as [[t|e] Hread];
    rewrite Hread; [|discriminate].
  intros H. injection H as <- <-. exists data. split; [reflexivity|].
  split; [|reflexivity]. exists t. split; [|reflexivity].
  intros w'. apply Hread.
Qed.

Lemma getClientById_frames env key id w r w1 :
  Database.getClientById env key id w = (r, w1) -> firestore w1 = firestore w.
Proof. apply SubscriptionFacts.frames_getClientById. Qed.

(** POST /auth/refresh never raises. It answers 200 only after it wrote
    the document back with the access token and expiry date the provider
    answered for the stored refresh token: the refresh token, the
    subscription and the registration data are as before, and the tokens
    are written as [saveClient] writes them (ciphertexts under the key,
    or in the clear without one). Whenever it answers anything else (400
    without an id, 404 without a document, 500 when a step throws) the
    collection is as it was. *)
Theorem refresh_replaces_the_tokens_only env cfg provider (id : option string) w :
  exists response w',
    refresh env cfg provider id w = (Return response, w')
    /\ ((exists old client credentials doc,
            firestore w !! default "" id = Some old
            /\ deciphered env (ENCRYPTION_KEY cfg) old client
            /\ provider (refresh_token (tokens client)) = Return credentials
            /\ response
               = Json 200 [("success", JBool true);
                           ("message", JStr "Token refreshed successfully");
                           ("expiry_date", JNum (new_expiry_date credentials))]
            /\ firestore w' = <[clientId old := doc]> (firestore w)
            /\ same_but_tokens old doc
            /\ expiry_date (tokens doc) = new_expiry_date credentials
            /\ (truthy (ENCRYPTION_KEY cfg) = true ->
                stored_form (default "" (ENCRYPTION_KEY cfg))
                  (tokens (refreshed credentials client)) (tokens doc))
            /\ (truthy (ENCRYPTION_KEY cfg) = false ->
                tokens doc = read_back (tokens (refreshed credentials client))))
        \/ ((status_of response = 400 \/ status_of response = 404
             \/ status_of response = 500)%Z
            /\ firestore w' = firestore w)).
Proof.
  unfold refresh, try_catch.
  destruct (truthy id); cbn [negb];
    [|eexists _, _; split; [reflexivity|]; right; split; [auto | reflexivity]].
  destruct (Database.getClientById env (ENCRYPTION_KEY cfg) (default "" id) w)
    as [[[client|]|e] w1] eqn:Hget.
  - rewrite (bind_step _ _ _ _ _ Hget).
    pose proof (getClientById_frames _ _ _ _ _ _ Hget) as Hframe.
    destruct (getClientById_found _ _ _ _ _ _ Hget) as (old & Hold & Hread & _).
    destruct (provider (refresh_token (tokens client))) as [credentials|e] eqn:Hprovider.
    + unfold lift. rewrite (bind_step _ _ w1 credentials w1) by reflexivity.
      destruct (DatabaseFacts.saveClient_cases env (ENCRYPTION_KEY cfg)
                  (refreshed credentials client) w1)
        as ([encrypted|e] & new & Henc & Hcases).
      2: { rewrite (bind_raise _ _ _ _ _ Hcases). unfold ret.
           eexists _, _. split; [reflexivity|]. right. split; [auto | exact Hframe]. }
      cbv zeta in Hcases. destruct Hcases as [[_ Hsave]|(error & w2 & _ & Hsave & Hstore)].
      * rewrite (bind_step _ _ _ _ _ Hsave). unfold ret.
        eexists _, _. split; [reflexivity|]. left.
        destruct Hread as (t & Ht & ->).
        eexists old, _, credentials, _. split; [exact Hold|].
        split; [exists t; split; [exact Ht | reflexivity]|].
        split; [exact Hprovider|]. split; [reflexivity|].
        cbn [firestore]. rewrite Hframe.
        split; [reflexivity|]. split; [repeat split|]. split.
        { cbn [Database.dataToSave tokens].
          revert Henc. unfold Database.encryptTokens. intros Henc.
          apply bind_Return in Henc as (access & wa & _ & Henc).
          apply bind_Return in Henc as (refresh & wb & _ & Henc).
          injection Henc as <- _. reflexivity. }
        split.
        { intros Hkey.
          apply (DatabaseFacts.encryptTokens_stored_form _ _ _ _ _ _ Hkey Henc). }
        { intros Hkey.
          rewrite (UpdateFacts.encryptTokens_without_key env _ _ w1 Hkey) in Henc.
          injection Henc as <- _. reflexivity. }
      * rewrite (bind_raise _ _ _ _ _ Hsave). unfold ret.
        eexists _, _. split; [reflexivity|]. right. split; [auto|].
        rewrite Hstore. exact Hframe.
    + unfold lift. rewrite (bind_raise _ _ w1 e w1) by reflexivity. unfold ret.
      eexists _, _. split; [reflexivity|]. right. split; [auto | exact Hframe].
  - rewrite (bind_step _ _ _ _ _ Hget). unfold ret.
    eexists _, _. split; [reflexivity|]. right.
    split; [auto | apply (getClientById_frames _ _ _ _ _ _ Hget)].
  - rewrite (bind_raise _ _ _ _ _ Hget). unfold ret.
    eexists _, _. split; [reflexivity|]. right.
    split; [auto | apply (getClientById_frames _ _ _ _ _ _ Hget)].
Qed.

(** Bob's access token is refreshed; his refresh token is read back as it
    was. *)
Example refresh_of_bob :
  match refresh Sample.env_up Sample.cfg
          (fun refresh_token =>
             match refresh_token with
             | Some _ => Return {| new_access_token := "ya29.b1Fresh";
                                   new_expiry_date := 1705325000000 |}
             | None => Throw (mkError "No refresh token is set.")
             end)
          (Some "7c9e6679-0000-4000-8000-000000000002") MoreSamples.world_two with
  | (Return response, w') =>
      response = Json 200 [("success", JBool true);
                           ("message", JStr "Token refreshed successfully");
                           ("expiry_date", JNum 1705325000000)]
      /\ fst (Database.getClientById Sample.env_up Sample.key
                "7c9e6679-0000-4000-8000-000000000002" w')
         = Return (Some (Database.dataToSave
                           {| access_token := "ya29.b1Fresh";
                              refresh_token := Some "1//0bobRefresh";
                              expiry_date := 1705325000000 |}
                           1705318200003 MoreSamples.bob_stored))
  | (Throw _, _) => False
  end.
Proof. vm_compute. split; reflexivity. Qed.

(** Alice has no refresh token: the provider is asked all the same, and
    its refusal is answered 500 with its message. *)
Example refresh_of_alice :
  fst (refresh Sample.env_up Sample.cfg
         (fun refresh_token =>
            match refresh_token with
            | Some _ => Return {| new_access_token := "ya29.b1Fresh";
                                  new_expiry_date := 1705325000000 |}
            | None => Throw (mkError "No refresh token is set.")
            end)
         (Some "3f0e7c1a-0000-4000-8000-000000000001") MoreSamples.world_two)
  = Return (Json 500 [("error", JStr "Failed to refresh token");
                      ("message", JStr "No refresh token is set.")]).
Proof. vm_compute. reflexivity. Qed.

(** POST /auth/revoke never raises and never writes: whatever it answers,
    the collection is as it was, the account and its stored tokens
    included. It answers 200 only when the provider accepted the
    revocation of the stored access token. *)
Theorem revoke_keeps_the_account env cfg provider (id : option string) w :
  exists response w',
    revoke env cfg provider id w = (Return response, w')
    /\ firestore w' = firestore w
    /\ ((exists old client,
            response = Json 200 [("success", JBool true);
                                 ("message", JStr "Access revoked successfully")]
            /\ firestore w' !! default "" id = Some old
            /\ deciphered env (ENCRYPTION_KEY cfg) old client
            /\ provider (access_token (tokens client)) = Return tt)
        \/ (status_of response = 400 \/ status_of response = 404
            \/ status_of response = 500)%Z).
Proof.
  unfold revoke, try_catch.
  destruct (truthy id); cbn [negb];
    [|eexists _, _; split; [reflexivity|]; split; [reflexivity | right; auto]].
  destruct (Database.getClientById env (ENCRYPTION_KEY cfg) (default "" id) w)
    as [[[client|]|e] w1] eqn:Hget.
  - rewrite (bind_step _ _ _ _ _ Hget).
    pose proof (getClientById_frames _ _ _ _ _ _ Hget) as Hframe.
    destruct (getClientById_found _ _ _ _ _ _ Hget) as (old & Hold & Hread & _).
    destruct (provider (access_token (tokens client))) as [[]|e] eqn:Hprovider.
    + unfold lift. rewrite (bind_step _ _ w1 tt w1) by reflexivity. unfold ret.
      eexists _, _. split; [reflexivity|]. split; [exact Hframe|]. left.
      exists old, client. rewrite Hframe. auto.
    + unfold lift. rewrite (bind_raise _ _ w1 e w1) by reflexivity. unfold ret.
      eexists _, _. split; [reflexivity|]. split; [exact Hframe | right; auto].
  - rewrite (bind_step _ _ _ _ _ Hget). unfold ret.
    eexists _, _. split; [reflexivity|].
    split; [apply (getClientById_frames _ _ _ _ _ _ Hget) | right; auto].
  - rewrite (bind_raise _ _ _ _ _ Hget). unfold ret.
    eexists _, _. split; [reflexivity|].
    split; [apply (getClientById_frames _ _ _ _ _ _ Hget) | right; auto].
Qed.

End AuthRoutesFacts.

(** ** The watch setup endpoint and the mailbox readers *)

Module WatchRouteFacts.
Import WorldFacts.

(** Up to its first use of the provider, a function of gmail-watch.js
    reads the document and calls the import. *)
Lemma before_the_provider {A} env cfg id (k : Client -> M A) w :
  load_order env = AuthFirst ->
  exists e,
    (let! client := Database.getClientById env (ENCRYPTION_KEY cfg) id in
     match client with
     | None => throw (mkError "Client not found")
     | Some client => GmailWatch.getOAuth2Client env ;; k client
     end) w
    = (Throw e, extend w [FirestoreGet id]).
Proof.
  intros Hload.
  assert (exists r, Database.getClientById env (ENCRYPTION_KEY cfg) id w
                    = (r, extend w [FirestoreGet id])) as [r Hget].
  { unfold Database.getClientById, Database.decryptTokens. run. ask_firestore.
    - eexists. reflexivity.
    - destruct (firestore w !! id) as [data|]; [|eexists; reflexivity].
      destruct (Database.decrypt env (ENCRYPTION_KEY cfg) (access_token (tokens data)));
        [|eexists; reflexivity].
      destruct (truthy (refresh_token (tokens data)));
        [destruct (Database.decrypt env (ENCRYPTION_KEY cfg) _)|]; eexists; reflexivity. }
  unfold GmailWatch.getOAuth2Client. rewrite Hload.
  destruct r as [[client|]|e];
    first [rewrite (bind_step _ _ _ _ _ Hget) | rewrite (bind_raise _ _ _ _ _ Hget)];
    eexists; reflexivity.
Qed.

(** The setup, when it returns, stored the subscription the provider
    answered, under the topic named after the id. *)
Lemma setupGmailWatch_returns env cfg id w obj w' :
  GmailWatch.setupGmailWatch env cfg id w = (Return obj, w') ->
  load_order env = GmailWatchFirst
  /\ exists old response renewed updated,
       firestore w !! id = Some old
       /\ firestore w'
          = <[id := Database.watch_fields
                      (Some (GmailWatch.watchData_of response (PUBSUB_TOPIC_PREFIX cfg ++ id)))
                      renewed updated old]> (firestore w)
       /\ obj = [("success", JBool true);
                 ("watchData",
                  JWatch (GmailWatch.watchData_of response (PUBSUB_TOPIC_PREFIX cfg ++ id)));
                 ("message", JStr "Gmail watch set up successfully")].
Proof.
  unfold GmailWatch.setupGmailWatch. intros H.
  apply (SubscriptionFacts.rethrow_Return _ (fun error => error)) in H.
  apply bind_Return in H as ([client|] & wa & Ha & H); [|discriminate].
  apply bind_Return in H as ([] & wi & Hi & H).
  apply SubscriptionFacts.getOAuth2Client_returns in Hi as [Hload ->].
  apply bind_Return in H as (topic & wb & Hb & H).
  apply bind_Return in H as (response & wc & Hc & H).
  apply bind_Return in H as (updated & wd & Hd & H).
  injection H as <- <-. split; [exact Hload|].
  apply DatabaseFacts.updateWatchData_returns in Hd as (old & Hold & Hstore).
  assert (firestore wc = firestore w) as Hframe.
  { rewrite (RenewalFacts.frames_watch _ _ _ _ _ _ Hc).
    assert (frames (GmailWatch.createPubSubTopic env (PUBSUB_TOPIC_PREFIX cfg ++ id)%string))
      as Hframes by (unfold GmailWatch.createPubSubTopic; framing).
    rewrite (Hframes _ _ _ Hb). apply (SubscriptionFacts.frames_getClientById _ _ _ _ _ _ Ha). }
  rewrite Hframe in *. eexists old, response, _, _.
  split; [exact Hold|]. split; [exact Hstore | reflexivity].
Qed.

(** POST /gmail/watch/setup never raises. Without an id it answers 400
    and does nothing. In a process that loaded auth.js first it never
    answers 200: it reads the document, at most, and answers 500, with no
    request to the provider and the collection as it was. When it does
    answer 200, the document holds the subscription the body reports,
    under the topic named after the id. *)
Theorem gmail_watch_setup_outcomes env cfg (id : option string) w :
  exists reply w',
    ServerRoutes.gmail_watch_setup env cfg id w = (Return reply, w')
    /\ (truthy id = false ->
        reply = ReplyJson 400 [("error", Value (JStr "Client ID is required"))] /\ w' = w)
    /\ (truthy id = true -> load_order env = AuthFirst ->
        reply_status reply = 500%Z
        /\ firestore w' = firestore w
        /\ since w w' = [FirestoreGet (default "" id)])
    /\ (reply_status reply = 200%Z ->
        load_order env = GmailWatchFirst
        /\ exists doc subscription,
             firestore w' !! default "" id = Some doc
             /\ watchData doc = Some subscription
             /\ topicName subscription = (PUBSUB_TOPIC_PREFIX cfg ++ default "" id)%string
             /\ reply = ReplyJson 200
                          [("success", Value (JBool true));
                           ("message", Value (JStr "Gmail watch set up successfully"));
                           ("data",
                            Object [("success", JBool true);
                                    ("watchData", JWatch subscription);
                                    ("message", JStr "Gmail watch set up successfully")])]).
Proof.
  unfold ServerRoutes.gmail_watch_setup.
  destruct (truthy id) eqn:Hid; cbn [negb].
  - unfold try_catch at 1.
    destruct (GmailWatch.setupGmailWatch env cfg (default "" id) w) as [[obj|e] w1] eqn:Hsetup.
    + rewrite (bind_step _ _ _ _ _ Hsetup). unfold ret.
      destruct (setupGmailWatch_returns _ _ _ _ _ _ Hsetup)
        as (Hload & old & response & renewed & updated & Hold & Hstore & ->).
      eexists _, _. split; [reflexivity|]. split; [discriminate|].
      split; [intros _ Hauth; congruence|].
      intros _. split; [exact Hload|]. eexists _, _.
      split; [rewrite Hstore; apply lookup_insert_eq|]. split; [reflexivity|].
      split; reflexivity.
    + rewrite (bind_raise _ _ _ _ _ Hsetup). unfold ret.
      eexists _, _. split; [reflexivity|]. split; [discriminate|].
      split; [|discriminate]. intros _ Hload. split; [reflexivity|].
      revert Hsetup. unfold GmailWatch.setupGmailWatch, try_catch.
      destruct (before_the_provider env cfg (default "" id)
                  (fun client =>
                     let topicName := (PUBSUB_TOPIC_PREFIX cfg ++ default "" id)%string in
                     GmailWatch.createPubSubTopic env topicName ;;
                     let! watchResponse :=
                       GmailWatch.watch env (tokens client)
                         (GmailWatch.fullTopicName cfg topicName) in
                     let watchData := GmailWatch.watchData_of watchResponse topicName in
                     Database.updateWatchData env (default "" id) (Some watchData) ;;
                     ret [("success", JBool true);
                          ("watchData", JWatch watchData);
                          ("message", JStr "Gmail watch set up successfully")])
                  w Hload) as [e' He'].
      cbv beta zeta in He'. cbv beta zeta. rewrite He'. unfold throw. intros H. injection H as _ <-.
      split; [reflexivity | apply since_extend].
  - run. eexists _, _. split; [reflexivity|]. split; [auto|].
    split; [discriminate | discriminate].
Qed.

(** [getMessageHistory] and [getMessage] never write. In a process that
    loaded auth.js first they throw before any request to the provider.
    When [getMessageHistory] returns, its [history] is the provider's, or
    the empty list when the answer has none. *)
Theorem mailbox_readers_never_write env cfg list_history get_message id arg w :
  (forall r w', GmailMessages.getMessageHistory env cfg list_history id arg w = (r, w') ->
                firestore w' = firestore w)
  /\ (forall r w', GmailMessages.getMessage env cfg get_message id arg w = (r, w') ->
                   firestore w' = firestore w)
  /\ (load_order env = AuthFirst ->
      (exists e, GmailMessages.getMessageHistory env cfg list_history id arg w
                 = (Throw e, extend w [FirestoreGet id]))
      /\ (exists e, GmailMessages.getMessage env cfg get_message id arg w
                    = (Throw e, extend w [FirestoreGet id])))
  /\ (forall result w',
         GmailMessages.getMessageHistory env cfg list_history id arg w = (Return result, w') ->
         exists client answer,
           fst (Database.getClientById env (ENCRYPTION_KEY cfg) id w) = Return (Some client)
           /\ list_history (tokens client) arg = Return answer
           /\ GmailMessages.history_success result = true
           /\ GmailMessages.history_list result
              = match GmailMessages.data_history answer with
                | Some history => history
                | None => []
                end
           /\ GmailMessages.history_id result = GmailMessages.data_historyId answer).
Proof.
  assert (forall A (m : M A), frames m -> frames (GmailWatch.getOAuth2Client env ;; m))
    as Himport.
  { intros A m Hm. apply frames_bind; [|intros _; exact Hm].
    unfold GmailWatch.getOAuth2Client. destruct (load_order env); framing. }
  split; [|split; [|split]].
  - apply frames_try_catch; [|intros e; framing].
    apply frames_bind; [apply SubscriptionFacts.frames_getClientById|].
    intros [client|]; [apply Himport|]; framing.
  - apply frames_try_catch; [|intros e; framing].
    apply frames_bind; [apply SubscriptionFacts.frames_getClientById|].
    intros [client|]; [apply Himport|]; framing.
  - intros Hload. unfold GmailMessages.getMessageHistory, GmailMessages.getMessage, try_catch.
    split.
    + destruct (before_the_provider env cfg id
                  (fun client =>
                     let! response := lift (list_history (tokens client) arg) in
                     ret {| GmailMessages.history_success := true;
                            GmailMessages.history_list :=
                              default [] (GmailMessages.data_history response);
                            GmailMessages.history_id :=
                              GmailMessages.data_historyId response |})
                  w Hload) as [e He].
      rewrite He. eexists. reflexivity.
    + destruct (before_the_provider env cfg id
                  (fun client =>
                     let! response := lift (get_message (tokens client) arg) in
                     ret (true, response))
                  w Hload) as [e He].
      rewrite He. eexists. reflexivity.
  - intros result w'. unfold GmailMessages.getMessageHistory. intros H.
    apply (SubscriptionFacts.rethrow_Return _ (fun error => error)) in H.
    apply bind_Return in H as ([client|] & wa & Ha & H); [|discriminate].
    apply bind_Return in H as ([] & wi & Hi & H).
    apply bind_Return in H as (answer & wb & Hb & H).
    injection H as <- _. exists client, answer. rewrite Ha.
    split; [reflexivity|].
    unfold lift in Hb. injection Hb as Hb _.
    split; [exact Hb|]. split; [reflexivity|].
    split; [|reflexivity]. cbn [GmailMessages.history_list].
    destruct (GmailMessages.data_history answer); reflexivity.
Qed.

End WatchRouteFacts.

(** ** The batch of the Cloud Function (functions/watch-renewal.js) *)

Module SchedulerFacts.
Import Scheduler WorldFacts.

Lemma watch_credentials_app h1 h2 :
  watch_credentials (h1 ++ h2) = watch_credentials h1 ++ watch_credentials h2.
Proof.
  induction h1 as [|e h1 IH]; [reflexivity|].
  destruct e; simpl; rewrite ?IH; reflexivity.
Qed.

Lemma watched_with_refl held w : watched_with held w w.
Proof. exists []. split; [rewrite app_nil_r; reflexivity | constructor]. Qed.

Lemma watched_with_trans held w1 w2 w3 :
  watched_with held w1 w2 -> watched_with held w2 w3 -> watched_with held w1 w3.
Proof.
  intros (n1 & H1 & F1) (n2 & H2 & F2). exists (n1 ++ n2).
  split; [rewrite H2, H1, app_assoc; reflexivity|].
  rewrite watch_credentials_app. apply List.Forall_app. split; assumption.
Qed.

(** Growth by requests that are none to [gmail.users.watch]. *)
Lemma watched_with_other held w w' new :
  history w' = history w ++ new -> watch_credentials new = [] -> watched_with held w w'.
Proof. intros H Hnone. exists new. split; [exact H|]. rewrite Hnone. constructor. Qed.

Ltac grown :=
  eapply watched_with_other;
  [cbn [history record_effect extend]; rewrite <- ?app_assoc; reflexivity | reflexivity].

(** [decryptTokens] of the Cloud Function reads no world and leaves none
    changed. *)
Lemma tokens_read_or_refused env key t :
  exists c, forall w, WatchRenewal.decryptTokens env key t w = (c, w).
Proof.
  unfold WatchRenewal.decryptTokens. WorldFacts.run.
  destruct (WatchRenewal.decrypt env key (access_token t)); [|eexists; reflexivity].
  destruct (truthy (refresh_token t));
    [destruct (WatchRenewal.decrypt env key _)|]; eexists; reflexivity.
Qed.

(** A renewal starts: it never raises, sends no request to
    [gmail.users.watch], writes nothing, and leaves its tokens with the
    OAuth client when it could read them. *)
Lemma start_step env cfg held client w :
  exists stage held' w',
    start env cfg held client w = (Return (stage, held'), w')
    /\ watched_with held' w w'
    /\ firestore w' = firestore w
    /\ deliveries (since w w') = 0%nat
    /\ reports {| renewal_client := client; renewal_stage := stage |}
    /\ (forall t, (forall w0, WatchRenewal.decryptTokens env (ENCRYPTION_KEY cfg)
                                (tokens client) w0 = (Return t, w0)) ->
                  held' = t /\ exists answer, stage = AwaitExists answer)
    /\ (forall e, (forall w0, WatchRenewal.decryptTokens env (ENCRYPTION_KEY cfg)
                                (tokens client) w0 = (Throw e, w0)) ->
                  held' = held).
Proof.
  destruct (tokens_read_or_refused env (ENCRYPTION_KEY cfg) (tokens client)) as [[t|e] Hread].
  - unfold start, try_catch, bind, ask, ret. rewrite Hread.
    eexists _, _, _. split; [reflexivity|]. split; [grown|]. split; [reflexivity|].
    split; [rewrite record_effect_extend, since_extend; reflexivity|].
    split; [exact I|]. split.
    + intros t' Ht'. specialize (Ht' w). rewrite Hread in Ht'. injection Ht' as <-.
      split; [reflexivity | eexists; reflexivity].
    + intros e' He'. specialize (He' w). rewrite Hread in He'. discriminate.
  - unfold start, try_catch, bind, failed, new_Date, call, ret. rewrite Hread.
    unfold bind. eexists _, _, _. split; [reflexivity|]. split; [grown|].
    split; [reflexivity|].
    split; [rewrite record_effect_extend, since_extend; reflexivity|].
    split; [split; [reflexivity | eexists; reflexivity]|]. split.
    + intros t' Ht'. specialize (Ht' w). rewrite Hread in Ht'. discriminate.
    + reflexivity.
Qed.

(** A renewal moves on: it never raises, whatever request it sends to
    [gmail.users.watch] goes out with what the OAuth client holds, it
    posts nothing, and it has fewer answers left to wait for, unless it had
    its result already, which it keeps. *)
Lemma resume_step env cfg held r w :
  reports r ->
  exists stage w',
    resume env cfg held r w = (Return stage, w')
    /\ watched_with held w w'
    /\ deliveries (since w w') = 0%nat
    /\ reports {| renewal_client := renewal_client r; renewal_stage := stage |}
    /\ ((answers_left stage < answers_left (renewal_stage r))%nat
        \/ (stage = renewal_stage r /\ w' = w /\ answers_left stage = 0%nat)).
Proof.
  intros Hreports.
  assert (since w w = []) as Hsame by (rewrite <- (extend_nil w) at 2; apply since_extend).
  assert (forall e, exists stage w',
             failed env (renewal_client r) e w = (Return stage, w')
             /\ watched_with held w w'
             /\ deliveries (since w w') = 0%nat
             /\ reports {| renewal_client := renewal_client r; renewal_stage := stage |}
             /\ answers_left stage = 0%nat) as Hfailed.
  { intros e. unfold failed. WorldFacts.run. eexists _, _. split; [reflexivity|].
    split; [grown|]. split; [rewrite record_effect_extend, since_extend; reflexivity|].
    split; [split; [reflexivity | eexists; reflexivity] | reflexivity]. }
  assert (exists stage w',
             request_watch env cfg held (renewal_client r) w = (Return stage, w')
             /\ watched_with held w w'
             /\ deliveries (since w w') = 0%nat
             /\ reports {| renewal_client := renewal_client r; renewal_stage := stage |}
             /\ answers_left stage = 2%nat) as Hwatch.
  { unfold request_watch, ask. WorldFacts.run. eexists _, _. split; [reflexivity|]. split.
    - eexists. split; [reflexivity|]. repeat constructor.
    - split; [rewrite record_effect_extend, since_extend; reflexivity|].
      split; [exact I | reflexivity]. }
  unfold resume. destruct r as [client stage]. cbn [renewal_client renewal_stage] in *.
  destruct stage as [[exists_|e]|[[]|e]|[response|e]|response [[]|e]|result].
  - destruct exists_; cbn [negb].
    + destruct Hwatch as (stage & w' & Hrun & Hgrow & Hquiet & Hrep & Hleft).
      exists stage, w'. rewrite Hleft. cbn. auto 8 with lia.
    + unfold ask. WorldFacts.run. eexists _, _. split; [reflexivity|]. split; [grown|].
      split; [rewrite record_effect_extend, since_extend; reflexivity|].
      split; [exact I|]. left. cbn. lia.
  - destruct (Hfailed e) as (stage & w' & Hrun & Hgrow & Hquiet & Hrep & Hleft).
    exists stage, w'. rewrite Hleft. cbn. auto 8 with lia.
  - destruct Hwatch as (stage & w' & Hrun & Hgrow & Hquiet & Hrep & Hleft).
    exists stage, w'. rewrite Hleft. cbn. auto 8 with lia.
  - destruct (Hfailed e) as (stage & w' & Hrun & Hgrow & Hquiet & Hrep & Hleft).
    exists stage, w'. rewrite Hleft. cbn. auto 8 with lia.
  - unfold request_update, settle. WorldFacts.run.
    destruct (firestore_down env _);
      [|destruct (firestore w !! clientId client)];
      (eexists _, _; split; [reflexivity|]; split; [grown|];
       split; [erewrite HandshakeFacts.since_history
                 by (cbn [history record_effect extend]; rewrite <- ?app_assoc; reflexivity);
               reflexivity|];
       split; [exact I|]; left; cbn; lia).
  - destruct (Hfailed e) as (stage & w' & Hrun & Hgrow & Hquiet & Hrep & Hleft).
    exists stage, w'. rewrite Hleft. cbn. auto 8 with lia.
  - WorldFacts.run. eexists _, _. split; [reflexivity|]. split; [grown|].
    split; [rewrite record_effect_extend, since_extend; reflexivity|].
    split; [split; [reflexivity | eexists; reflexivity]|]. left. cbn. lia.
  - destruct (Hfailed e) as (stage & w' & Hrun & Hgrow & Hquiet & Hrep & Hleft).
    exists stage, w'. rewrite Hleft. cbn. auto 8 with lia.
  - WorldFacts.run. eexists _, _. split; [reflexivity|].
    split; [apply watched_with_refl|]. split; [rewrite Hsame; reflexivity|].
    split; [exact Hreports|]. right. auto.
Qed.

Lemma silent_refl w : silent w w.
Proof. exists []. split; [rewrite app_nil_r; reflexivity | reflexivity]. Qed.

Lemma silent_trans w1 w2 w3 : silent w1 w2 -> silent w2 w3 -> silent w1 w3.
Proof.
  intros (n1 & H1 & D1) (n2 & H2 & D2). exists (n1 ++ n2).
  split; [rewrite H2, H1, app_assoc; reflexivity|].
  rewrite WebhookFacts.deliveries_app, D1, D2. reflexivity.
Qed.

Lemma silent_since held w w' :
  watched_with held w w' -> deliveries (since w w') = 0%nat -> silent w w'.
Proof.
  intros (new & Hnew & _) Hquiet. exists new. split; [exact Hnew|].
  rewrite (HandshakeFacts.since_history _ _ _ Hnew) in Hquiet. exact Hquiet.
Qed.

Lemma watched_with_nothing held held' w w' :
  watched_with held w w' -> watch_credentials (since w w') = [] -> watched_with held' w w'.
Proof.
  intros (new & Hnew & _) Hnone. exists new. split; [exact Hnew|].
  rewrite (HandshakeFacts.since_history _ _ _ Hnew) in Hnone. rewrite Hnone. constructor.
Qed.

(** A renewal that starts sends no request to [gmail.users.watch]. *)
Lemma start_watches_nothing env cfg held client w stage held' w' :
  start env cfg held client w = (Return (stage, held'), w') ->
  watch_credentials (since w w') = [].
Proof.
  destruct (tokens_read_or_refused env (ENCRYPTION_KEY cfg) (tokens client)) as [[t|e] Hread];
    unfold start, try_catch, bind, ask, failed, new_Date, call, ret; rewrite Hread;
    unfold bind; intros H; injection H as _ _ <-;
    rewrite record_effect_extend, since_extend; reflexivity.
Qed.

(** One more renewal started. *)
Lemma start_all_cons env cfg client docs p :
  exists stage held w',
    start env cfg (credentials p) client (world p) = (Return (stage, held), w')
    /\ start_all env cfg (client :: docs) p
       = start_all env cfg docs
           {| world := w'; credentials := held;
              renewals := renewals p ++ [{| renewal_client := client;
                                            renewal_stage := stage |}] |}.
Proof.
  destruct (start_step env cfg (credentials p) client (world p))
    as (stage & held & w' & Hrun & _).
  exists stage, held, w'. split; [exact Hrun|]. cbn [start_all]. rewrite Hrun. reflexivity.
Qed.

Lemma start_all_app env cfg docs1 docs2 : forall p,
  start_all env cfg (docs1 ++ docs2) p = start_all env cfg docs2 (start_all env cfg docs1 p).
Proof.
  induction docs1 as [|client docs1 IH]; intros p; [reflexivity|].
  rewrite <- app_comm_cons.
  destruct (start_all_cons env cfg client (docs1 ++ docs2) p) as (stage & held & w' & Hrun & ->).
  destruct (start_all_cons env cfg client docs1 p) as (stage' & held' & w'' & Hrun' & ->).
  rewrite Hrun in Hrun'. injection Hrun' as <- <- <-. apply IH.
Qed.

(** Once all renewals have started: there is one for each document, in
    order; nothing was written, posted or sent to [gmail.users.watch]. *)
Lemma start_all_spec env cfg docs : forall p,
  Forall reports (renewals p) ->
  let p' := start_all env cfg docs p in
  renewal_client <$> renewals p' = (renewal_client <$> renewals p) ++ docs
  /\ Forall reports (renewals p')
  /\ firestore (world p') = firestore (world p)
  /\ silent (world p) (world p')
  /\ (forall held, watched_with held (world p) (world p')).
Proof.
  induction docs as [|client docs IH]; intros p Hreports.
  - cbn. rewrite app_nil_r. split; [reflexivity|]. split; [exact Hreports|].
    split; [reflexivity|]. split; [apply silent_refl | intros held; apply watched_with_refl].
  - destruct (start_all_cons env cfg client docs p) as (stage & held & w' & Hrun & Heq).
    cbv zeta. rewrite Heq.
    destruct (start_step env cfg (credentials p) client (world p))
      as (stage' & held' & w'' & Hrun' & Hgrow & Hstore & Hquiet & Hrep & _).
    rewrite Hrun in Hrun'. injection Hrun' as <- <- <-.
    destruct (IH {| world := w'; credentials := held;
                    renewals := renewals p ++ [{| renewal_client := client;
                                                  renewal_stage := stage |}] |})
      as (Hclients & Hreports' & Hstore' & Hsilent & Hwatched).
    { cbn [renewals]. apply Forall_app. split; [exact Hreports|].
      constructor; [exact Hrep | constructor]. }
    cbn [renewals world] in *. split.
    { rewrite Hclients, fmap_app, <- app_assoc. reflexivity. }
    split; [exact Hreports'|]. split; [rewrite Hstore'; exact Hstore|].
    split; [apply (silent_trans _ w'); [apply (silent_since held); assumption | exact Hsilent]|].
    intros held0. apply (watched_with_trans _ _ w'); [|apply Hwatched].
    apply (watched_with_nothing held); [exact Hgrow|].
    apply (start_watches_nothing _ _ _ _ _ _ _ _ Hrun).
Qed.

(** The OAuth client is left with the tokens of the last document, when
    they can be read. *)
Lemma start_all_last env cfg docs last t p :
  (forall w0, WatchRenewal.decryptTokens env (ENCRYPTION_KEY cfg) (tokens last) w0
              = (Return t, w0)) ->
  credentials (start_all env cfg (docs ++ [last]) p) = t.
Proof.
  intros Hread. rewrite start_all_app.
  destruct (start_all_cons env cfg last [] (start_all env cfg docs p))
    as (stage & held & w' & Hrun & ->).
  cbn [start_all credentials].
  destruct (start_step env cfg (credentials (start_all env cfg docs p)) last
              (world (start_all env cfg docs p)))
    as (stage' & held' & w'' & Hrun' & _ & _ & _ & _ & Hgood & _).
  rewrite Hrun in Hrun'. injection Hrun' as _ <- _.
  apply (Hgood t Hread).
Qed.

(** One answer arrives. *)
Lemma deliver_spec env cfg i p :
  Forall reports (renewals p) ->
  let p' := deliver env cfg i p in
  credentials p' = credentials p
  /\ renewal_client <$> renewals p' = renewal_client <$> renewals p
  /\ Forall reports (renewals p')
  /\ watched_with (credentials p) (world p) (world p')
  /\ silent (world p) (world p')
  /\ forall j r,
       renewals p !! j = Some r ->
       exists r',
         renewals p' !! j = Some r'
         /\ (answers_left (renewal_stage r')
             <= answers_left (renewal_stage r) - (if decide (i = j) then 1 else 0))%nat.
Proof.
  intros Hreports. unfold deliver.
  destruct (renewals p !! i) as [r|] eqn:Hi.
  2: { cbv zeta. split; [reflexivity|]. split; [reflexivity|]. split; [exact Hreports|].
       split; [apply watched_with_refl|]. split; [apply silent_refl|].
       intros j r Hj. exists r. split; [exact Hj|].
       destruct (decide (i = j)) as [->|]; [congruence | lia]. }
  assert (reports r) as Hr.
  { apply (proj1 (List.Forall_forall _ _) Hreports). apply list_elem_of_In.
    apply (list_elem_of_lookup_2 _ _ _ Hi). }
  destruct (resume_step env cfg (credentials p) r (world p) Hr)
    as (stage & w' & Hrun & Hgrow & Hquiet & Hrep & Hleft).
  rewrite Hrun. cbv zeta. cbn [credentials renewals world].
  split; [reflexivity|]. split.
  { rewrite list_fmap_insert. cbn [renewal_client]. apply list_insert_id.
    rewrite list_lookup_fmap, Hi. reflexivity. }
  split; [apply Forall_insert; assumption|]. split; [exact Hgrow|].
  split; [apply (silent_since _ _ _ Hgrow Hquiet)|].
  intros j r0 Hj. destruct (decide (i = j)) as [<-|Hne].
  - rewrite Hi in Hj. injection Hj as <-.
    eexists. split; [apply list_lookup_insert_eq, (lookup_lt_Some _ _ _ Hi)|].
    cbn [renewal_stage]. destruct Hleft as [Hless|(-> & _ & Hzero)]; lia.
  - exists r0. split; [rewrite list_lookup_insert_ne by exact Hne; exact Hj | lia].
Qed.

(** Answers arrive, in whatever order. *)
Lemma run_spec env cfg schedule : forall p,
  Forall reports (renewals p) ->
  let p' := run env cfg schedule p in
  credentials p' = credentials p
  /\ renewal_client <$> renewals p' = renewal_client <$> renewals p
  /\ Forall reports (renewals p')
  /\ watched_with (credentials p) (world p) (world p')
  /\ silent (world p) (world p')
  /\ forall j r,
       renewals p !! j = Some r ->
       exists r',
         renewals p' !! j = Some r'
         /\ (answers_left (renewal_stage r')
             <= answers_left (renewal_stage r) - count_occ Nat.eq_dec schedule j)%nat.
Proof.
  induction schedule as [|i schedule IH]; intros p Hreports.
  - cbn. split; [reflexivity|]. split; [reflexivity|]. split; [exact Hreports|].
    split; [apply watched_with_refl|]. split; [apply silent_refl|].
    intros j r Hj. exists r. split; [exact Hj | lia].
  - destruct (deliver_spec env cfg i p Hreports)
      as (Hheld & Hclients & Hreports' & Hgrow & Hsilent & Hleft).
    destruct (IH (deliver env cfg i p) Hreports')
      as (Hheld' & Hclients' & Hreports'' & Hgrow' & Hsilent' & Hleft').
    cbv zeta in *. unfold run in *. cbn [fold_left].
    split; [congruence|]. split; [congruence|]. split; [exact Hreports''|].
    split; [apply (watched_with_trans _ _ _ _ Hgrow); rewrite <- Hheld; exact Hgrow'|].
    split; [apply (silent_trans _ _ _ Hsilent Hsilent')|].
    intros j r Hj. destruct (Hleft j r Hj) as (r1 & Hj1 & Hle1).
    destruct (Hleft' j r1 Hj1) as (r2 & Hj2 & Hle2).
    exists r2. split; [exact Hj2|]. cbn [count_occ].
    destruct (Nat.eq_dec i j) as [->|Hne].
    + destruct (decide (j = j)); [lia | congruence].
    + destruct (decide (i = j)); [congruence | lia].
Qed.

(** The results of renewals that all have one. *)
Lemma results_settled rs :
  (forall j r, rs !! j = Some r -> answers_left (renewal_stage r) = 0%nat) ->
  exists l, results rs = Some l.
Proof.
  induction rs as [|r rs IH]; intros Hall; [exists []; reflexivity|].
  destruct IH as [l Hl]; [intros j r' Hj; apply (Hall (S j) r' Hj)|].
  pose proof (Hall 0%nat r eq_refl) as Hr. cbn [results]. rewrite Hl.
  destruct (renewal_stage r); try discriminate. eexists. reflexivity.
Qed.

Lemma results_report rs : forall l,
  results rs = Some l ->
  Forall reports rs ->
  Forall2 (fun client result =>
             get "clientId" result = Some (JStr (clientId client))
             /\ exists b, get "success" result = Some (JBool b))
    (renewal_client <$> rs) l.
Proof.
  induction rs as [|r rs IH]; intros l Hl Hreports.
  - injection Hl as <-. constructor.
  - cbn [results] in Hl. inversion Hreports as [|? ? Hr Hrs]; subst.
    destruct (renewal_stage r) as [| | | |result] eqn:Hstage; try discriminate.
    destruct (results rs) as [l'|]; [|discriminate]. injection Hl as <-.
    cbn [fmap list_fmap]. constructor; [|apply IH; [reflexivity | exact Hrs]].
    unfold reports in Hr. rewrite Hstage in Hr. exact Hr.
Qed.

(** The query of the batch: the clock is read, then the snapshot taken. *)
Lemma snapshot_query env order later rejected w :
  (let! now := new_Date env in
   Store.query order rejected (Store.expires_by (later now 48%Z))) w
  = (match rejected with
     | Some error => Throw error
     | None => Return (expiring env order later w)
     end, record_effect DateNow w).
Proof.
  unfold expiring, documents, Store.query, Store.request.
  destruct rejected; WorldFacts.run; reflexivity.
Qed.

(** The notifier of the batch never raises; it posts once at most, writes
    nothing and asks the mail provider nothing. *)
Lemma sendRenewalWebhook_step env url results w :
  exists w' new,
    WatchRenewal.sendRenewalWebhook env url results w = (Return tt, w')
    /\ firestore w' = firestore w
    /\ history w' = history w ++ new
    /\ (deliveries new <= 1)%nat
    /\ watch_credentials new = [].
Proof.
  unfold WatchRenewal.sendRenewalWebhook. destruct (truthy url); cbn [negb].
  - WorldFacts.run. destruct (axios_post env _ _ _);
      (eexists _, [DateNow; AxiosPost _ _]; split; [reflexivity|]; split; [reflexivity|];
       split; [cbn [history record_effect]; rewrite <- ?app_assoc; reflexivity|];
       split; [simpl; lia | reflexivity]).
  - exists w, []. split; [reflexivity|]. split; [reflexivity|].
    split; [rewrite app_nil_r; reflexivity|]. split; [simpl; lia | reflexivity].
Qed.

(** The batch over a snapshot that is not empty. *)
Lemma batch_process env cfg order later held schedule w client docs :
  expiring env order later w = client :: docs ->
  renewGmailWatches env cfg None order later held schedule w
  = match results (renewals (run env cfg schedule
                               (start_all env cfg (client :: docs)
                                  {| world := record_effect DateNow w;
                                     credentials := held; renewals := [] |}))) with
    | Some results =>
        match WatchRenewal.sendRenewalWebhook env (N8N_RENEWAL_WEBHOOK_URL cfg) results
                (world (run env cfg schedule
                          (start_all env cfg (client :: docs)
                             {| world := record_effect DateNow w;
                                credentials := held; renewals := [] |}))) with
        | (Return _, w2) =>
            Some (Return (Processed (length results)
                            (length (List.filter WatchRenewal.success results))
                            (length (List.filter (fun r => negb (WatchRenewal.success r))
                                       results))
                            results), w2)
        | (Throw error, w2) => Some (Throw error, w2)
        end
    | None => None
    end.
Proof.
  intros Hdocs. unfold renewGmailWatches. rewrite snapshot_query, Hdocs. reflexivity.
Qed.

Lemma batch_idle env cfg order later held schedule w :
  expiring env order later w = [] ->
  renewGmailWatches env cfg None order later held schedule w
  = Some (Return NothingToRenew, record_effect DateNow w).
Proof.
  intros Hdocs. unfold renewGmailWatches. rewrite snapshot_query, Hdocs. reflexivity.
Qed.

Lemma batch_rejected env cfg error order later held schedule w :
  renewGmailWatches env cfg (Some error) order later held schedule w
  = Some (Throw error, record_effect DateNow w).
Proof. unfold renewGmailWatches. rewrite snapshot_query. reflexivity. Qed.

Lemma answers_left_bound stage : (answers_left stage <= 4)%nat.
Proof. destruct stage; simpl; lia. Qed.

(** The process once the renewals of [docs] have started and the answers
    of [schedule] have arrived. *)
Lemma batch_invariants env cfg held schedule docs w :
  let p1 := start_all env cfg docs {| world := w; credentials := held; renewals := [] |} in
  let p := run env cfg schedule p1 in
  renewal_client <$> renewals p = docs
  /\ Forall reports (renewals p)
  /\ silent w (world p)
  /\ watched_with (credentials p1) w (world p)
  /\ (forall j r, renewals p !! j = Some r ->
                  (answers_left (renewal_stage r) <= 4 - count_occ Nat.eq_dec schedule j)%nat).
Proof.
  intros p1 p.
  destruct (start_all_spec env cfg docs {| world := w; credentials := held; renewals := [] |})
    as (Hclients & Hreports & _ & Hsilent & Hwatched); [constructor|].
  fold p1 in Hclients, Hreports, Hsilent, Hwatched. cbn [renewals world fmap list_fmap] in *.
  destruct (run_spec env cfg schedule p1 Hreports)
    as (_ & Hclients' & Hreports' & Hwatched' & Hsilent' & Hleft).
  fold p in Hclients', Hreports', Hwatched', Hsilent', Hleft.
  split; [rewrite Hclients'; exact Hclients|]. split; [exact Hreports'|].
  split; [apply (silent_trans _ _ _ Hsilent Hsilent')|].
  split; [apply (watched_with_trans _ _ _ _ (Hwatched _) Hwatched')|].
  intros j r Hj.
  assert (length (renewals p) = length (renewals p1)) as Hlen.
  { rewrite <- (length_fmap renewal_client (renewals p)), Hclients', length_fmap.
    reflexivity. }
  destruct (renewals p1 !! j) as [r1|] eqn:Hj1.
  - destruct (Hleft j r1 Hj1) as (r' & Hj' & Hle). rewrite Hj in Hj'. injection Hj' as <-.
    pose proof (answers_left_bound (renewal_stage r1)). lia.
  - apply lookup_ge_None in Hj1. apply lookup_lt_Some in Hj. lia.
Qed.

Lemma subscriptions_apart_same w w' : firestore w' = firestore w -> subscriptions_apart w w'.
Proof.
  intros Hsame id. rewrite Hsame. destruct (firestore w !! id); constructor. repeat split.
Qed.

Lemma subscriptions_apart_trans w1 w2 w3 :
  subscriptions_apart w1 w2 -> subscriptions_apart w2 w3 -> subscriptions_apart w1 w3.
Proof.
  intros H12 H23 id. specialize (H12 id). specialize (H23 id).
  destruct H12 as [a b Hab|]; inversion H23 as [? c Hbc|]; subst; constructor.
  unfold same_but_subscription in *. intuition congruence.
Qed.

(** A renewal that moves on writes nothing, or the subscription of its own
    document. *)
Lemma resume_store env cfg held r w c w' :
  resume env cfg held r w = (c, w') ->
  subscriptions_apart w w'
  /\ forall id, id <> clientId (renewal_client r) -> firestore w' !! id = firestore w !! id.
Proof.
  assert (forall w0, firestore w0 = firestore w ->
            subscriptions_apart w w0
            /\ forall id, id <> clientId (renewal_client r) ->
                          firestore w0 !! id = firestore w !! id) as Hsame.
  { intros w0 H0. split; [apply subscriptions_apart_same, H0 | intros; rewrite H0; reflexivity]. }
  unfold resume. destruct r as [client stage]. cbn [renewal_client renewal_stage] in *.
  destruct stage as [[exists_|e]|[[]|e]|[response|e]|response [[]|e]|result];
    try destruct exists_; cbn [negb];
    unfold request_watch, request_update, failed, ask, settle; WorldFacts.run;
    try (intros H; injection H as _ <-; apply Hsame; reflexivity).
  destruct (firestore_down env _);
    [intros H; injection H as _ <-; apply Hsame; reflexivity|].
  destruct (firestore w !! clientId client) as [old|] eqn:Hold;
    [|intros H; injection H as _ <-; apply Hsame; reflexivity].
  intros H. injection H as _ <-. split.
  - intros id. cbn [firestore]. destruct (decide (id = clientId client)) as [->|Hne].
    + rewrite lookup_insert_eq, Hold. constructor.
      apply RenewalFrameFacts.same_but_subscription_watch_fields.
    + rewrite lookup_insert_ne by congruence.
      destruct (firestore w !! id); constructor. repeat split.
  - intros id Hne. cbn [firestore]. rewrite lookup_insert_ne by congruence. reflexivity.
Qed.

Lemma run_store env cfg schedule : forall p,
  Forall reports (renewals p) ->
  subscriptions_apart (world p) (world (run env cfg schedule p))
  /\ forall id, ~ In id (map clientId (renewal_client <$> renewals p)) ->
                firestore (world (run env cfg schedule p)) !! id = firestore (world p) !! id.
Proof.
  induction schedule as [|i schedule IH]; intros p Hreports.
  - split; [apply subscriptions_apart_same; reflexivity | reflexivity].
  - destruct (deliver_spec env cfg i p Hreports) as (_ & Hclients & Hreports' & _).
    destruct (IH (deliver env cfg i p) Hreports') as (Hapart & Hrest).
    unfold run in *. cbn [fold_left].
    assert (subscriptions_apart (world p) (world (deliver env cfg i p))
            /\ forall id, ~ In id (map clientId (renewal_client <$> renewals p)) ->
                          firestore (world (deliver env cfg i p)) !! id
                          = firestore (world p) !! id) as [Hstep Hstay].
    { unfold deliver. destruct (renewals p !! i) as [r|] eqn:Hi;
        [|split; [apply subscriptions_apart_same; reflexivity | reflexivity]].
      destruct (resume env cfg (credentials p) r (world p)) as [[stage|e] w'] eqn:Hrun;
        [|split; [apply subscriptions_apart_same; reflexivity | reflexivity]].
      cbn [world]. destruct (resume_store _ _ _ _ _ _ _ Hrun) as (Hstep & Hstay).
      split; [exact Hstep|]. intros id Hid. apply Hstay. intros ->. apply Hid.
      apply in_map, list_elem_of_In, list_elem_of_fmap_2, (list_elem_of_lookup_2 _ _ _ Hi). }
    split; [apply (subscriptions_apart_trans _ _ _ Hstep Hapart)|].
    intros id Hid. rewrite Hrest by (rewrite Hclients; exact Hid). apply Hstay, Hid.
Qed.

(** What the renewals of a batch over [docs] do to the collection. *)
Lemma batch_store env cfg held schedule docs w :
  let p := run env cfg schedule
             (start_all env cfg docs {| world := w; credentials := held; renewals := [] |}) in
  subscriptions_apart w (world p)
  /\ forall id, ~ In id (map clientId docs) -> firestore (world p) !! id = firestore w !! id.
Proof.
  destruct (start_all_spec env cfg docs {| world := w; credentials := held; renewals := [] |})
    as (Hclients & Hreports & Hstore & _); [constructor|].
  cbn [renewals world fmap list_fmap app] in *.
  destruct (run_store env cfg schedule _ Hreports) as (Hapart & Hrest).
  cbv zeta. split.
  - apply (subscriptions_apart_trans _ _ _ (subscriptions_apart_same _ _ Hstore) Hapart).
  - intros id Hid. rewrite Hrest by (rewrite Hclients; exact Hid). rewrite Hstore. reflexivity.
Qed.

(** How a batch that came back went. *)
Lemma batch_outcome env cfg rejected order later held schedule w c w' :
  renewGmailWatches env cfg rejected order later held schedule w = Some (c, w') ->
  (exists error, rejected = Some error /\ c = Throw error /\ w' = record_effect DateNow w)
  \/ (rejected = None /\ expiring env order later w = []
      /\ c = Return NothingToRenew /\ w' = record_effect DateNow w)
  \/ (rejected = None /\ expiring env order later w <> []
      /\ exists l new,
           results (renewals (run env cfg schedule
                                (start_all env cfg (expiring env order later w)
                                   {| world := record_effect DateNow w;
                                      credentials := held; renewals := [] |}))) = Some l
           /\ c = Return (Processed (length l)
                            (length (List.filter WatchRenewal.success l))
                            (length (List.filter (fun r => negb (WatchRenewal.success r)) l))
                            l)
           /\ firestore w'
              = firestore (world (run env cfg schedule
                                    (start_all env cfg (expiring env order later w)
                                       {| world := record_effect DateNow w;
                                          credentials := held; renewals := [] |})))
           /\ history w'
              = history (world (run env cfg schedule
                                  (start_all env cfg (expiring env order later w)
                                     {| world := record_effect DateNow w;
                                        credentials := held; renewals := [] |}))) ++ new
           /\ (deliveries new <= 1)%nat
           /\ watch_credentials new = []).
Proof.
  destruct rejected as [error|].
  - rewrite batch_rejected. intros H. injection H as <- <-. left. eauto.
  - destruct (expiring env order later w) as [|client docs] eqn:Hdocs.
    + rewrite batch_idle by exact Hdocs. intros H. injection H as <- <-. right. left. auto.
    + rewrite (batch_process _ _ _ _ _ _ _ _ _ Hdocs).
      destruct (results _) as [l|] eqn:Hl; [|discriminate].
      destruct (sendRenewalWebhook_step env (N8N_RENEWAL_WEBHOOK_URL cfg) l
                  (world (run env cfg schedule
                            (start_all env cfg (client :: docs)
                               {| world := record_effect DateNow w;
                                  credentials := held; renewals := [] |}))))
        as (w2 & new & -> & Hstore & Hhist & Hdel & Hnone).
      intros H. injection H as <- <-. right. right.
      split; [reflexivity|]. split; [discriminate|]. exists l, new. auto 8.
Qed.

(** Once every renewal has had four answers the batch is over, whatever
    the order they arrived in: it reports nothing to renew when the
    snapshot is empty, and otherwise one result for each document of the
    snapshot, in the order of the snapshot, each with the [clientId] of its
    document and a [success] flag; the two counts add up to the number of
    documents. No failure of a renewal or of the receiver makes the batch
    fail, and the receiver is posted to once at most. *)
Theorem batch_reports_every_renewal env cfg order later held schedule w :
  (forall j, (j < length (expiring env order later w))%nat ->
             (4 <= count_occ Nat.eq_dec schedule j)%nat) ->
  exists summary w',
    renewGmailWatches env cfg None order later held schedule w = Some (Return summary, w')
    /\ (deliveries (since w w') <= 1)%nat
    /\ match summary with
       | NothingToRenew =>
           expiring env order later w = [] /\ since w w' = [DateNow]
       | Processed totalProcessed successful failed results =>
           expiring env order later w <> []
           /\ totalProcessed = length (expiring env order later w)
           /\ (successful + failed)%nat = totalProcessed
           /\ Forall2 (fun client result =>
                         get "clientId" result = Some (JStr (clientId client))
                         /\ exists b, get "success" result = Some (JBool b))
                (expiring env order later w) results
       end.
Proof.
  intros Hcomplete. destruct (expiring env order later w) as [|client docs] eqn:Hdocs.
  - exists NothingToRenew, (record_effect DateNow w).
    rewrite batch_idle by exact Hdocs. rewrite record_effect_extend, since_extend.
    split; [reflexivity|]. split; [simpl; lia | split; reflexivity].
  - rewrite (batch_process _ _ _ _ _ _ _ _ _ Hdocs).
    destruct (batch_invariants env cfg held schedule (client :: docs)
                (record_effect DateNow w))
      as (Hclients & Hreports & (newp & Hnewp & Hquiet) & _ & Hleft).
    cbv zeta in Hclients, Hreports, Hnewp, Hleft.
    destruct (results_settled
                (renewals (run env cfg schedule
                             (start_all env cfg (client :: docs)
                                {| world := record_effect DateNow w;
                                   credentials := held; renewals := [] |}))))
      as [l Hl].
    { intros j r Hj. specialize (Hleft j r Hj).
      assert (j < length (client :: docs))%nat as Hlt.
      { rewrite <- Hclients, length_fmap. apply (lookup_lt_Some _ _ _ Hj). }
      specialize (Hcomplete j Hlt). lia. }
    rewrite Hl.
    destruct (sendRenewalWebhook_step env (N8N_RENEWAL_WEBHOOK_URL cfg) l
                (world (run env cfg schedule
                          (start_all env cfg (client :: docs)
                             {| world := record_effect DateNow w;
                                credentials := held; renewals := [] |}))))
      as (w2 & new & -> & _ & Hhist & Hdel & _).
    pose proof (results_report _ _ Hl Hreports) as Hall. rewrite Hclients in Hall.
    eexists _, w2. split; [reflexivity|]. split.
    { rewrite (HandshakeFacts.since_history w w2 ([DateNow] ++ newp ++ new)).
      - rewrite !WebhookFacts.deliveries_app, Hquiet. simpl. lia.
      - rewrite Hhist, Hnewp. cbn [history record_effect]. rewrite <- !app_assoc.
        reflexivity. }
    split; [discriminate|]. split; [symmetry; apply (Forall2_length _ _ _ Hall)|].
    split; [apply BatchNotifierFacts.filter_partition | exact Hall].
Qed.

(** Every request a batch sends to [gmail.users.watch] goes out with the
    tokens of the last document of the snapshot, when these can be read:
    each renewal hands its tokens to the one OAuth client of the module
    before any of them gets to its request. *)
Theorem batch_watches_with_the_last_credentials
    env cfg order later held schedule w docs last t c w' :
  expiring env order later w = docs ++ [last] ->
  (forall w0, WatchRenewal.decryptTokens env (ENCRYPTION_KEY cfg) (tokens last) w0
              = (Return t, w0)) ->
  renewGmailWatches env cfg None order later held schedule w = Some (c, w') ->
  watched_with t w w'.
Proof.
  intros Hdocs Hread Hrun.
  destruct (batch_outcome _ _ _ _ _ _ _ _ _ _ Hrun)
    as [(e & He & _)|[(_ & Hnone & _)|(_ & _ & l & new & _ & _ & _ & Hhist & _ & Hnew)]].
  - discriminate.
  - rewrite Hdocs in Hnone. destruct docs; discriminate.
  - rewrite Hdocs in Hhist.
    destruct (batch_invariants env cfg held schedule (docs ++ [last])
                (record_effect DateNow w)) as (_ & _ & _ & Hwatched & _).
    cbv zeta in Hwatched. rewrite (start_all_last _ _ _ _ _ _ Hread) in Hwatched.
    apply (watched_with_trans _ _ (record_effect DateNow w)); [grown|].
    apply (watched_with_trans _ _ _ _ Hwatched).
    apply (watched_with_other _ _ _ new Hhist Hnew).
Qed.

(** The HTTP entry answers 500, with the message of the error, exactly
    when Firestore rejects the query for the snapshot, and has done
    nothing but read the clock then. Whenever the query is answered and the
    batch comes to its end the answer is 200. *)
Theorem batch_fails_only_with_the_query env cfg order later held schedule w :
  (forall error,
     renewGmailWatchesHTTP env cfg (Some error) order later held schedule w
     = Some (Answer500 (message error), record_effect DateNow w))
  /\ (forall answer w',
        renewGmailWatchesHTTP env cfg None order later held schedule w = Some (answer, w') ->
        exists result, answer = Answer200 result).
Proof.
  split.
  - intros error. unfold renewGmailWatchesHTTP. rewrite batch_rejected. reflexivity.
  - intros answer w'. unfold renewGmailWatchesHTTP.
    destruct (renewGmailWatches env cfg None order later held schedule w)
      as [[c w1]|] eqn:Hrun; [|discriminate].
    destruct (batch_outcome _ _ _ _ _ _ _ _ _ _ Hrun)
      as [(e & He & _)|[(_ & _ & -> & _)|(_ & _ & l & new & _ & -> & _)]].
    + discriminate.
    + intros H. injection H as <- _. eexists. reflexivity.
    + intros H. injection H as <- _. eexists. reflexivity.
Qed.

(** A batch creates no document and deletes none; in a document it
    changes the subscription, [lastRenewed] and [updatedAt] at most; and
    it leaves alone every document that is not in its snapshot. *)
Theorem batch_changes_subscriptions_only
    env cfg rejected order later held schedule w c w' :
  renewGmailWatches env cfg rejected order later held schedule w = Some (c, w') ->
  subscriptions_apart w w'
  /\ forall id, ~ In id (map clientId (expiring env order later w)) ->
                firestore w' !! id = firestore w !! id.
Proof.
  intros Hrun.
  destruct (batch_outcome _ _ _ _ _ _ _ _ _ _ Hrun)
    as [(e & _ & _ & ->)|[(_ & _ & _ & ->)|(_ & _ & l & new & _ & _ & Hstore & _)]].
  - split; [apply subscriptions_apart_same; reflexivity | reflexivity].
  - split; [apply subscriptions_apart_same; reflexivity | reflexivity].
  - destruct (batch_store env cfg held schedule (expiring env order later w)
                (record_effect DateNow w)) as (Hapart & Hrest).
    cbv zeta in Hapart, Hrest. split.
    + intros id. rewrite Hstore. apply Hapart.
    + intros id Hid. rewrite Hstore. apply (Hrest id Hid).
Qed.

Lemma alice_deciphers w0 :
  WatchRenewal.decryptTokens Sample.env_up (ENCRYPTION_KEY BatchSample.cfg)
    (tokens Sample.alice_stored) w0
  = (Return BatchSample.alice_tokens, w0).
Proof.
  unfold WatchRenewal.decryptTokens. WorldFacts.run.
  assert (WatchRenewal.decrypt Sample.env_up (ENCRYPTION_KEY BatchSample.cfg)
            (access_token (tokens Sample.alice_stored)) = Return "ya29.a0AfH6SM") as ->
    by (vm_compute; reflexivity).
  reflexivity.
Qed.

Lemma batch_reports_every_renewal_witness :
  exists summary w',
    renewGmailWatches Sample.env_up BatchSample.cfg None (fun l => l) BatchSample.later
      Sample.google_tokens BatchSample.in_turns BatchSample.world_watched
    = Some (Return summary, w')
    /\ (deliveries (since BatchSample.world_watched w') <= 1)%nat
    /\ match summary with
       | NothingToRenew =>
           expiring Sample.env_up (fun l => l) BatchSample.later BatchSample.world_watched = []
           /\ since BatchSample.world_watched w' = [DateNow]
       | Processed totalProcessed successful failed results =>
           expiring Sample.env_up (fun l => l) BatchSample.later BatchSample.world_watched
           <> []
           /\ totalProcessed
              = length (expiring Sample.env_up (fun l => l) BatchSample.later
                          BatchSample.world_watched)
           /\ (successful + failed)%nat = totalProcessed
           /\ Forall2 (fun client result =>
                         get "clientId" result = Some (JStr (clientId client))
                         /\ exists b, get "success" result = Some (JBool b))
                (expiring Sample.env_up (fun l => l) BatchSample.later
                   BatchSample.world_watched) results
       end.
Proof.
  apply (batch_reports_every_renewal Sample.env_up BatchSample.cfg (fun l => l)
           BatchSample.later Sample.google_tokens BatchSample.in_turns
           BatchSample.world_watched).
  assert (length (expiring Sample.env_up (fun l => l) BatchSample.later
                    BatchSample.world_watched) = 2%nat) as -> by (vm_compute; reflexivity).
  intros [|[|j]] Hj; [vm_compute; lia | vm_compute; lia | lia].
Defined.

Lemma batch_watches_with_the_last_credentials_witness :
  exists c w',
    renewGmailWatches Sample.env_up BatchSample.cfg None (fun l => l) BatchSample.later
      Sample.google_tokens BatchSample.in_turns BatchSample.world_watched
    = Some (c, w')
    /\ watched_with BatchSample.alice_tokens BatchSample.world_watched w'.
Proof.
  destruct (renewGmailWatches Sample.env_up BatchSample.cfg None (fun l => l)
              BatchSample.later Sample.google_tokens BatchSample.in_turns
              BatchSample.world_watched) as [[c w']|] eqn:Hrun;
    [|vm_compute in Hrun; discriminate].
  exists c, w'. split; [reflexivity|].
  apply (batch_watches_with_the_last_credentials Sample.env_up BatchSample.cfg (fun l => l)
           BatchSample.later Sample.google_tokens BatchSample.in_turns
           BatchSample.world_watched [BatchSample.bob_watched] Sample.alice_stored
           BatchSample.alice_tokens c w');
    [vm_compute; reflexivity | exact alice_deciphers | exact Hrun].
Defined.

(** Alice and Bob are renewed in one batch, Bob's document first in the
    snapshot: both subscriptions are asked for with Alice's tokens, Bob's
    too, and Bob's document takes the answer. *)
Example batch_of_two_watches_as_the_last :
  match renewGmailWatches Sample.env_up BatchSample.cfg None (fun l => l) BatchSample.later
          Sample.google_tokens BatchSample.in_turns BatchSample.world_watched with
  | Some (Return (Processed 2 2 0 _), w') =>
      map gmailAddress
        (expiring Sample.env_up (fun l => l) BatchSample.later BatchSample.world_watched)
      = ["bob.inbox@gmail.com"; "alice.inbox@gmail.com"]
      /\ watch_credentials (history w') = [BatchSample.alice_tokens; BatchSample.alice_tokens]
      /\ (lastRenewed <$> firestore w' !! clientId BatchSample.bob_watched)
         = Some (Some 1705318200007%Z)
  | _ => False
  end.
Proof. vm_compute. repeat split. Qed.

Lemma batch_fails_only_with_the_query_witness :
  exists result w',
    renewGmailWatchesHTTP Sample.env_up BatchSample.cfg None (fun l => l) BatchSample.later
      Sample.google_tokens BatchSample.in_turns BatchSample.world_watched
    = Some (Answer200 result, w').
Proof.
  destruct (renewGmailWatchesHTTP Sample.env_up BatchSample.cfg None (fun l => l)
              BatchSample.later Sample.google_tokens BatchSample.in_turns
              BatchSample.world_watched) as [[answer w']|] eqn:Hrun;
    [|vm_compute in Hrun; discriminate].
  destruct (proj2 (batch_fails_only_with_the_query Sample.env_up BatchSample.cfg
                     (fun l => l) BatchSample.later Sample.google_tokens
                     BatchSample.in_turns BatchSample.world_watched) answer w' Hrun)
    as [result ->].
  exists result, w'. reflexivity.
Defined.

Lemma batch_changes_subscriptions_only_witness :
  exists c w',
    renewGmailWatches Sample.env_up BatchSample.cfg None (fun l => l) BatchSample.later
      Sample.google_tokens BatchSample.in_turns BatchSample.world_watched
    = Some (c, w')
    /\ subscriptions_apart BatchSample.world_watched w'
    /\ forall id,
         ~ In id (map clientId (expiring Sample.env_up (fun l => l) BatchSample.later
                                  BatchSample.world_watched)) ->
         firestore w' !! id = firestore BatchSample.world_watched !! id.
Proof.
  destruct (renewGmailWatches Sample.env_up BatchSample.cfg None (fun l => l)
              BatchSample.later Sample.google_tokens BatchSample.in_turns
              BatchSample.world_watched) as [[c w']|] eqn:Hrun;
    [|vm_compute in Hrun; discriminate].
  exists c, w'. split; [reflexivity|].
  apply (batch_changes_subscriptions_only Sample.env_up BatchSample.cfg None (fun l => l)
           BatchSample.later Sample.google_tokens BatchSample.in_turns
           BatchSample.world_watched c w' Hrun).
Defined.

(** ** A batch of one *)

Lemma alone_S env cfg held n r w :
  alone env cfg held (S n) r w
  = match resume env cfg held r w with
    | (Return stage, w') =>
        alone env cfg held n {| renewal_client := renewal_client r;
                                renewal_stage := stage |} w'
    | (Throw e, w') => (Throw e, w')
    end.
Proof. reflexivity. Qed.

Lemma alone_settled env cfg held n client result w :
  alone env cfg held n {| renewal_client := client; renewal_stage := Settled result |} w
  = (Return (Settled result), w).
Proof. induction n as [|n IH]; [reflexivity|]. rewrite alone_S. exact IH. Qed.

(** Answers past the last one a renewal waits for change nothing. *)
Lemma alone_enough env cfg held : forall n r w,
  reports r -> (answers_left (renewal_stage r) <= n)%nat ->
  alone env cfg held (S n) r w = alone env cfg held n r w.
Proof.
  induction n as [|n IH]; intros r w Hr Hle.
  - destruct r as [client stage]. destruct stage; simpl in Hle; try lia.
    rewrite !alone_settled. reflexivity.
  - rewrite (alone_S _ _ _ (S n)), (alone_S _ _ _ n).
    destruct (resume_step env cfg held r w Hr) as (stage & w' & -> & _ & _ & Hrep & Hleft).
    apply IH; [exact Hrep|]. cbn [renewal_stage]. destruct Hleft as [Hless|(_ & _ & Hzero)]; lia.
Qed.

(** The next answer of a renewal that runs alone. *)
Ltac answer :=
  rewrite alone_S; unfold resume; cbn [renewal_stage renewal_client negb];
  unfold request_watch, request_update, failed, ask, settle, topic_of; WorldFacts.run.

(** What the outside answered, case by case. *)
Ltac oracle :=
  match goal with
  | |- context [topic_exists ?e ?h ?t] => destruct (topic_exists e h t) as [[|]|?]
  | |- context [createTopic ?e ?h ?t] => destruct (createTopic e h t) as [[]|?]
  | |- context [users_watch ?e ?h ?c ?t] => destruct (users_watch e h c t)
  | |- context [firestore_down ?e ?h] => destruct (firestore_down e h)
  | |- context [firestore ?w !! ?k] => destruct (firestore w !! k)
  end.

(** The renewal of one document, its four answers taken one after the
    other, is [renewWatch]. *)
Lemma alone_is_renewWatch env cfg held client w :
  match start env cfg held client w with
  | (Return (stage, held'), w1) =>
      match alone env cfg held' 4 {| renewal_client := client; renewal_stage := stage |} w1
      with
      | (Return (Settled result), wf) =>
          WatchRenewal.renewWatch env cfg client w = (Return result, wf)
      | _ => False
      end
  | _ => False
  end.
Proof.
  destruct (tokens_read_or_refused env (ENCRYPTION_KEY cfg) (tokens client)) as [[t|e] Hread];
    unfold WatchRenewal.renewWatch, WatchRenewal.renewWatch_try, start, failed, ask,
      WatchRenewal.createPubSubTopic, GmailWatch.watch, topic_of;
    WorldFacts.run; rewrite !Hread; WorldFacts.run.
  - repeat first [rewrite alone_settled
                 | progress answer
                 | oracle; cbn [negb]; WorldFacts.run];
      reflexivity.
  - rewrite alone_settled. reflexivity.
Qed.

(** A process of one renewal, as the answers arrive. *)
Lemma run_alone env cfg schedule : forall p r,
  renewals p = [r] -> reports r ->
  exists r',
    renewals (run env cfg schedule p) = [r']
    /\ reports r'
    /\ (answers_left (renewal_stage r')
        <= answers_left (renewal_stage r) - count_occ Nat.eq_dec schedule 0)%nat
    /\ alone env cfg (credentials p) 4 r' (world (run env cfg schedule p))
       = alone env cfg (credentials p) 4 r (world p).
Proof.
  induction schedule as [|i schedule IH]; intros p r Hone Hr.
  - exists r. split; [exact Hone|]. split; [exact Hr|]. split; [simpl; lia | reflexivity].
  - assert (exists r1,
              renewals (deliver env cfg i p) = [r1] /\ reports r1
              /\ credentials (deliver env cfg i p) = credentials p
              /\ (answers_left (renewal_stage r1)
                  <= answers_left (renewal_stage r) - (if Nat.eq_dec i 0 then 1 else 0))%nat
              /\ alone env cfg (credentials p) 4 r1 (world (deliver env cfg i p))
                 = alone env cfg (credentials p) 4 r (world p))
      as (r1 & Hone1 & Hr1 & Hheld & Hle1 & Halone1).
    { unfold deliver. rewrite Hone. destruct i as [|i]; cbn [lookup list_lookup].
      - destruct (resume_step env cfg (credentials p) r (world p) Hr)
          as (stage & w' & Hrun & _ & _ & Hrep & Hleft).
        rewrite Hrun. cbn [renewals credentials world].
        eexists. split; [reflexivity|]. split; [exact Hrep|]. split; [reflexivity|].
        split; [cbn [renewal_stage]; destruct Hleft as [Hless|(-> & _ & Hzero)];
                destruct (Nat.eq_dec 0 0); lia|].
        rewrite <- (alone_enough env cfg (credentials p) 4 r (world p) Hr
                      (answers_left_bound _)).
        rewrite (alone_S _ _ _ 4 r), Hrun. reflexivity.
      - exists r. split; [exact Hone|]. split; [exact Hr|]. split; [reflexivity|].
        split; [destruct (Nat.eq_dec (S i) 0); lia | reflexivity]. }
    destruct (IH (deliver env cfg i p) r1 Hone1 Hr1) as (r' & Hone' & Hr' & Hle' & Halone').
    unfold run in *. cbn [fold_left]. exists r'. split; [exact Hone'|].
    split; [exact Hr'|]. split.
    + cbn [count_occ]. destruct (Nat.eq_dec i 0); lia.
    + rewrite <- Halone1, <- Hheld. exact Halone'.
Qed.

(** A batch over a snapshot of one document is [renewWatch] on this
    document, then the notifier on its result: it returns what these
    return and leaves the world as these leave it, in whatever order the
    answers arrive. *)
Theorem batch_of_one_is_renewWatch env cfg order later held schedule w client :
  expiring env order later w = [client] ->
  (4 <= count_occ Nat.eq_dec schedule 0)%nat ->
  exists result w1 w',
    WatchRenewal.renewWatch env cfg client (record_effect DateNow w) = (Return result, w1)
    /\ WatchRenewal.sendRenewalWebhook env (N8N_RENEWAL_WEBHOOK_URL cfg) [result] w1
       = (Return tt, w')
    /\ renewGmailWatches env cfg None order later held schedule w
       = Some (Return (Processed 1
                         (if WatchRenewal.success result then 1 else 0)
                         (if WatchRenewal.success result then 0 else 1)
                         [result]), w').
Proof.
  intros Hdocs Hcomplete. rewrite (batch_process _ _ _ _ _ _ _ _ _ Hdocs).
  pose proof (alone_is_renewWatch env cfg held client (record_effect DateNow w)) as Hdirect.
  cbn [start_all credentials world renewals app].
  destruct (start_step env cfg held client (record_effect DateNow w))
    as (stage & held' & w0 & Hstart & _ & _ & _ & Hrep & _).
  rewrite Hstart in Hdirect |- *.
  destruct (run_alone env cfg schedule
              {| world := w0; credentials := held';
                 renewals := [{| renewal_client := client; renewal_stage := stage |}] |}
              _ eq_refl Hrep) as (r' & Hone & Hr' & Hle & Halone).
  cbn [credentials world renewal_stage] in Halone, Hle. rewrite <- Halone in Hdirect.
  rewrite Hone. destruct r' as [client' stage']. cbn [renewal_stage] in Hle.
  destruct stage' as [| | | |result'];
    try (pose proof (answers_left_bound stage); simpl in Hle; lia).
  rewrite alone_settled in Hdirect. cbn [results renewal_stage].
  destruct (sendRenewalWebhook_step env (N8N_RENEWAL_WEBHOOK_URL cfg) [result'] 
              (world (run env cfg schedule
                 {| world := w0; credentials := held';
                    renewals := [{| renewal_client := client; renewal_stage := stage |}] |})))
    as (w2 & new & Hsend & _).
  rewrite Hsend. eexists result', _, w2. split; [exact Hdirect|]. split; [exact Hsend|].
  cbn [length List.filter]. destruct (WatchRenewal.success result'); reflexivity.
Qed.

Lemma batch_of_one_is_renewWatch_witness :
  exists result w1 w',
    WatchRenewal.renewWatch Sample.env_up BatchSample.cfg Sample.alice_stored
      (record_effect DateNow Sample.world_alice) = (Return result, w1)
    /\ WatchRenewal.sendRenewalWebhook Sample.env_up
         (N8N_RENEWAL_WEBHOOK_URL BatchSample.cfg) [result] w1
       = (Return tt, w')
    /\ renewGmailWatches Sample.env_up BatchSample.cfg None (fun l => l) BatchSample.later
         Sample.google_tokens [0; 0; 0; 0]%nat Sample.world_alice
       = Some (Return (Processed 1
                         (if WatchRenewal.success result then 1 else 0)
                         (if WatchRenewal.success result then 0 else 1)
                         [result]), w').
Proof.
  apply (batch_of_one_is_renewWatch Sample.env_up BatchSample.cfg (fun l => l)
           BatchSample.later Sample.google_tokens [0; 0; 0; 0]%nat Sample.world_alice
           Sample.alice_stored); [vm_compute; reflexivity | vm_compute; lia].
Defined.
End SchedulerFacts.
